(** * Wally backend: custodial payments settled on a ledger network

    A shallow embedding of the transaction lifecycle of the backend:
    secret-key encryption (wallet.crypto.ts), the ledger gateway
    (stellar.service.ts), wallet funding and balance reads
    (wallet.service.ts), payment intake (transaction.service.ts and
    transaction.controller.ts) and the settlement worker run by the job
    queue, followed by the properties of the design specification stated
    over these definitions. *)

From Stdlib Require Import String Ascii List ZArith QArith Lia Bool DecimalString.
From Stdlib Require DecimalPos DecimalN.
Import ListNotations.
Local Open Scope string_scope.
Local Open Scope Z_scope.

(* ===================================================================== *)
(** * Part I: the program *)
(* ===================================================================== *)

(** ** Errors (utils/errors.ts) *)

(** The classes of values the code throws: the [AppError] hierarchy, the
    plain [Error] of [throw new Error(...)], and the request errors of the
    Prisma client. *)
Inductive ErrorClass : Type :=
  | PlainError
  | PrismaError
  | UnauthorizedError
  | ForbiddenError
  | ValidationError
  | NotFoundError
  | InsufficientBalanceError
  | WalletFrozenError
  | UserBlockedError
  | DuplicateHandleError
  | RateLimitExceededError
  | LimitExceededError
  | StellarError
  | TransactionFailedError
  | ConflictError
  | InternalServerError.

Record Exn : Type := mkExn {
  cls : ErrorClass;
  message : string;
  metadata : list (string * string)
}.

(** The [code] and [httpStatus] each subclass passes to [super]. *)
Definition code (c : ErrorClass) : string :=
  match c with
  | PlainError => "" | PrismaError => ""
  | UnauthorizedError => "UNAUTHORIZED"
  | ForbiddenError => "FORBIDDEN"
  | ValidationError => "VALIDATION_ERROR"
  | NotFoundError => "NOT_FOUND"
  | InsufficientBalanceError => "INSUFFICIENT_BALANCE"
  | WalletFrozenError => "WALLET_FROZEN"
  | UserBlockedError => "USER_BLOCKED"
  | DuplicateHandleError => "DUPLICATE_HANDLE"
  | RateLimitExceededError => "RATE_LIMIT_EXCEEDED"
  | LimitExceededError => "LIMIT_EXCEEDED"
  | StellarError => "STELLAR_ERROR"
  | TransactionFailedError => "TRANSACTION_FAILED"
  | ConflictError => "CONFLICT"
  | InternalServerError => "INTERNAL_SERVER_ERROR"
  end.

Definition httpStatus (c : ErrorClass) : Z :=
  match c with
  | UnauthorizedError => 401
  | ForbiddenError | WalletFrozenError | UserBlockedError => 403
  | ValidationError | InsufficientBalanceError | LimitExceededError => 400
  | NotFoundError => 404
  | DuplicateHandleError | ConflictError => 409
  | RateLimitExceededError => 429
  | _ => 500
  end.

Definition newError (msg : string) : Exn := mkExn PlainError msg [].
Definition newValidationError (msg : string) : Exn := mkExn ValidationError msg [].
Definition newNotFoundError (resource : string) : Exn :=
  mkExn NotFoundError (resource ++ " not found") [].
Definition newInsufficientBalanceError (required available : string) : Exn :=
  mkExn InsufficientBalanceError
    ("Insufficient balance. Required: " ++ required ++ ", Available: " ++ available)
    [("required", required); ("available", available)].
Definition newWalletFrozenError (walletId : string) : Exn :=
  mkExn WalletFrozenError "Wallet is frozen" [("walletId", walletId)].
Definition newUserBlockedError (userId : string) : Exn :=
  mkExn UserBlockedError "User account is blocked" [("userId", userId)].
Definition newRateLimitExceededError (msg : string) : Exn :=
  mkExn RateLimitExceededError msg [].
Definition newLimitExceededError (msg : string) : Exn :=
  mkExn LimitExceededError msg [].
Definition newStellarError (msg : string) : Exn := mkExn StellarError msg [].
Definition newInternalServerError (msg : string) (md : list (string * string)) : Exn :=
  mkExn InternalServerError msg md.

(** What a call produces: a value, or a thrown error. *)
Inductive Outcome (A : Type) : Type :=
  | Ok (a : A)
  | Throw (e : Exn).
Arguments Ok {A} a.
Arguments Throw {A} e.

(** ** Buffers and their hex encoding *)

(** A [Buffer] is a list of bytes; a string stands for its UTF-8 bytes. *)
Definition bytes : Type := list ascii.

Definition utf8Encode (s : string) : bytes := list_ascii_of_string s.
Definition utf8Decode (b : bytes) : string := string_of_list_ascii b.

Definition hexDigit (n : N) : ascii :=
  match n with
  | 0%N => "0" | 1%N => "1" | 2%N => "2" | 3%N => "3" | 4%N => "4"
  | 5%N => "5" | 6%N => "6" | 7%N => "7" | 8%N => "8" | 9%N => "9"
  | 10%N => "a" | 11%N => "b" | 12%N => "c" | 13%N => "d" | 14%N => "e"
  | _ => "f"
  end%char.

Definition hexValue (c : ascii) : option N :=
  let n := N_of_ascii c in
  if ((48 <=? n) && (n <=? 57))%N then Some (n - 48)%N
  else if ((97 <=? n) && (n <=? 102))%N then Some (n - 87)%N
  else if ((65 <=? n) && (n <=? 70))%N then Some (n - 55)%N
  else None.

Definition byteToHex (b : ascii) : string :=
  String (hexDigit (N_of_ascii b / 16)) (String (hexDigit (N_of_ascii b mod 16)) "").

(** [buf.toString("hex")] *)
Fixpoint toHex (bs : bytes) : string :=
  match bs with
  | [] => ""
  | b :: r => byteToHex b ++ toHex r
  end.

(** [Buffer.from(s, "hex")]: decodes pairs of hex digits and stops at the
    first pair that is not one. *)
Fixpoint fromHex (s : string) : bytes :=
  match s with
  | String h (String l r) =>
      match hexValue h, hexValue l with
      | Some a, Some b => ascii_of_N (16 * a + b) :: fromHex r
      | _, _ => []
      end
  | _ => []
  end.

(** [s.split(sep)] for a one-character separator. *)
Fixpoint split (sep : ascii) (s : string) : list string :=
  match s with
  | "" => [""]
  | String c r =>
      if Ascii.eqb c sep then "" :: split sep r
      else match split sep r with
           | h :: t => String c h :: t
           | [] => [String c ""]
           end
  end.

(** Whether character [c] occurs in [s]. *)
Fixpoint hasChar (c : ascii) (s : string) : bool :=
  match s with
  | "" => false
  | String d r => Ascii.eqb d c || hasChar c r
  end.

(** JavaScript truthiness of a possibly undefined string. *)
Definition truthy (s : option string) : bool :=
  match s with
  | Some (String _ _) => true
  | _ => false
  end.

(** ** Secret-key encryption (modules/wallet/wallet.crypto.ts) *)

(** Node's [aes-256-gcm] cipher, taken as an interface: encryption of a
    plaintext under a key and an IV gives the ciphertext and the
    authentication tag; decryption answers [None] when the tag does not
    verify. *)
Class AesGcm : Type := {
  gcm_encrypt : bytes -> bytes -> bytes -> bytes * bytes;
  gcm_decrypt : bytes -> bytes -> bytes -> bytes -> option bytes
}.

(** The contract of the cipher the code relies on. *)
Record AesGcmSpec (G : AesGcm) : Prop := {
  gcm_roundtrip : forall key iv pt,
    gcm_decrypt key iv (fst (gcm_encrypt key iv pt)) (snd (gcm_encrypt key iv pt))
    = Some pt;
  gcm_length : forall key iv pt,
    length (fst (gcm_encrypt key iv pt)) = length pt;
  gcm_tag_length : forall key iv pt,
    length (snd (gcm_encrypt key iv pt)) = 16%nat
}.

(** A small cipher with the same interface, used to run the definitions
    on concrete inputs: the keystream byte is the exclusive or of the
    first key byte and the first IV byte, the tag is the plaintext length
    repeated on 16 bytes. *)
Definition xorByte (a b : ascii) : ascii :=
  match a, b with
  | Ascii a0 a1 a2 a3 a4 a5 a6 a7, Ascii b0 b1 b2 b3 b4 b5 b6 b7 =>
      Ascii (xorb a0 b0) (xorb a1 b1) (xorb a2 b2) (xorb a3 b3)
            (xorb a4 b4) (xorb a5 b5) (xorb a6 b6) (xorb a7 b7)
  end.

Definition streamByte (key iv : bytes) : ascii :=
  xorByte (hd zero key) (hd zero iv).

Definition xorTag (pt : bytes) : bytes :=
  repeat (ascii_of_N (N.of_nat (length pt) mod 256)) 16.

Definition xorGcm : AesGcm := {|
  gcm_encrypt key iv pt := (map (xorByte (streamByte key iv)) pt, xorTag pt);
  gcm_decrypt key iv ct tag :=
    let pt := map (xorByte (streamByte key iv)) ct in
    if String.eqb (utf8Decode tag) (utf8Decode (xorTag pt)) then Some pt else None
|}.

Record EncryptedData : Type := {
  encrypted : string;
  iv : string;
  authTag : string
}.

Record EncryptedSecret : Type := {
  encryptedSecret : string;
  secretIv : string
}.

Section Crypto.
Context {G : AesGcm}.
(** [KEY = Buffer.from(config.encryption.walletKey, "hex")] *)
Variable KEY : bytes.

(** [encrypt(plaintext)]; [rnd] is the outcome of [crypto.randomBytes(16)]. *)
Definition encrypt (rnd : bytes) (plaintext : string) : EncryptedData :=
  let r := gcm_encrypt KEY rnd (utf8Encode plaintext) in
  {| encrypted := toHex (fst r);
     iv := toHex rnd;
     authTag := toHex (snd r) |}.

(** [decrypt(encryptedData)]: [decipher.final] throws when the tag does
    not authenticate the data. *)
Definition decrypt (d : EncryptedData) : Outcome string :=
  match gcm_decrypt KEY (fromHex (iv d)) (fromHex (encrypted d)) (fromHex (authTag d)) with
  | Some pt => Ok (utf8Decode pt)
  | None => Throw (newError "Unsupported state or unable to authenticate data")
  end.

Definition encryptSecretKey (rnd : bytes) (secretKey : string) : EncryptedSecret :=
  let result := encrypt rnd secretKey in
  {| encryptedSecret := encrypted result ++ ":" ++ authTag result;
     secretIv := iv result |}.

Definition decryptSecretKey (encSecret : string) (ivHex : string) : Outcome string :=
  let parts := split ":" encSecret in
  let enc := nth_error parts 0 in
  let tag := nth_error parts 1 in
  if negb (truthy enc) || negb (truthy tag) then
    Throw (newError "Invalid encrypted secret key format")
  else
    decrypt {| encrypted := match enc with Some e => e | None => "" end;
               iv := ivHex;
               authTag := match tag with Some t => t | None => "" end |}.
End Crypto.

(** ** Numbers *)

(** A JavaScript number is modelled by an exact rational, [None] standing
    for [NaN]; rounding to binary floating point and the infinities are
    outside the model. *)
Definition JsNumber : Type := option Q.

Definition isNaN (x : JsNumber) : bool :=
  match x with None => true | Some _ => false end.

(** Comparisons and sums; a comparison with [NaN] is false. *)
Definition numLe (a b : JsNumber) : bool :=
  match a, b with Some x, Some y => Qle_bool x y | _, _ => false end.
Definition numLt (a b : JsNumber) : bool :=
  match a, b with Some x, Some y => negb (Qle_bool y x) | _, _ => false end.
Definition numGt (a b : JsNumber) : bool := numLt b a.
Definition numAdd (a b : JsNumber) : JsNumber :=
  match a, b with Some x, Some y => Some (Qred (x + y)) | _, _ => None end.

Definition isDigit (c : ascii) : bool :=
  let n := N_of_ascii c in ((48 <=? n) && (n <=? 57))%N.

Definition digitValue (c : ascii) : Z := Z.of_N (N_of_ascii c) - 48.

Definition isWhiteSpace (c : ascii) : bool :=
  let n := N_of_ascii c in
  ((n =? 32) || (n =? 9) || (n =? 10) || (n =? 11) || (n =? 12) || (n =? 13))%N.

Fixpoint trimStart (s : string) : string :=
  match s with
  | String c r => if isWhiteSpace c then trimStart r else s
  | "" => ""
  end.

(** Reads a run of decimal digits: its value, its length and what follows. *)
Fixpoint takeDigits (s : string) (acc : Z) (n : nat) : Z * nat * string :=
  match s with
  | String c r =>
      if isDigit c then takeDigits r (10 * acc + digitValue c) (S n) else (acc, n, s)
  | "" => (acc, n, s)
  end.

Definition takeSign (s : string) : bool * string :=
  match s with
  | String "-" r => (true, r)
  | String "+" r => (false, r)
  | _ => (false, s)
  end.

Definition takeExponent (s : string) : Z :=
  match s with
  | String c r =>
      if (Ascii.eqb c "e" || Ascii.eqb c "E")%char then
        let '(neg, r1) := takeSign r in
        let '(e, n, _) := takeDigits r1 0 0 in
        if (n =? 0)%nat then 0 else if neg then - e else e
      else 0
  | "" => 0
  end.

(** [parseFloat(s)]: leading white space is skipped and the longest prefix
    that is a decimal literal (sign, digits, fraction, exponent) is read;
    [NaN] when there is none. *)
Definition parseFloat (s : string) : JsNumber :=
  let '(neg, s1) := takeSign (trimStart s) in
  let '(ip, ni, s2) := takeDigits s1 0 0 in
  let '(fp, nf, s3) :=
    match s2 with
    | String "." r => takeDigits r 0 0
    | _ => (0, 0%nat, s2)
    end in
  if (ni + nf =? 0)%nat then None
  else
    let m := (ip * 10 ^ Z.of_nat nf + fp) # Z.to_pos (10 ^ Z.of_nat nf) in
    let v := Qred (m * Qpower (inject_Z 10) (takeExponent s3)) in
    Some (if neg then Qopp v else v).

(** A [DECIMAL(20,7)] column holds a whole number of 10^-7 units. *)
Definition Decimal : Type := Z.
Definition unitsPerXlm : Z := 10000000.

(** Storing a number in a decimal column rounds it to 7 fractional
    digits, halves away from zero. *)
Definition toDecimal (q : Q) : Decimal :=
  let n := Qnum q * unitsPerXlm in
  let d := Zpos (Qden q) in
  Z.sgn n * ((2 * Z.abs n + d) / (2 * d)).

Definition natString (n : Z) : string :=
  NilZero.string_of_uint (N.to_uint (Z.to_N n)).

(** The [k] low decimal digits of [f], most significant first. *)
Fixpoint fracDigits (k : nat) (f : Z) : string :=
  match k with
  | O => ""
  | S k' =>
      String (ascii_of_N (Z.to_N (48 + (f / 10 ^ Z.of_nat k') mod 10))) (fracDigits k' f)
  end.

Fixpoint stripZeros (s : string) : string :=
  match s with
  | "" => ""
  | String c r =>
      match stripZeros r with
      | "" => if Ascii.eqb c "0" then "" else String c ""
      | r' => String c r'
      end
  end.

(** [d.toString()] of a decimal: no trailing zeros, and exponent notation
    below 10^-6. *)
Definition Decimal_toString (d : Decimal) : string :=
  let a := Z.abs d in
  let sign := if d <? 0 then "-" else "" in
  let ip := a / unitsPerXlm in
  let fp := a mod unitsPerXlm in
  if (ip =? 0) && (0 <? fp) && (fp <? 10) then sign ++ natString fp ++ "e-7"
  else
    let fs := stripZeros (fracDigits 7 fp) in
    sign ++ natString ip ++ (match fs with "" => "" | _ => "." ++ fs end).

(** [x.toFixed(7)] *)
Definition toFixed7 (x : JsNumber) : string :=
  match x with
  | None => "NaN"
  | Some q =>
      let n := Qnum q * unitsPerXlm in
      let d := Zpos (Qden q) in
      let r := (2 * Z.abs n + d) / (2 * d) in
      (if Qnum q <? 0 then "-" else "") ++
      natString (r / unitsPerXlm) ++ "." ++ fracDigits 7 (r mod unitsPerXlm)
  end.

(** A number inside a template literal; exact for the values with at most
    7 fractional digits that the configuration holds. *)
Definition numberString (q : Q) : string := Decimal_toString (toDecimal q).

(** ** Configuration (config/index.ts) *)

Record Config : Type := {
  stellarNetwork : string;
  rateLimitMax : Z;
  dailyCapXlm : Q;
  minAmount : Q;
  maxAmount : Q;
  dailyLimit : Q;
  concurrency : Z;
  maxRetries : Z
}.

(** The values taken when the environment sets none. *)
Definition defaultConfig : Config := {|
  stellarNetwork := "testnet";
  rateLimitMax := 3;
  dailyCapXlm := inject_Z 10000;
  minAmount := inject_Z 1;
  maxAmount := inject_Z 100000;
  dailyLimit := inject_Z 500000;
  concurrency := 5;
  maxRetries := 3
|}.

(** ** Stored rows (prisma schema) *)

Inductive UserStatus : Type := ACTIVE | BLOCKED | SUSPENDED.
Inductive Role : Type := USER | ADMIN.
Inductive WalletStatus : Type := WALLET_ACTIVE | FROZEN | CLOSED.
Inductive TransactionStatus : Type := CREATED | PENDING | SUCCESS | FAILED | CANCELLED.
Inductive TransactionType : Type := FUNDING | P2P_SEND | P2P_RECEIVE.

Definition isBlocked (s : UserStatus) : bool :=
  match s with BLOCKED => true | _ => false end.
Definition isFrozen (s : WalletStatus) : bool :=
  match s with FROZEN => true | _ => false end.
Definition isClosed (s : WalletStatus) : bool :=
  match s with CLOSED => true | _ => false end.
Definition isTerminal (s : TransactionStatus) : bool :=
  match s with SUCCESS | FAILED => true | _ => false end.

Module User.
Record t : Type := {
  id : string;
  keycloakId : string;
  email : string;
  handle : string;
  role : Role;
  status : UserStatus
}.
End User.

Module Wallet.
Record t : Type := {
  id : string;
  userId : string;
  stellarPublicKey : string;
  stellarSecretKey : string;
  encryptionIV : string;
  balance : Decimal;
  status : WalletStatus;
  lastFundedAt : option Z;
  fundingCount : Z;
  dailyFundingSum : Decimal;
  lastResetDate : Z
}.
End Wallet.

Module Transaction.
Record t : Type := {
  id : string;
  senderId : string;
  receiverId : string;
  amount : Decimal;
  type : TransactionType;
  status : TransactionStatus;
  stellarTxHash : option string;
  stellarLedger : option Z;
  idempotencyKey : option string;
  failureReason : option string;
  retryCount : Z;
  senderHandle : string;
  recipientHandle : string;
  createdAt : Z;
  completedAt : option Z
}.
End Transaction.

(** A job of the [transaction-processing] queue, with its retry options. *)
Record Job : Type := {
  jobName : string;
  transactionId : string;
  attempts : Z;
  backoffDelay : Z
}.

(** ** The ledger network (Horizon), as the code sees it *)

Record HorizonError : Type := {
  responseStatus : option Z;
  operationCode : option string;
  errorMessage : string
}.

Record BalanceLine : Type := {
  asset_type : string;
  lineBalance : string
}.

Inductive AccountResult : Type :=
  | AccountLoaded (balances : list BalanceLine)
  | AccountFailed (e : HorizonError).

Inductive SubmitResult : Type :=
  | Submitted (hash : string) (ledger : Z)
  | SubmitFailed (e : HorizonError).

Inductive FetchResult : Type :=
  | FetchOk
  | FetchNotOk (statusText : string)
  | FetchFailed (msg : string).

(** The payment handed to the SDK by [StellarService.sendPayment]. *)
Record BuiltPayment : Type := {
  sourceSecret : string;
  destination : string;
  paymentAmount : string;
  memoText : option string
}.

(** The answers of the network. They may change as payments are sent:
    each is indexed by the number of payments the gateway was asked to
    send before. *)
Record Horizon : Type := {
  loadAccount : nat -> string -> AccountResult;
  submitTransaction : nat -> BuiltPayment -> SubmitResult;
  friendbot : nat -> string -> FetchResult
}.

(** What an operation runs against: configuration, encryption key,
    network, and the clock ([now], and local midnight of the same day). *)
Record Env : Type := {
  config : Config;
  KEY : bytes;
  horizon : Horizon;
  now : Z;
  startOfToday : Z
}.

(** ** The state: database tables, the job queue, and the record of the
    payments the gateway was asked to send *)

Record World : Type := {
  users : list User.t;
  wallets : list Wallet.t;
  transactions : list Transaction.t;
  jobs : list Job;
  payments : list BuiltPayment;
  nextId : nat
}.

Definition setTransactions (ts : list Transaction.t) (n : nat) (w : World) : World :=
  {| users := users w; wallets := wallets w; transactions := ts;
     jobs := jobs w; payments := payments w; nextId := n |}.

Definition setWallets (ws : list Wallet.t) (w : World) : World :=
  {| users := users w; wallets := ws; transactions := transactions w;
     jobs := jobs w; payments := payments w; nextId := nextId w |}.

Definition addJob (j : Job) (w : World) : World :=
  {| users := users w; wallets := wallets w; transactions := transactions w;
     jobs := jobs w ++ [j]; payments := payments w; nextId := nextId w |}.

Definition addPayment (p : BuiltPayment) (w : World) : World :=
  {| users := users w; wallets := wallets w; transactions := transactions w;
     jobs := jobs w; payments := payments w ++ [p]; nextId := nextId w |}.

(** ** Computations over the state that may throw *)

Definition M (A : Type) : Type := World -> Outcome A * World.

Definition ret {A : Type} (a : A) : M A := fun w => (Ok a, w).
Definition throw {A : Type} (e : Exn) : M A := fun w => (Throw e, w).
Definition bind {A B : Type} (m : M A) (k : A -> M B) : M B :=
  fun w =>
    match m w with
    | (Ok a, w') => k a w'
    | (Throw e, w') => (Throw e, w')
    end.
(** [try { body } catch (error) { handler }]: what [body] wrote before it
    threw stays written. *)
Definition tryCatch {A : Type} (body : M A) (handler : Exn -> M A) : M A :=
  fun w =>
    match body w with
    | (Ok a, w') => (Ok a, w')
    | (Throw e, w') => handler e w'
    end.
Definition get : M World := fun w => (Ok w, w).
Definition modify (f : World -> World) : M unit := fun w => (Ok tt, f w).
Definition liftOutcome {A : Type} (o : Outcome A) : M A := fun w => (o, w).

Notation "x <- m ;; k" := (bind m (fun x => k))
  (at level 61, m at next level, right associativity).
Notation "m ;;; k" := (bind m (fun _ => k))
  (at level 61, right associativity).

(** ** The Prisma client *)

Definition recordNotFound : Exn :=
  mkExn PrismaError "Record to update not found." [("code", "P2025")].
Definition uniqueConstraintFailed (field : string) : Exn :=
  mkExn PrismaError ("Unique constraint failed on the fields: (`" ++ field ++ "`)")
        [("code", "P2002")].
Definition invalidValue : Exn :=
  mkExn PrismaError "Invalid value provided." [].

Definition optionEqb (a b : option string) : bool :=
  match a, b with
  | Some x, Some y => String.eqb x y
  | _, _ => false
  end.

Definition user_findById (id : string) (w : World) : option User.t :=
  find (fun u => String.eqb (User.id u) id) (users w).
Definition user_findByHandle (h : string) (w : World) : option User.t :=
  find (fun u => String.eqb (User.handle u) h) (users w).
Definition user_findByKeycloakId (k : string) (w : World) : option User.t :=
  find (fun u => String.eqb (User.keycloakId u) k) (users w).
Definition wallet_findById (id : string) (w : World) : option Wallet.t :=
  find (fun x => String.eqb (Wallet.id x) id) (wallets w).
Definition wallet_findByUserId (uid : string) (w : World) : option Wallet.t :=
  find (fun x => String.eqb (Wallet.userId x) uid) (wallets w).
Definition transaction_findById (id : string) (w : World) : option Transaction.t :=
  find (fun t => String.eqb (Transaction.id t) id) (transactions w).
Definition transaction_findByIdempotencyKey (k : string) (w : World)
  : option Transaction.t :=
  find (fun t => optionEqb (Transaction.idempotencyKey t) (Some k)) (transactions w).

(** Whether a row other than [id] already carries the settlement hash [h]. *)
Definition hashTaken (id : string) (h : option string) (w : World) : bool :=
  existsb (fun o => negb (String.eqb (Transaction.id o) id)
                    && optionEqb (Transaction.stellarTxHash o) h)
          (transactions w).

(** [prisma.transaction.update({ where: { id }, data })]: fails when the
    row is missing, or when the new settlement hash is already that of
    another row (unique index). *)
Definition transaction_update (id : string) (data : Transaction.t -> Transaction.t)
  : M Transaction.t :=
  fun w =>
    match transaction_findById id w with
    | None => (Throw recordNotFound, w)
    | Some t =>
        let t' := data t in
        if hashTaken id (Transaction.stellarTxHash t') w
        then (Throw (uniqueConstraintFailed "stellar_tx_hash"), w)
        else
          (Ok t',
           setTransactions
             (map (fun o => if String.eqb (Transaction.id o) id then data o else o)
                  (transactions w))
             (nextId w) w)
    end.

(** [prisma.transaction.create({ data })]: the row gets a fresh id; fails
    when the idempotency key is already that of a row (unique index). *)
Definition transaction_create (mk : string -> Transaction.t) : M Transaction.t :=
  fun w =>
    let t := mk ("tx_" ++ natString (Z.of_nat (nextId w))) in
    if existsb (fun o => optionEqb (Transaction.idempotencyKey o)
                                   (Transaction.idempotencyKey t))
               (transactions w)
    then (Throw (uniqueConstraintFailed "idempotency_key"), w)
    else (Ok t, setTransactions (transactions w ++ [t]) (S (nextId w)) w).

(** [prisma.wallet.update({ where: { id }, data })] *)
Definition wallet_update (id : string) (data : Wallet.t -> Wallet.t) : M Wallet.t :=
  fun w =>
    match wallet_findById id w with
    | None => (Throw recordNotFound, w)
    | Some x =>
        (Ok (data x),
         setWallets
           (map (fun o => if String.eqb (Wallet.id o) id then data o else o) (wallets w))
           w)
    end.

(** [prisma.transaction.aggregate({ where: { senderId, createdAt: { gte },
    status: { in: ["PENDING", "SUCCESS"] } }, _sum: { amount: true } })]:
    [null] when no row matches. *)
Definition transaction_sumSentSince (sender : string) (since : Z) (w : World)
  : option Decimal :=
  let rows :=
    filter (fun t => String.eqb (Transaction.senderId t) sender
                     && (since <=? Transaction.createdAt t)
                     && match Transaction.status t with
                        | PENDING | SUCCESS => true
                        | _ => false
                        end)
           (transactions w) in
  match rows with
  | [] => None
  | _ => Some (fold_left (fun acc t => acc + Transaction.amount t) rows 0)
  end.

(** ** Ledger gateway (modules/stellar/stellar.service.ts) *)

Record PaymentParams : Type := {
  fromSecretKey : string;
  toPublicKey : string;
  amount : string;
  memo : option string
}.

Record PaymentResult : Type := {
  hash : string;
  ledger : Z
}.

(** [error.response?.status === n] *)
Definition statusIs (status : option Z) (n : Z) : bool :=
  match status with
  | Some st => st =? n
  | None => false
  end.

Definition isNative (b : BalanceLine) : bool := String.eqb (asset_type b) "native".

Module StellarService.

(** [getBalance(publicKey)] *)
Definition getBalance (env : Env) (publicKey : string) : M string :=
  w <- get ;;
  match loadAccount (horizon env) (length (payments w)) publicKey with
  | AccountLoaded balances =>
      match find isNative balances with
      | Some nativeBalance =>
          if truthy (Some (lineBalance nativeBalance))
          then ret (lineBalance nativeBalance) else ret "0"
      | None => ret "0"
      end
  | AccountFailed error =>
      if statusIs (responseStatus error) 404 then ret "0"
      else throw (newStellarError "Failed to get account balance")
  end.

(** [fundWithFriendbot(publicKey)] *)
Definition fundWithFriendbot (env : Env) (publicKey : string) : M unit :=
  if negb (String.eqb (stellarNetwork (config env)) "testnet") then
    throw (newStellarError "Friendbot only available on testnet")
  else
    tryCatch
      (w <- get ;;
       match friendbot (horizon env) (length (payments w)) publicKey with
       | FetchOk => ret tt
       | FetchNotOk statusText =>
           throw (newStellarError ("Friendbot funding failed: " ++ statusText))
       | FetchFailed msg => throw (newError msg)
       end)
      (fun error =>
         throw (mkExn StellarError "Failed to fund account with Friendbot"
                      [("error", message error)])).

(** The payment built from the parameters: the memo is cut to 28
    characters. *)
Definition buildPayment (params : PaymentParams) : BuiltPayment :=
  {| sourceSecret := fromSecretKey params;
     destination := toPublicKey params;
     paymentAmount := amount params;
     memoText :=
       match memo params with
       | Some m =>
           if truthy (Some m) then
             Some (if (28 <? String.length m)%nat then substring 0 28 m else m)
           else None
       | None => None
       end |}.

(** [sendPayment(params)]: whatever the SDK or the network throws
    becomes a [StellarError]. *)
Definition sendPayment (env : Env) (params : PaymentParams) : M PaymentResult :=
  let built := buildPayment params in
  w <- get ;;
  modify (addPayment built) ;;;
  match submitTransaction (horizon env) (length (payments w)) built with
  | Submitted h l => ret {| hash := h; ledger := l |}
  | SubmitFailed error =>
      let detail :=
        match operationCode error with
        | Some c => if truthy (Some c) then c else errorMessage error
        | None => errorMessage error
        end in
      throw (newStellarError ("Payment failed: " ++ detail))
  end.

End StellarService.

(** ** Wallet custody (modules/wallet/wallet.service.ts) *)

Definition msPerDay : Z := 1000 * 60 * 60 * 24.

Record FundResult : Type := {
  fundSuccess : bool;
  fundBalance : string;
  fundMessage : string
}.

Record BalanceView : Type := {
  viewBalance : string;
  stellarBalance : string;
  synced : bool
}.

Module WalletService.
Definition getWalletByUserId (userId : string) : M Wallet.t :=
  w <- get ;;
  match wallet_findByUserId userId w with
  | None => throw (newNotFoundError "Wallet")
  | Some wallet => ret wallet
  end.

Definition getDecryptedSecretKey {G : AesGcm} (env : Env) (wallet : Wallet.t) : Outcome string :=
  decryptSecretKey (KEY env) (Wallet.stellarSecretKey wallet) (Wallet.encryptionIV wallet).

(** The counters a funding request is checked against: those of the
    wallet, or zero when the last reset is a day old. *)
Definition daysDiff (env : Env) (wallet : Wallet.t) : Z :=
  (now env - Wallet.lastResetDate wallet) / msPerDay.
Definition currentFundingCount (env : Env) (wallet : Wallet.t) : Z :=
  if 1 <=? daysDiff env wallet then 0 else Wallet.fundingCount wallet.
Definition currentDailyFundingSum (env : Env) (wallet : Wallet.t) : JsNumber :=
  if 1 <=? daysDiff env wallet then Some (inject_Z 0)
  else parseFloat (Decimal_toString (Wallet.dailyFundingSum wallet)).

Definition friendbotAmount : Q := inject_Z 10000.

(** [fundWallet(userId)] *)
Definition fundWallet (env : Env) (userId : string) : M FundResult :=
  wallet <- getWalletByUserId userId ;;
  if isFrozen (Wallet.status wallet) then
    throw (newWalletFrozenError (Wallet.id wallet))
  else
  let fundingCount := currentFundingCount env wallet in
  let dailyFundingSum := currentDailyFundingSum env wallet in
  if rateLimitMax (config env) <=? fundingCount then
    throw (newRateLimitExceededError
             ("Maximum " ++ natString (rateLimitMax (config env))
              ++ " fundings per day exceeded"))
  else if numGt (numAdd dailyFundingSum (Some friendbotAmount))
                (Some (dailyCapXlm (config env))) then
    throw (newLimitExceededError
             ("Daily funding cap of " ++ numberString (dailyCapXlm (config env))
              ++ " XLM exceeded"))
  else
    tryCatch
      (StellarService.fundWithFriendbot env (Wallet.stellarPublicKey wallet) ;;;
       balance <- StellarService.getBalance env (Wallet.stellarPublicKey wallet) ;;
       match parseFloat balance, numAdd dailyFundingSum (Some friendbotAmount) with
       | Some b, Some s =>
           wallet_update (Wallet.id wallet)
             (fun o =>
                {| Wallet.id := Wallet.id o;
                   Wallet.userId := Wallet.userId o;
                   Wallet.stellarPublicKey := Wallet.stellarPublicKey o;
                   Wallet.stellarSecretKey := Wallet.stellarSecretKey o;
                   Wallet.encryptionIV := Wallet.encryptionIV o;
                   Wallet.balance := toDecimal b;
                   Wallet.status := Wallet.status o;
                   Wallet.lastFundedAt := Some (now env);
                   Wallet.fundingCount := fundingCount + 1;
                   Wallet.dailyFundingSum := toDecimal s;
                   Wallet.lastResetDate :=
                     if 1 <=? daysDiff env wallet then now env
                     else Wallet.lastResetDate wallet |}) ;;;
           ret {| fundSuccess := true;
                  fundBalance := balance;
                  fundMessage := "Wallet funded successfully" |}
       | _, _ => throw invalidValue
       end)
      (fun error =>
         throw (newInternalServerError "Failed to fund wallet"
                                       [("error", message error)])).

Definition setBalance (b : Decimal) (o : Wallet.t) : Wallet.t :=
  {| Wallet.id := Wallet.id o;
     Wallet.userId := Wallet.userId o;
     Wallet.stellarPublicKey := Wallet.stellarPublicKey o;
     Wallet.stellarSecretKey := Wallet.stellarSecretKey o;
     Wallet.encryptionIV := Wallet.encryptionIV o;
     Wallet.balance := b;
     Wallet.status := Wallet.status o;
     Wallet.lastFundedAt := Wallet.lastFundedAt o;
     Wallet.fundingCount := Wallet.fundingCount o;
     Wallet.dailyFundingSum := Wallet.dailyFundingSum o;
     Wallet.lastResetDate := Wallet.lastResetDate o |}.

(** [syncBalance(walletId)] *)
Definition syncBalance (env : Env) (walletId : string) : M string :=
  w <- get ;;
  match wallet_findById walletId w with
  | None => throw (newNotFoundError "Wallet")
  | Some wallet =>
      balance <- StellarService.getBalance env (Wallet.stellarPublicKey wallet) ;;
      match parseFloat balance with
      | Some b => wallet_update walletId (setBalance (toDecimal b)) ;;; ret balance
      | None => throw invalidValue
      end
  end.

(** [getBalance(userId)] *)
Definition getBalance (env : Env) (userId : string) : M BalanceView :=
  wallet <- getWalletByUserId userId ;;
  stellarBalance0 <- StellarService.getBalance env (Wallet.stellarPublicKey wallet) ;;
  let dbBalance := toFixed7 (parseFloat (Decimal_toString (Wallet.balance wallet))) in
  let stellarBalance1 := toFixed7 (parseFloat stellarBalance0) in
  let synced := String.eqb dbBalance stellarBalance1 in
  ret {| viewBalance := dbBalance;
         stellarBalance := stellarBalance1;
         synced := synced |}.

End WalletService.

(** ** User lookups (modules/user/user.service.ts) *)

Module UserService.

Definition getUserById (id : string) : M User.t :=
  w <- get ;;
  match user_findById id w with
  | None => throw (newNotFoundError "User")
  | Some user => ret user
  end.

Definition getUserByKeycloakId (keycloakId : string) : M User.t :=
  w <- get ;;
  match user_findByKeycloakId keycloakId w with
  | None => throw (newNotFoundError "User")
  | Some user => ret user
  end.

Definition getUserByHandle (handle : string) : M User.t :=
  w <- get ;;
  match user_findByHandle handle w with
  | None => throw (newNotFoundError "User")
  | Some user => ret user
  end.

End UserService.

(** ** Payment intake and status updates
       (modules/transaction/transaction.service.ts) *)

Record SendPaymentParams : Type := {
  senderUserId : string;
  recipientHandle : string;
  sendAmount : string;
  idempotencyKey : option string
}.

Record StatusMetadata : Type := {
  stellarTxHash : option string;
  stellarLedger : option Z;
  failureReason : option string
}.

Definition noMetadata : StatusMetadata :=
  {| stellarTxHash := None; stellarLedger := None; failureReason := None |}.

Definition retryDelay : Z := 2000.

Module TransactionService.

(** The amount test of step 1. *)
Definition amountRejected (cfg : Config) (amountNum : JsNumber) : bool :=
  isNaN amountNum
  || numLe amountNum (Some (inject_Z 0))
  || numLt amountNum (Some (minAmount cfg))
  || numGt amountNum (Some (maxAmount cfg)).

(** [sendPayment(params)] *)
Definition sendPayment (env : Env) (params : SendPaymentParams) : M Transaction.t :=
  let cfg := config env in
  (* STEP 1: validate amount *)
  let amountNum := parseFloat (sendAmount params) in
  if amountRejected cfg amountNum then
    throw (newValidationError
             ("Amount must be between " ++ numberString (minAmount cfg) ++ " and "
              ++ numberString (maxAmount cfg) ++ " XLM"))
  else
  (* STEP 2: check idempotency *)
  w <- get ;;
  match (if truthy (idempotencyKey params) then
           match idempotencyKey params with
           | Some k => transaction_findByIdempotencyKey k w
           | None => None
           end
         else None) with
  | Some existing => ret existing
  | None =>
  (* STEP 3: get users *)
  sender <- UserService.getUserById (senderUserId params) ;;
  recipient <- UserService.getUserByHandle (recipientHandle params) ;;
  (* STEP 4: validate users *)
  if String.eqb (User.id sender) (User.id recipient) then
    throw (newValidationError "Cannot send payment to yourself")
  else if isBlocked (User.status sender) then
    throw (newUserBlockedError (User.id sender))
  else if isBlocked (User.status recipient) then
    throw (newUserBlockedError (User.id recipient))
  else
  (* STEP 5: get wallets *)
  senderWallet <- WalletService.getWalletByUserId (User.id sender) ;;
  recipientWallet <- WalletService.getWalletByUserId (User.id recipient) ;;
  (* STEP 6: validate wallets *)
  if isFrozen (Wallet.status senderWallet) then
    throw (newWalletFrozenError (Wallet.id senderWallet))
  else if isClosed (Wallet.status senderWallet) then
    throw (newValidationError "Sender wallet is closed")
  else if isFrozen (Wallet.status recipientWallet) then
    throw (newWalletFrozenError (Wallet.id recipientWallet))
  else if isClosed (Wallet.status recipientWallet) then
    throw (newValidationError "Recipient wallet is closed")
  else
  (* STEP 7: check balance *)
  let senderBalance := parseFloat (Decimal_toString (Wallet.balance senderWallet)) in
  if numLt senderBalance amountNum then
    throw (newInsufficientBalanceError
             (sendAmount params) (Decimal_toString (Wallet.balance senderWallet)))
  else
  (* STEP 8: check daily transaction limit *)
  let dailySum :=
    parseFloat
      match transaction_sumSentSince (User.id sender) (startOfToday env) w with
      | Some total =>
          if truthy (Some (Decimal_toString total)) then Decimal_toString total else "0"
      | None => "0"
      end in
  if numGt (numAdd dailySum amountNum) (Some (dailyLimit cfg)) then
    throw (newLimitExceededError
             ("Daily transaction limit of " ++ numberString (dailyLimit cfg)
              ++ " XLM exceeded"))
  else
  (* STEP 9: create transaction record (CREATED) *)
  match amountNum with
  | None => throw invalidValue
  | Some a =>
  transaction <-
    transaction_create
      (fun id =>
         {| Transaction.id := id;
            Transaction.senderId := User.id sender;
            Transaction.receiverId := User.id recipient;
            Transaction.amount := toDecimal a;
            Transaction.type := P2P_SEND;
            Transaction.status := CREATED;
            Transaction.stellarTxHash := None;
            Transaction.stellarLedger := None;
            Transaction.idempotencyKey := idempotencyKey params;
            Transaction.failureReason := None;
            Transaction.retryCount := 0;
            Transaction.senderHandle := User.handle sender;
            Transaction.recipientHandle := User.handle recipient;
            Transaction.createdAt := now env;
            Transaction.completedAt := None |}) ;;
  (* STEP 10: enqueue job *)
  modify (addJob {| jobName := "process-transaction";
                    transactionId := Transaction.id transaction;
                    attempts := maxRetries cfg;
                    backoffDelay := retryDelay |}) ;;;
  ret transaction
  end
  end.

(** The row after [updateTransactionStatus] has written to it. *)
Definition statusUpdate (env : Env) (status : TransactionStatus)
           (metadata : StatusMetadata) (o : Transaction.t) : Transaction.t :=
  {| Transaction.id := Transaction.id o;
     Transaction.senderId := Transaction.senderId o;
     Transaction.receiverId := Transaction.receiverId o;
     Transaction.amount := Transaction.amount o;
     Transaction.type := Transaction.type o;
     Transaction.status := status;
     Transaction.stellarTxHash :=
       if truthy (stellarTxHash metadata) then stellarTxHash metadata
       else Transaction.stellarTxHash o;
     Transaction.stellarLedger :=
       match stellarLedger metadata with
       | Some l => if l =? 0 then Transaction.stellarLedger o else Some l
       | None => Transaction.stellarLedger o
       end;
     Transaction.idempotencyKey := Transaction.idempotencyKey o;
     Transaction.failureReason :=
       if truthy (failureReason metadata) then failureReason metadata
       else Transaction.failureReason o;
     Transaction.retryCount := Transaction.retryCount o;
     Transaction.senderHandle := Transaction.senderHandle o;
     Transaction.recipientHandle := Transaction.recipientHandle o;
     Transaction.createdAt := Transaction.createdAt o;
     Transaction.completedAt :=
       if isTerminal status then Some (now env) else Transaction.completedAt o |}.

(** [updateTransactionStatus(transactionId, status, metadata)] *)
Definition updateTransactionStatus (env : Env) (transactionId : string)
           (status : TransactionStatus) (metadata : StatusMetadata)
  : M Transaction.t :=
  transaction_update transactionId (statusUpdate env status metadata).

Definition retryIncrement (o : Transaction.t) : Transaction.t :=
  {| Transaction.id := Transaction.id o;
     Transaction.senderId := Transaction.senderId o;
     Transaction.receiverId := Transaction.receiverId o;
     Transaction.amount := Transaction.amount o;
     Transaction.type := Transaction.type o;
     Transaction.status := Transaction.status o;
     Transaction.stellarTxHash := Transaction.stellarTxHash o;
     Transaction.stellarLedger := Transaction.stellarLedger o;
     Transaction.idempotencyKey := Transaction.idempotencyKey o;
     Transaction.failureReason := Transaction.failureReason o;
     Transaction.retryCount := Transaction.retryCount o + 1;
     Transaction.senderHandle := Transaction.senderHandle o;
     Transaction.recipientHandle := Transaction.recipientHandle o;
     Transaction.createdAt := Transaction.createdAt o;
     Transaction.completedAt := Transaction.completedAt o |}.

(** [incrementRetryCount(transactionId)] *)
Definition incrementRetryCount (transactionId : string) : M unit :=
  transaction_update transactionId retryIncrement ;;; ret tt.

End TransactionService.

(** ** The send route (modules/transaction/transaction.controller.ts) *)

Record SendPaymentBody : Type := {
  bodyRecipientHandle : string;
  bodyAmount : string;
  bodyIdempotencyKey : option string
}.

Record SendPaymentData : Type := {
  dataTransactionId : string;
  dataStatus : TransactionStatus;
  dataAmount : string;
  dataRecipientHandle : string;
  dataCreatedAt : Z;
  dataMessage : string
}.

Record Reply : Type := {
  replyCode : Z;
  replySuccess : bool;
  replyData : SendPaymentData
}.

Fixpoint allDigits (s : string) : bool :=
  match s with
  | "" => true
  | String c r => isDigit c && allDigits r
  end.

(** The pattern [/^\d+(\.\d{1,7})?$/] of the amount field. *)
Definition amountPattern (s : string) : bool :=
  match split "." s with
  | [i] => negb (String.eqb i "") && allDigits i
  | [i; f] =>
      negb (String.eqb i "") && allDigits i
      && (1 <=? String.length f)%nat && (String.length f <=? 7)%nat && allDigits f
  | _ => false
  end.

Definition sendPaymentSchema (body : SendPaymentBody) : bool :=
  (3 <=? String.length (bodyRecipientHandle body))%nat
  && (String.length (bodyRecipientHandle body) <=? 30)%nat
  && amountPattern (bodyAmount body).

Module TransactionController.

(** [sendPayment(request, reply)]; [keycloakId] is [request.user.keycloakId]. *)
Definition sendPayment (env : Env) (keycloakId : string) (body : SendPaymentBody)
  : M Reply :=
  if negb (sendPaymentSchema body) then
    throw (newValidationError "Invalid payment data")
  else
    user <- UserService.getUserByKeycloakId keycloakId ;;
    transaction <-
      TransactionService.sendPayment env
        {| senderUserId := User.id user;
           recipientHandle := bodyRecipientHandle body;
           sendAmount := bodyAmount body;
           idempotencyKey := bodyIdempotencyKey body |} ;;
    ret {| replyCode := 201;
           replySuccess := true;
           replyData :=
             {| dataTransactionId := Transaction.id transaction;
                dataStatus := Transaction.status transaction;
                dataAmount := Decimal_toString (Transaction.amount transaction);
                dataRecipientHandle := bodyRecipientHandle body;
                dataCreatedAt := Transaction.createdAt transaction;
                dataMessage := "Payment initiated. Check status for confirmation." |} |}.

End TransactionController.

(** ** The settlement worker (the processor of the transaction queue) *)

Record JobResult : Type := {
  resultStatus : TransactionStatus;
  resultHash : option string;
  resultLedger : option Z;
  resultReason : option string
}.

Module Worker.
Section WithCipher.
Context {G : AesGcm}.

(** [Promise.all([syncBalance(a), syncBalance(b)])]: both run; the first
    failure, if any, is thrown. *)
Definition syncBalances (env : Env) (a b : string) : M unit :=
  fun w =>
    let '(r1, w1) := WalletService.syncBalance env a w in
    let '(r2, w2) := WalletService.syncBalance env b w1 in
    match r1, r2 with
    | Throw e, _ => (Throw e, w2)
    | _, Throw e => (Throw e, w2)
    | Ok _, Ok _ => (Ok tt, w2)
    end.

(** The body of the [try] block of [processTransaction]. *)
Definition settle (env : Env) (transactionId : string) : M JobResult :=
  (* STEP 1: get transaction with related data *)
  w <- get ;;
  match transaction_findById transactionId w with
  | None => throw (newError "Transaction not found")
  | Some transaction =>
  (* STEP 2: check if already processed *)
  if isTerminal (Transaction.status transaction) then
    ret {| resultStatus := Transaction.status transaction;
           resultHash := None; resultLedger := None; resultReason := None |}
  else
  (* STEP 3: update status to PENDING *)
  TransactionService.updateTransactionStatus env transactionId PENDING noMetadata ;;;
  match wallet_findByUserId (Transaction.senderId transaction) w,
        wallet_findByUserId (Transaction.receiverId transaction) w with
  | Some senderWallet, Some receiverWallet =>
      (* STEP 4: get sender's decrypted secret key *)
      senderSecretKey <-
        liftOutcome (WalletService.getDecryptedSecretKey env senderWallet) ;;
      (* STEP 5: submit payment *)
      result <-
        StellarService.sendPayment env
          {| fromSecretKey := senderSecretKey;
             toPublicKey := Wallet.stellarPublicKey receiverWallet;
             amount := Decimal_toString (Transaction.amount transaction);
             memo := Some transactionId |} ;;
      (* STEP 6: update transaction to SUCCESS *)
      TransactionService.updateTransactionStatus env transactionId SUCCESS
        {| stellarTxHash := Some (hash result);
           stellarLedger := Some (ledger result);
           failureReason := None |} ;;;
      (* STEP 7: sync wallet balances *)
      syncBalances env (Wallet.id senderWallet) (Wallet.id receiverWallet) ;;;
      ret {| resultStatus := SUCCESS;
             resultHash := Some (hash result);
             resultLedger := Some (ledger result);
             resultReason := None |}
  | _, _ => throw (newError "Wallet not found for sender or receiver")
  end
  end.

(** [processTransaction(job)] *)
Definition processTransaction (env : Env) (job : Job) : M JobResult :=
  let transactionId := transactionId job in
  tryCatch
    (settle env transactionId)
    (fun error =>
       (* STEP 8: handle failure *)
       TransactionService.incrementRetryCount transactionId ;;;
       let errorMessage := message error in
       w <- get ;;
       match transaction_findById transactionId w with
       | Some transaction =>
           if maxRetries (config env) - 1 <=? Transaction.retryCount transaction then
             TransactionService.updateTransactionStatus env transactionId FAILED
               {| stellarTxHash := None;
                  stellarLedger := None;
                  failureReason :=
                    Some ("Max retries exceeded. Last error: " ++ errorMessage) |} ;;;
             ret {| resultStatus := FAILED;
                    resultHash := None; resultLedger := None;
                    resultReason := Some errorMessage |}
           else throw error
       | None => throw error
       end).

(** The queue's delivery of a job: the processor is run again while it
    throws, up to the given number of attempts. *)
Fixpoint deliver (env : Env) (attemptsLeft : nat) (job : Job) : M JobResult :=
  match attemptsLeft with
  | O => throw (newError "job has no attempts left")
  | S n =>
      fun w =>
        match processTransaction env job w with
        | (Ok r, w') => (Ok r, w')
        | (Throw e, w') =>
            match n with
            | O => (Throw e, w')
            | S _ => deliver env n job w'
            end
        end
  end.

End WithCipher.
End Worker.


(** ** Sample data

    Two users with a wallet each, a ledger that rejects the first
    [failures] payments it is asked to send and settles the later ones,
    and the worlds the examples below start from. *)

Module Sample.

Definition key : bytes := repeat "k"%char 32.
Definition rnd : bytes := repeat "r"%char 16.

(** Alice's secret key, encrypted. *)
Definition cipherText : EncryptedData := encrypt (G := xorGcm) key rnd "SALICE".
Definition sealed : EncryptedSecret := encryptSecretKey (G := xorGcm) key rnd "SALICE".

Definition user (id kc handle : string) (st : UserStatus) : User.t :=
  {| User.id := id; User.keycloakId := kc; User.email := handle ++ "@example.org";
     User.handle := handle; User.role := USER; User.status := st |}.

Definition wallet {G : AesGcm} (id uid pk secret : string) (bal : Decimal)
           (st : WalletStatus) : Wallet.t :=
  let e := encryptSecretKey key rnd secret in
  {| Wallet.id := id; Wallet.userId := uid; Wallet.stellarPublicKey := pk;
     Wallet.stellarSecretKey := encryptedSecret e;
     Wallet.encryptionIV := secretIv e;
     Wallet.balance := bal; Wallet.status := st;
     Wallet.lastFundedAt := None; Wallet.fundingCount := 0;
     Wallet.dailyFundingSum := 0; Wallet.lastResetDate := 0 |}.

(** Alice (sender) and Bob (receiver), with the given statuses and
    Alice's balance in whole units. *)
Definition world {G : AesGcm} (us : UserStatus) (ws wr : WalletStatus)
           (units : Z) (txs : list Transaction.t) : World :=
  {| users := [user "u1" "kc1" "alice" us; user "u2" "kc2" "bob" ACTIVE];
     wallets := [wallet "w1" "u1" "GALICE" "SALICE" (units * unitsPerXlm) ws;
                 wallet "w2" "u2" "GBOB" "SBOB" 0 wr];
     transactions := txs;
     jobs := [];
     payments := [];
     nextId := length txs |}.

Definition timeout : HorizonError :=
  {| responseStatus := Some 504; operationCode := None;
     errorMessage := "Request timed out" |}.

Definition ledger (failures : nat) : Horizon :=
  {| loadAccount := fun _ _ =>
       AccountLoaded [{| asset_type := "native"; lineBalance := "40.0000000" |}];
     submitTransaction := fun n _ =>
       if (n <? failures)%nat then SubmitFailed timeout else Submitted "hash1" 42;
     friendbot := fun _ _ => FetchOk |}.

Definition notFound : HorizonError :=
  {| responseStatus := Some 404; operationCode := None;
     errorMessage := "Request failed with status code 404" |}.

(** A network on which no account exists yet. *)
Definition emptyLedger : Horizon :=
  {| loadAccount := fun _ _ => AccountFailed notFound;
     submitTransaction := fun _ _ => SubmitFailed notFound;
     friendbot := fun _ _ => FetchOk |}.

Definition emptyEnv : Env :=
  {| config := defaultConfig; KEY := key; horizon := emptyLedger;
     now := 1000; startOfToday := 0 |}.

Definition unavailable : HorizonError :=
  {| responseStatus := Some 503; operationCode := None;
     errorMessage := "Service Unavailable" |}.

(** A network that is down. *)
Definition downEnv : Env :=
  {| config := defaultConfig; KEY := key;
     horizon := {| loadAccount := fun _ _ => AccountFailed unavailable;
                   submitTransaction := fun _ _ => SubmitFailed unavailable;
                   friendbot := fun _ _ => FetchFailed "fetch failed" |};
     now := 1000; startOfToday := 0 |}.

Definition env (failures : nat) : Env :=
  {| config := defaultConfig; KEY := key; horizon := ledger failures;
     now := 1000; startOfToday := 0 |}.

(** A payment of 10 from Alice to Bob, in the given status. *)
Definition tx (st : TransactionStatus) : Transaction.t :=
  {| Transaction.id := "tx_0";
     Transaction.senderId := "u1";
     Transaction.receiverId := "u2";
     Transaction.amount := 10 * unitsPerXlm;
     Transaction.type := P2P_SEND;
     Transaction.status := st;
     Transaction.stellarTxHash := None;
     Transaction.stellarLedger := None;
     Transaction.idempotencyKey := Some "key-1";
     Transaction.failureReason := None;
     Transaction.retryCount := 0;
     Transaction.senderHandle := "alice";
     Transaction.recipientHandle := "bob";
     Transaction.createdAt := 1000;
     Transaction.completedAt := None |}.

Definition job : Job :=
  {| jobName := "process-transaction"; transactionId := "tx_0";
     attempts := 3; backoffDelay := retryDelay |}.

Definition send (amount : string) (k : option string) : SendPaymentParams :=
  {| senderUserId := "u1"; recipientHandle := "bob";
     sendAmount := amount; idempotencyKey := k |}.

Definition body (amount : string) (k : option string) : SendPaymentBody :=
  {| bodyRecipientHandle := "bob"; bodyAmount := amount; bodyIdempotencyKey := k |}.

(** Alice's wallet after three fundings at time 0, and a clock two
    days later. *)
Definition fundedWallet : Wallet.t :=
  let o := wallet (G := xorGcm) "w1" "u1" "GALICE" "SALICE" (10000 * unitsPerXlm)
                  WALLET_ACTIVE in
  {| Wallet.id := Wallet.id o; Wallet.userId := Wallet.userId o;
     Wallet.stellarPublicKey := Wallet.stellarPublicKey o;
     Wallet.stellarSecretKey := Wallet.stellarSecretKey o;
     Wallet.encryptionIV := Wallet.encryptionIV o;
     Wallet.balance := Wallet.balance o; Wallet.status := Wallet.status o;
     Wallet.lastFundedAt := Some 0; Wallet.fundingCount := 3;
     Wallet.dailyFundingSum := 10000 * unitsPerXlm; Wallet.lastResetDate := 0 |}.

(** Alice's wallet after one funding at time 0. *)
Definition fundedOnceWallet : Wallet.t :=
  let o := fundedWallet in
  {| Wallet.id := Wallet.id o; Wallet.userId := Wallet.userId o;
     Wallet.stellarPublicKey := Wallet.stellarPublicKey o;
     Wallet.stellarSecretKey := Wallet.stellarSecretKey o;
     Wallet.encryptionIV := Wallet.encryptionIV o;
     Wallet.balance := Wallet.balance o; Wallet.status := Wallet.status o;
     Wallet.lastFundedAt := Some 0; Wallet.fundingCount := 1;
     Wallet.dailyFundingSum := 10000 * unitsPerXlm; Wallet.lastResetDate := 0 |}.

Definition fundedOnce : World :=
  {| users := [user "u1" "kc1" "alice" ACTIVE];
     wallets := [fundedOnceWallet];
     transactions := []; jobs := []; payments := []; nextId := 0 |}.

Definition funded : World :=
  {| users := [user "u1" "kc1" "alice" ACTIVE];
     wallets := [fundedWallet];
     transactions := []; jobs := []; payments := []; nextId := 0 |}.

Definition twoDaysLater : Env :=
  {| config := defaultConfig; KEY := key; horizon := ledger 0;
     now := 2 * msPerDay; startOfToday := 2 * msPerDay |}.

(** The payment of 10 stored in the given status, nothing submitted yet. *)
Definition stored (us : UserStatus) (ws wr : WalletStatus) (st : TransactionStatus)
  : World :=
  world (G := xorGcm) us ws wr 50 [tx st].

(** The same payment after [retries] failed submissions. *)
Definition retried (st : TransactionStatus) (retries : Z) (reason : option string)
           (completed : option Z) : Transaction.t :=
  {| Transaction.id := "tx_0";
     Transaction.senderId := "u1";
     Transaction.receiverId := "u2";
     Transaction.amount := 10 * unitsPerXlm;
     Transaction.type := P2P_SEND;
     Transaction.status := st;
     Transaction.stellarTxHash := None;
     Transaction.stellarLedger := None;
     Transaction.idempotencyKey := Some "key-1";
     Transaction.failureReason := reason;
     Transaction.retryCount := retries;
     Transaction.senderHandle := "alice";
     Transaction.recipientHandle := "bob";
     Transaction.createdAt := 1000;
     Transaction.completedAt := completed |}.

(** What the gateway is asked to send for it. *)
Definition payment : BuiltPayment :=
  {| sourceSecret := "SALICE"; destination := "GBOB";
     paymentAmount := "10"; memoText := Some "tx_0" |}.

(** The payment once settled. *)
Definition settledTx : Transaction.t :=
  {| Transaction.id := "tx_0";
     Transaction.senderId := "u1";
     Transaction.receiverId := "u2";
     Transaction.amount := 10 * unitsPerXlm;
     Transaction.type := P2P_SEND;
     Transaction.status := SUCCESS;
     Transaction.stellarTxHash := Some "hash1";
     Transaction.stellarLedger := Some 42;
     Transaction.idempotencyKey := Some "key-1";
     Transaction.failureReason := None;
     Transaction.retryCount := 0;
     Transaction.senderHandle := "alice";
     Transaction.recipientHandle := "bob";
     Transaction.createdAt := 1000;
     Transaction.completedAt := Some 1000 |}.

(** The state after the payment was settled and both cached balances
    were refreshed from the ledger, which reports 40 for every account. *)
Definition paid {G : AesGcm} (us : UserStatus) (ws wr : WalletStatus) : World :=
  {| users := users (world us ws wr 50 []);
     wallets := map (WalletService.setBalance (40 * unitsPerXlm))
                    (wallets (world us ws wr 50 []));
     transactions := [settledTx];
     jobs := [];
     payments := [payment];
     nextId := 1 |}.

(** The state once the one transaction is [t] and the gateway was asked
    for the payments [ps]. *)
Definition during {G : AesGcm} (t : Transaction.t) (ps : list BuiltPayment) : World :=
  {| users := users (world ACTIVE WALLET_ACTIVE WALLET_ACTIVE 50 []);
     wallets := wallets (world ACTIVE WALLET_ACTIVE WALLET_ACTIVE 50 []);
     transactions := [t];
     jobs := [];
     payments := ps;
     nextId := 1 |}.

Definition refunded : World :=
  snd (WalletService.fundWallet twoDaysLater "u1" funded).

(** Everybody active, Alice holds 50, nothing sent yet. *)
Definition fresh : World :=
  world (G := xorGcm) ACTIVE WALLET_ACTIVE WALLET_ACTIVE 50 [].

(** After Alice's request to send 10 under the key "key-1". *)
Definition requested : World :=
  snd (TransactionService.sendPayment (env 0) (send "10" (Some "key-1")) fresh).

(** After the worker has settled that payment on a ledger that accepts it. *)
Definition settled : World :=
  snd (Worker.deliver (G := xorGcm) (env 0) 3 job requested).

End Sample.

(** ** Vocabulary of the properties *)

(** The job [sendPayment] enqueues for transaction [t]. *)
Definition jobFor (env : Env) (t : Transaction.t) : Job :=
  {| jobName := "process-transaction";
     transactionId := Transaction.id t;
     attempts := maxRetries (config env);
     backoffDelay := retryDelay |}.

(** What a successful [sendPayment] did: it either answered with the row
    already stored under the idempotency key and wrote nothing, or it
    appended one CREATED row and one job. *)
Inductive Intake (env : Env) (p : SendPaymentParams) (w : World)
          (t : Transaction.t) (w' : World) : Prop :=
  | Replayed (k : string)
      (Hkey : idempotencyKey p = Some k)
      (Hk : k <> "")
      (Hfound : transaction_findByIdempotencyKey k w = Some t)
      (Hsame : w' = w)
  | Created
      (Hfresh : forall k, idempotencyKey p = Some k -> k <> "" ->
                          transaction_findByIdempotencyKey k w = None)
      (Hstatus : Transaction.status t = CREATED)
      (Hid : Transaction.id t = "tx_" ++ natString (Z.of_nat (nextId w)))
      (Hk : Transaction.idempotencyKey t = idempotencyKey p)
      (Hrows : transactions w' = (transactions w ++ [t])%list)
      (Hjobs : jobs w' = (jobs w ++ [jobFor env t])%list)
      (Husers : users w' = users w)
      (Hwallets : wallets w' = wallets w)
      (Hpayments : payments w' = payments w).

(** A computation that asks the gateway for no payment. *)
Definition keepsPayments {A : Type} (m : M A) : Prop :=
  forall w r w', m w = (r, w') -> payments w' = payments w.

(** The payment the worker asks the gateway to send for the job of
    transaction [t], from the sender secret [secret] to the wallet
    [receiverWallet]. *)
Definition paymentFor (job : Job) (t : Transaction.t) (secret : string)
           (receiverWallet : Wallet.t) : BuiltPayment :=
  StellarService.buildPayment
    {| fromSecretKey := secret;
       toPublicKey := Wallet.stellarPublicKey receiverWallet;
       amount := Decimal_toString (Transaction.amount t);
       memo := Some (transactionId job) |}.

(** Steps 5 to 7 of the worker, once the sender's key is decrypted. *)
Definition afterDecryption (env : Env) (transactionId : string)
           (transaction : Transaction.t) (senderWallet receiverWallet : Wallet.t)
           (senderSecretKey : string) : M JobResult :=
  result <-
    StellarService.sendPayment env
      {| fromSecretKey := senderSecretKey;
         toPublicKey := Wallet.stellarPublicKey receiverWallet;
         amount := Decimal_toString (Transaction.amount transaction);
         memo := Some transactionId |} ;;
  TransactionService.updateTransactionStatus env transactionId SUCCESS
    {| stellarTxHash := Some (hash result);
       stellarLedger := Some (ledger result);
       failureReason := None |} ;;;
  Worker.syncBalances env (Wallet.id senderWallet) (Wallet.id receiverWallet) ;;;
  ret {| resultStatus := SUCCESS;
         resultHash := Some (hash result);
         resultLedger := Some (ledger result);
         resultReason := None |}.

(** The [catch] block of the worker. *)
Definition onFailure (env : Env) (transactionId : string) (error : Exn) : M JobResult :=
  TransactionService.incrementRetryCount transactionId ;;;
  w <- get ;;
  match transaction_findById transactionId w with
  | Some transaction =>
      if maxRetries (config env) - 1 <=? Transaction.retryCount transaction then
        TransactionService.updateTransactionStatus env transactionId FAILED
          {| stellarTxHash := None;
             stellarLedger := None;
             failureReason :=
               Some ("Max retries exceeded. Last error: " ++ message error) |} ;;;
        ret {| resultStatus := FAILED;
               resultHash := None; resultLedger := None;
               resultReason := Some (message error) |}
      else throw error
  | None => throw error
  end.

(** ** Role checks (middleware/auth.middleware.ts) *)

(** [request.user], as [authenticateJWT] sets it. *)
Record RequestUser : Type := {
  userKeycloakId : string;
  roles : list string
}.

(** [xs.join(sep)] *)
Fixpoint join (sep : string) (xs : list string) : string :=
  match xs with
  | [] => ""
  | x :: r =>
      match r with
      | [] => x
      | _ => x ++ sep ++ join sep r
      end
  end.

(** [xs.includes(x)] *)
Definition includes (xs : list string) (x : string) : bool :=
  existsb (String.eqb x) xs.

Module AuthMiddleware.

(** [requireRole(...requiredRoles)(request, reply)]; [user] is
    [request.user], absent when no token was checked. The arrays of the
    error's metadata are written with their elements joined by commas. *)
Definition requireRole (requiredRoles : list string) (user : option RequestUser)
  : Outcome unit :=
  match user with
  | None => Throw (mkExn UnauthorizedError "User not authenticated" [])
  | Some u =>
      let hasRole := existsb (fun role => includes (roles u) role) requiredRoles in
      if negb hasRole then
        Throw (mkExn ForbiddenError
                     ("Required role: " ++ join " or " requiredRoles)
                     [("userRoles", join "," (roles u));
                      ("requiredRoles", join "," requiredRoles)])
      else Ok tt
  end.

Definition requireAdmin : option RequestUser -> Outcome unit :=
  requireRole ["ADMIN"].

Definition requireAuth : option RequestUser -> Outcome unit :=
  requireRole ["USER"; "ADMIN"].

End AuthMiddleware.

(** ** Handles and account status (modules/user/user.service.ts,
       modules/user/user.controller.ts) *)

Definition newDuplicateHandleError (handle : string) : Exn :=
  mkExn DuplicateHandleError ("Handle " ++ handle ++ " is already taken")
        [("handle", handle)].

(** A violated unique index, with the column in [error.meta.target]. *)
Definition uniqueViolation (field : string) : Exn :=
  mkExn PrismaError ("Unique constraint failed on the fields: (`" ++ field ++ "`)")
        [("code", "P2002"); ("target", field)].

Definition foreignKeyViolation (field : string) : Exn :=
  mkExn PrismaError ("Foreign key constraint violated on the fields: (`" ++ field ++ "`)")
        [("code", "P2003")].

Definition isLower (c : ascii) : bool :=
  let n := N_of_ascii c in ((97 <=? n) && (n <=? 122))%N.
Definition isUpper (c : ascii) : bool :=
  let n := N_of_ascii c in ((65 <=? n) && (n <=? 90))%N.

(** The characters of ASCII: for a string of these, the characters of
    the JavaScript string, its UTF-16 code units and its UTF-8 bytes
    are the same sequence, as a [string] here has it. *)
Definition isAscii (c : ascii) : bool := (N_of_ascii c <? 128)%N.

(** The class [[a-z0-9_]], and the same class under the [i] flag. *)
Definition isHandleCharLower (c : ascii) : bool :=
  isLower c || isDigit c || Ascii.eqb c "_".
Definition isHandleChar (c : ascii) : bool :=
  isHandleCharLower c || isUpper c.

Fixpoint allChars (f : ascii -> bool) (s : string) : bool :=
  match s with
  | "" => true
  | String c r => f c && allChars f r
  end.

Fixpoint mapChars (f : ascii -> ascii) (s : string) : string :=
  match s with
  | "" => ""
  | String c r => String (f c) (mapChars f r)
  end.

(** [s.toLowerCase()] on the characters of ASCII; a string stands for its
    characters one byte each, which is exact for ASCII text. *)
Definition toLowerChar (c : ascii) : ascii :=
  if isUpper c then ascii_of_N (N_of_ascii c + 32) else c.

(** [prisma.user.update({ where: { id }, data })]: fails when no row has
    the id, and when the written row would share its Keycloak id, e-mail
    address or handle with another row (the unique indexes of the
    migration). *)
Definition user_update (id : string) (data : User.t -> User.t) : M User.t :=
  fun w =>
    match user_findById id w with
    | None => (Throw recordNotFound, w)
    | Some u =>
        let u' := data u in
        if existsb (fun o => negb (String.eqb (User.id o) id)
                             && String.eqb (User.keycloakId o) (User.keycloakId u'))
                   (users w)
        then (Throw (uniqueViolation "keycloak_id"), w)
        else if existsb (fun o => negb (String.eqb (User.id o) id)
                                  && String.eqb (User.email o) (User.email u'))
                        (users w)
        then (Throw (uniqueViolation "email"), w)
        else if existsb (fun o => negb (String.eqb (User.id o) id)
                                  && String.eqb (User.handle o) (User.handle u'))
                        (users w)
        then (Throw (uniqueViolation "handle"), w)
        else
          (Ok u',
           {| users := map (fun o => if String.eqb (User.id o) id then data o else o)
                           (users w);
              wallets := wallets w; transactions := transactions w;
              jobs := jobs w; payments := payments w; nextId := nextId w |})
    end.

Definition setHandle (h : string) (o : User.t) : User.t :=
  {| User.id := User.id o; User.keycloakId := User.keycloakId o;
     User.email := User.email o; User.handle := h;
     User.role := User.role o; User.status := User.status o |}.

Definition setStatus (st : UserStatus) (o : User.t) : User.t :=
  {| User.id := User.id o; User.keycloakId := User.keycloakId o;
     User.email := User.email o; User.handle := User.handle o;
     User.role := User.role o; User.status := st |}.

Module UserAccounts.

(** [isValidHandle(handle)]: the pattern [/^[a-z0-9_]{3,30}$/i]. *)
Definition isValidHandle (handle : string) : bool :=
  (3 <=? String.length handle)%nat && (String.length handle <=? 30)%nat
  && allChars isHandleChar handle.

(** [generateHandleFromEmail(email)], for an address whose part before
    the "@" is written in ASCII; beyond ASCII the source works on UTF-16
    code units and Unicode case mapping, which a string of bytes does
    not have. *)
Definition generateHandleFromEmail (email : string) : string :=
  let username := hd "" (split "@" email) in
  substring 0 30
    (mapChars (fun c => if isHandleCharLower c then c else "_"%char)
              (mapChars toLowerChar username)).

(** [updateHandle(userId, newHandle)] *)
Definition updateHandle (userId newHandle : string) : M User.t :=
  if negb (isValidHandle newHandle) then
    throw (newValidationError
             "Handle must be 3-30 characters, alphanumeric with underscores only")
  else
    w <- get ;;
    match user_findByHandle newHandle w with
    | Some existing =>
        if negb (String.eqb (User.id existing) userId) then
          throw (newDuplicateHandleError newHandle)
        else user_update userId (setHandle newHandle)
    | None => user_update userId (setHandle newHandle)
    end.

(** [updateUserStatus(userId, status)] *)
Definition updateUserStatus (userId : string) (status : UserStatus) : M User.t :=
  user_update userId (setStatus status).

End UserAccounts.

Module UserController.

(** The schema of the body of the handle route:
    [z.string().min(3).max(30).regex(/^[a-z0-9_]+$/i)]. *)
Definition updateHandleSchema (handle : string) : bool :=
  (3 <=? String.length handle)%nat && (String.length handle <=? 30)%nat
  && negb (String.eqb handle "") && allChars isHandleChar handle.

(** [updateHandle(request, reply)]: the handle the reply carries. *)
Definition updateHandle (keycloakId : string) (handle : string) : M string :=
  if negb (updateHandleSchema handle) then
    throw (newValidationError "Invalid handle format")
  else
    user <- UserService.getUserByKeycloakId keycloakId ;;
    updatedUser <- UserAccounts.updateHandle (User.id user) handle ;;
    ret (User.handle updatedUser).

End UserController.

(** ** Wallet creation and administration (modules/wallet/wallet.service.ts) *)

(** The values the schema gives to the columns [createWallet] leaves
    out. *)
Record WalletDefaults : Type := {
  defaultLastFundedAt : option Z;
  defaultFundingCount : Z;
  defaultDailyFundingSum : Decimal;
  defaultLastResetDate : Z
}.

(** [prisma.wallet.create({ data })]: the row gets a fresh id; fails when
    the user does not exist (foreign key), or already has a wallet, or
    when the public key is that of another wallet (unique indexes). *)
Definition wallet_create (mk : string -> Wallet.t) : M Wallet.t :=
  fun w =>
    let x := mk ("wallet_" ++ natString (Z.of_nat (nextId w))) in
    if negb (existsb (fun u => String.eqb (User.id u) (Wallet.userId x)) (users w))
    then (Throw (foreignKeyViolation "user_id"), w)
    else if existsb (fun o => String.eqb (Wallet.userId o) (Wallet.userId x)) (wallets w)
    then (Throw (uniqueViolation "user_id"), w)
    else if existsb (fun o => String.eqb (Wallet.stellarPublicKey o)
                                         (Wallet.stellarPublicKey x))
                    (wallets w)
    then (Throw (uniqueViolation "stellar_public_key"), w)
    else
      (Ok x,
       {| users := users w; wallets := wallets w ++ [x];
          transactions := transactions w; jobs := jobs w;
          payments := payments w; nextId := S (nextId w) |}).

Definition wallet_findByPublicKey (pk : string) (w : World) : option Wallet.t :=
  find (fun x => String.eqb (Wallet.stellarPublicKey x) pk) (wallets w).

(** The outcome of [Keypair.random()]. *)
Record Keypair : Type := {
  publicKey : string;
  secretKey : string
}.

Definition setWalletStatus (st : WalletStatus) (o : Wallet.t) : Wallet.t :=
  {| Wallet.id := Wallet.id o;
     Wallet.userId := Wallet.userId o;
     Wallet.stellarPublicKey := Wallet.stellarPublicKey o;
     Wallet.stellarSecretKey := Wallet.stellarSecretKey o;
     Wallet.encryptionIV := Wallet.encryptionIV o;
     Wallet.balance := Wallet.balance o;
     Wallet.status := st;
     Wallet.lastFundedAt := Wallet.lastFundedAt o;
     Wallet.fundingCount := Wallet.fundingCount o;
     Wallet.dailyFundingSum := Wallet.dailyFundingSum o;
     Wallet.lastResetDate := Wallet.lastResetDate o |}.

Module WalletAccounts.

(** [createWallet(userId)]; [pair] is the generated key pair and [rnd]
    the outcome of [crypto.randomBytes(16)]. *)
Definition createWallet {G : AesGcm} (env : Env) (defaults : WalletDefaults)
           (pair : Keypair) (rnd : bytes) (userId : string) : M Wallet.t :=
  let sealed := encryptSecretKey (KEY env) rnd (secretKey pair) in
  wallet_create
    (fun id =>
       {| Wallet.id := id;
          Wallet.userId := userId;
          Wallet.stellarPublicKey := publicKey pair;
          Wallet.stellarSecretKey := encryptedSecret sealed;
          Wallet.encryptionIV := secretIv sealed;
          Wallet.balance := 0;
          Wallet.status := WALLET_ACTIVE;
          Wallet.lastFundedAt := defaultLastFundedAt defaults;
          Wallet.fundingCount := defaultFundingCount defaults;
          Wallet.dailyFundingSum := defaultDailyFundingSum defaults;
          Wallet.lastResetDate := defaultLastResetDate defaults |}).

(** [getWalletByPublicKey(stellarPublicKey)] *)
Definition getWalletByPublicKey (stellarPublicKey : string) : M Wallet.t :=
  w <- get ;;
  match wallet_findByPublicKey stellarPublicKey w with
  | None => throw (newNotFoundError "Wallet")
  | Some wallet => ret wallet
  end.

(** [updateBalance(walletId, newBalance)] *)
Definition updateBalance (walletId newBalance : string) : M unit :=
  match parseFloat newBalance with
  | Some b => wallet_update walletId (WalletService.setBalance (toDecimal b)) ;;; ret tt
  | None => throw invalidValue
  end.

(** [updateWalletStatus(walletId, status)] *)
Definition updateWalletStatus (walletId : string) (status : WalletStatus) : M Wallet.t :=
  wallet_update walletId (setWalletStatus status).

End WalletAccounts.

(** ** Reading one transaction (modules/transaction/transaction.service.ts,
       modules/transaction/transaction.controller.ts) *)

(** A transaction with its [sender] and [receiver] relations included. *)
Record TransactionWithParties : Type := {
  row : Transaction.t;
  sender : option User.t;
  receiver : option User.t
}.

Record TransactionData : Type := {
  txId : string;
  txSenderId : string;
  txReceiverId : string;
  txSenderHandle : string;
  txReceiverHandle : string;
  txAmount : string;
  txStatus : TransactionStatus;
  txType : TransactionType;
  txStellarTxHash : option string;
  txStellarLedger : option Z;
  txFailureReason : option string;
  txCreatedAt : Z;
  txCompletedAt : option Z
}.

Record TransactionReply : Type := {
  transactionReplyCode : Z;
  transactionReplySuccess : bool;
  transactionReplyData : TransactionData
}.

Module TransactionQueries.

(** [TransactionService.getTransaction(transactionId)] *)
Definition getTransaction (transactionId : string) : M TransactionWithParties :=
  w <- get ;;
  match transaction_findById transactionId w with
  | None => throw (newNotFoundError "Transaction")
  | Some t =>
      ret {| row := t;
             sender := user_findById (Transaction.senderId t) w;
             receiver := user_findById (Transaction.receiverId t) w |}
  end.

(** The controller's [getTransaction(request, reply)]; [user] is
    [request.user]. *)
Definition getTransactionRoute (user : RequestUser) (id : string) : M TransactionReply :=
  caller <- UserService.getUserByKeycloakId (userKeycloakId user) ;;
  transaction <- getTransaction id ;;
  if negb (String.eqb (Transaction.senderId (row transaction)) (User.id caller))
     && negb (String.eqb (Transaction.receiverId (row transaction)) (User.id caller))
     && negb (includes (roles user) "ADMIN")
  then
    throw (mkExn ForbiddenError "You do not have permission to view this transaction" [])
  else
    match sender transaction, receiver transaction with
    | Some s, Some r =>
        ret {| transactionReplyCode := 200;
               transactionReplySuccess := true;
               transactionReplyData :=
                 {| txId := Transaction.id (row transaction);
                    txSenderId := Transaction.senderId (row transaction);
                    txReceiverId := Transaction.receiverId (row transaction);
                    txSenderHandle := User.handle s;
                    txReceiverHandle := User.handle r;
                    txAmount := Decimal_toString (Transaction.amount (row transaction));
                    txStatus := Transaction.status (row transaction);
                    txType := Transaction.type (row transaction);
                    txStellarTxHash := Transaction.stellarTxHash (row transaction);
                    txStellarLedger := Transaction.stellarLedger (row transaction);
                    txFailureReason := Transaction.failureReason (row transaction);
                    txCreatedAt := Transaction.createdAt (row transaction);
                    txCompletedAt := Transaction.completedAt (row transaction) |} |}
    | _, _ =>
        throw (newError "Cannot read properties of null (reading 'handle')")
    end.

End TransactionQueries.

(** ** System overview (modules/admin/admin.service.ts) *)

Record SystemOverview : Type := {
  totalUsers : Z;
  activeUsers : Z;
  blockedUsers : Z;
  totalWallets : Z;
  activeWallets : Z;
  frozenWallets : Z
}.

(** [prisma.<table>.count({ where })] *)
Definition count {A : Type} (cond : A -> bool) (rows : list A) : Z :=
  Z.of_nat (length (filter cond rows)).

Module AdminService.

(** [getSystemOverview()] *)
Definition getSystemOverview : M SystemOverview :=
  w <- get ;;
  ret {| totalUsers := count (fun _ => true) (users w);
         activeUsers :=
           count (fun u => match User.status u with ACTIVE => true | _ => false end)
                 (users w);
         blockedUsers := count (fun u => isBlocked (User.status u)) (users w);
         totalWallets := count (fun _ => true) (wallets w);
         activeWallets :=
           count (fun x => match Wallet.status x with WALLET_ACTIVE => true | _ => false end)
                 (wallets w);
         frozenWallets := count (fun x => isFrozen (Wallet.status x)) (wallets w) |}.

End AdminService.

(** ** Vocabulary of the further properties *)

(** From [w] to [w'], the gateway was asked for at most [n] more
    payments, and none asked for before was forgotten. *)
Definition asksFor (n : nat) (w w' : World) : Prop :=
  exists ps, payments w' = (payments w ++ ps)%list /\ (length ps <= n)%nat.

(** A computation whose every run takes the state to one related to it
    by [R]. *)
Definition respects {A : Type} (R : World -> World -> Prop) (m : M A) : Prop :=
  forall w r w', m w = (r, w') -> R w w'.

(** The columns of a transaction row written at intake. *)
Definition intakeColumns (t : Transaction.t) :=
  (Transaction.id t, Transaction.senderId t, Transaction.receiverId t,
   Transaction.amount t, Transaction.type t, Transaction.idempotencyKey t,
   Transaction.senderHandle t, Transaction.recipientHandle t,
   Transaction.createdAt t).

(** The columns of a wallet row other than the cached balance. *)
Definition custodyColumns (x : Wallet.t) :=
  (Wallet.id x, Wallet.userId x, Wallet.stellarPublicKey x,
   Wallet.stellarSecretKey x, Wallet.encryptionIV x, Wallet.status x,
   Wallet.lastFundedAt x, Wallet.fundingCount x, Wallet.dailyFundingSum x,
   Wallet.lastResetDate x).

(** What settlement leaves alone: users, jobs, the number and order of
    the rows, the intake columns of every transaction and all of a wallet
    but its cached balance. *)
Definition settlementFrame (w w' : World) : Prop :=
  users w' = users w
  /\ jobs w' = jobs w
  /\ nextId w' = nextId w
  /\ map intakeColumns (transactions w') = map intakeColumns (transactions w)
  /\ map custodyColumns (wallets w') = map custodyColumns (wallets w).

(** The sum [sendPayment] compares with the daily limit. *)
Definition dailySum (env : Env) (senderId : string) (w : World) : JsNumber :=
  parseFloat
    match transaction_sumSentSince senderId (startOfToday env) w with
    | Some total =>
        if truthy (Some (Decimal_toString total)) then Decimal_toString total else "0"
    | None => "0"
    end.

(** What [sendPayment] has checked when it stores the row [t]. *)
Inductive Accepted (env : Env) (p : SendPaymentParams) (w : World)
          (t : Transaction.t) : Prop :=
  | accepted (a : Q) (sender recipient : User.t)
      (senderWallet recipientWallet : Wallet.t)
      (Hamount : parseFloat (sendAmount p) = Some a)
      (Hpositive : (0 < a)%Q)
      (Hmin : (minAmount (config env) <= a)%Q)
      (Hmax : (a <= maxAmount (config env))%Q)
      (Hsender : user_findById (senderUserId p) w = Some sender)
      (Hrecipient : user_findByHandle (recipientHandle p) w = Some recipient)
      (Hother : User.id sender <> User.id recipient)
      (HsenderOpen : User.status sender <> BLOCKED)
      (HrecipientOpen : User.status recipient <> BLOCKED)
      (HsenderWallet : wallet_findByUserId (User.id sender) w = Some senderWallet)
      (HrecipientWallet : wallet_findByUserId (User.id recipient) w
                          = Some recipientWallet)
      (HsenderActive : Wallet.status senderWallet = WALLET_ACTIVE)
      (HrecipientActive : Wallet.status recipientWallet = WALLET_ACTIVE)
      (Hcovered : numLt (parseFloat (Decimal_toString (Wallet.balance senderWallet)))
                        (Some a) = false)
      (Hdaily : numGt (numAdd (dailySum env (User.id sender) w) (Some a))
                      (Some (dailyLimit (config env))) = false)
      (Hsent : Transaction.senderId t = User.id sender)
      (Hreceived : Transaction.receiverId t = User.id recipient)
      (Hstored : Transaction.amount t = toDecimal a)
      (Hhandles : Transaction.senderHandle t = User.handle sender
                  /\ Transaction.recipientHandle t = User.handle recipient)
      (Hnew : Transaction.status t = CREATED /\ Transaction.retryCount t = 0
              /\ Transaction.stellarTxHash t = None
              /\ Transaction.createdAt t = now env).

(** The columns of a wallet row that neither funding nor synchronisation
    writes: its keys, the encrypted secret and the status. *)
Definition custodyKeys (x : Wallet.t) :=
  (Wallet.id x, Wallet.userId x, Wallet.stellarPublicKey x,
   Wallet.stellarSecretKey x, Wallet.encryptionIV x, Wallet.status x).

(** The unique indexes of the user table hold: no two rows share an id,
    a handle, a Keycloak id or an e-mail address. *)
Definition uniqueUsers (w : World) : Prop :=
  NoDup (map User.id (users w))
  /\ NoDup (map User.handle (users w))
  /\ NoDup (map User.keycloakId (users w))
  /\ NoDup (map User.email (users w)).

(** ** Further sample data

    A third user, Carol, who is party to no payment, beside Alice and
    Bob with their settled payment; and the callers of the examples. *)

Module Cases.

Definition carol : User.t := Sample.user "u3" "kc3" "carol" ACTIVE.

Definition threeUsers : World :=
  {| users := (users Sample.fresh ++ [carol])%list;
     wallets := wallets Sample.fresh;
     transactions := [Sample.settledTx];
     jobs := [];
     payments := [Sample.payment];
     nextId := 1 |}.

(** Column defaults of a new wallet, and Carol's key pair. *)
Definition defaults : WalletDefaults :=
  {| defaultLastFundedAt := None; defaultFundingCount := 0;
     defaultDailyFundingSum := 0; defaultLastResetDate := 1000 |}.

Definition carolKeys : Keypair := {| publicKey := "GCAROL"; secretKey := "SCAROL" |}.

(** A ledger that settles every payment but cannot be read once a
    payment was sent. *)
Definition unreadable : Env :=
  {| config := defaultConfig; KEY := Sample.key;
     horizon :=
       {| loadAccount := fun n _ =>
            match n with
            | O => AccountLoaded [{| asset_type := "native"; lineBalance := "50.0000000" |}]
            | S _ => AccountFailed Sample.unavailable
            end;
          submitTransaction := fun _ _ => Submitted "hash1" 42;
          friendbot := fun _ _ => FetchOk |};
     now := 1000; startOfToday := 0 |}.

(** A ledger that settles every payment and then reports Alice's and
    Bob's balances after the payment of 10. *)
Definition settling : Env :=
  {| config := defaultConfig; KEY := Sample.key;
     horizon :=
       {| loadAccount := fun _ pk =>
            AccountLoaded
              [{| asset_type := "native";
                  lineBalance := if String.eqb pk "GALICE" then "39.9999900"
                                 else "10.0000000" |}];
          submitTransaction := fun _ _ => Submitted "hash1" 42;
          friendbot := fun _ _ => FetchOk |};
     now := 1000; startOfToday := 0 |}.

(** The payment of 10 after one failed attempt. *)
Definition secondAttempt : World :=
  Sample.during (G := xorGcm) (Sample.retried PENDING 1 None None) [].



Definition asBob : RequestUser := {| userKeycloakId := "kc2"; roles := ["USER"] |}.
Definition asCarol : RequestUser := {| userKeycloakId := "kc3"; roles := ["USER"] |}.
Definition asAdmin : RequestUser :=
  {| userKeycloakId := "kc3"; roles := ["USER"; "ADMIN"] |}.

End Cases.

(** The number a string of digits denotes, continuing from [acc]. *)
Fixpoint digitsValue (s : string) (acc : Z) : Z :=
  match s with
  | "" => acc
  | String c r => digitsValue r (10 * acc + digitValue c)
  end.

(** Whether [s] does not start with a digit. *)
Definition noLeadingDigit (s : string) : bool :=
  match s with
  | "" => true
  | String c _ => negb (isDigit c)
  end.

(** The number a decimal column holds, as a fraction in lowest terms. *)
Definition decimalValue (d : Decimal) : Q := Qred (d # 10000000).


(** A computation that keeps the property [P] of the state. *)
Definition preserves {A : Type} (P : World -> Prop) (m : M A) : Prop :=
  forall w r w', P w -> m w = (r, w') -> P w'.

(** The row [id] is stored with retry count [rc] and a settlement hash
    that no other row carries. *)
Definition counted (id : string) (rc : Z) (w : World) : Prop :=
  exists t, transaction_findById id w = Some t
            /\ Transaction.retryCount t = rc
            /\ hashTaken id (Transaction.stellarTxHash t) w = false.


(** ** The error handler (app.ts)

    What [fastify.setErrorHandler] answers to an error thrown by a hook
    or a route; [isDevelopment] is [config.isDevelopment]. An error
    without metadata is answered with none. *)

Record ErrorReply : Type := {
  errorStatus : Z;
  errorSuccess : bool;
  errorCode : string;
  errorText : string;
  errorMetadata : list (string * string)
}.

(** [error instanceof AppError] *)
Definition isAppError (error : Exn) : bool :=
  match cls error with
  | PlainError | PrismaError => false
  | _ => true
  end.

Definition errorHandler (isDevelopment : bool) (error : Exn) : ErrorReply :=
  if isAppError error then
    {| errorStatus := httpStatus (cls error);
       errorSuccess := false;
       errorCode := code (cls error);
       errorText := message error;
       errorMetadata := metadata error |}
  else
    {| errorStatus := 500;
       errorSuccess := false;
       errorCode := "INTERNAL_SERVER_ERROR";
       errorText := if isDevelopment then message error
                    else "An unexpected error occurred";
       errorMetadata := [] |}.


(** ** Routes behind their hooks (app.ts, modules/admin/admin.controller.ts) *)

(** What a request is answered with: the reply the handler sent, or the
    one of the error handler. *)
Inductive Answer (A : Type) : Type :=
  | Sent (a : A)
  | Rejected (r : ErrorReply).

Arguments Sent {A} a.
Arguments Rejected {A} r.

(** The reply of the two status routes. *)
Record StatusReply : Type := {
  statusSuccess : bool;
  statusOf : string;
  statusNow : string;
  statusMessage : string
}.

Definition userStatusName (s : UserStatus) : string :=
  match s with
  | ACTIVE => "ACTIVE"
  | BLOCKED => "BLOCKED"
  | SUSPENDED => "SUSPENDED"
  end.

Definition walletStatusName (s : WalletStatus) : string :=
  match s with
  | WALLET_ACTIVE => "ACTIVE"
  | FROZEN => "FROZEN"
  | CLOSED => "CLOSED"
  end.

(** [z.enum(["ACTIVE", "BLOCKED", "SUSPENDED"])] and
    [z.enum(["ACTIVE", "FROZEN", "CLOSED"])] on the [status] of a body,
    [None] when the body has no string there. *)
Definition updateUserStatusSchema (status : option string) : option UserStatus :=
  match status with
  | Some s =>
      if String.eqb s "ACTIVE" then Some ACTIVE
      else if String.eqb s "BLOCKED" then Some BLOCKED
      else if String.eqb s "SUSPENDED" then Some SUSPENDED
      else None
  | None => None
  end.

Definition updateWalletStatusSchema (status : option string) : option WalletStatus :=
  match status with
  | Some s =>
      if String.eqb s "ACTIVE" then Some WALLET_ACTIVE
      else if String.eqb s "FROZEN" then Some FROZEN
      else if String.eqb s "CLOSED" then Some CLOSED
      else None
  | None => None
  end.

Module AdminController.

(** [updateUserStatus(request, reply)]; [userId] is [request.params.userId]
    and [status] the [status] of the body. *)
Definition updateUserStatus (userId : string) (status : option string) : M StatusReply :=
  match updateUserStatusSchema status with
  | None => throw (newValidationError "Invalid status")
  | Some st =>
      user <- UserAccounts.updateUserStatus userId st ;;
      ret {| statusSuccess := true;
             statusOf := User.id user;
             statusNow := userStatusName (User.status user);
             statusMessage :=
               "User status updated to " ++ userStatusName (User.status user) |}
  end.

(** [updateWalletStatus(request, reply)] *)
Definition updateWalletStatus (walletId : string) (status : option string)
  : M StatusReply :=
  match updateWalletStatusSchema status with
  | None => throw (newValidationError "Invalid status")
  | Some st =>
      wallet <- WalletAccounts.updateWalletStatus walletId st ;;
      ret {| statusSuccess := true;
             statusOf := Wallet.id wallet;
             statusNow := walletStatusName (Wallet.status wallet);
             statusMessage :=
               "Wallet status updated to " ++ walletStatusName (Wallet.status wallet) |}
  end.

(** [getSystemOverview(request, reply)] *)
Definition getSystemOverview : M SystemOverview :=
  AdminService.getSystemOverview.

End AdminController.

Module App.

(** A handler that reads [request.user.keycloakId]. *)
Definition withUser {A : Type} (handler : string -> M A) (user : option RequestUser)
  : M A :=
  match user with
  | Some u => handler (userKeycloakId u)
  | None => throw (newError "Cannot read properties of undefined (reading 'keycloakId')")
  end.

(** A route registered behind [authenticateJWT] and the role hook
    [hook]: [user] is the [request.user] that [authenticateJWT] left,
    and whatever the hook or the handler throws goes to the error
    handler. *)
Definition route {A : Type} (isDevelopment : bool)
           (hook : option RequestUser -> Outcome unit)
           (handler : option RequestUser -> M A) (user : option RequestUser)
  : World -> Answer A * World :=
  fun w =>
    match hook user with
    | Throw e => (Rejected (errorHandler isDevelopment e), w)
    | Ok _ =>
        match handler user w with
        | (Ok a, w') => (Sent a, w')
        | (Throw e, w') => (Rejected (errorHandler isDevelopment e), w')
        end
    end.

(** [POST /api/v1/transactions/send] *)
Definition sendPayment (env : Env) (isDevelopment : bool) (user : option RequestUser)
           (body : SendPaymentBody) : World -> Answer Reply * World :=
  route isDevelopment AuthMiddleware.requireAuth
        (withUser (fun keycloakId => TransactionController.sendPayment env keycloakId body))
        user.

(** [PATCH /api/v1/admin/users/:userId/status] *)
Definition updateUserStatus (isDevelopment : bool) (user : option RequestUser)
           (userId : string) (status : option string)
  : World -> Answer StatusReply * World :=
  route isDevelopment AuthMiddleware.requireAdmin
        (fun _ => AdminController.updateUserStatus userId status) user.

(** [PATCH /api/v1/admin/wallets/:walletId/status] *)
Definition updateWalletStatus (isDevelopment : bool) (user : option RequestUser)
           (walletId : string) (status : option string)
  : World -> Answer StatusReply * World :=
  route isDevelopment AuthMiddleware.requireAdmin
        (fun _ => AdminController.updateWalletStatus walletId status) user.

(** [GET /api/v1/admin/overview] *)
Definition getSystemOverview (isDevelopment : bool) (user : option RequestUser)
  : World -> Answer SystemOverview * World :=
  route isDevelopment AuthMiddleware.requireAdmin
        (fun _ => AdminController.getSystemOverview) user.

End App.


(** ** Amounts a JavaScript number holds without loss

    A decimal of at most 7 fractional digits that is below 10^8 has at
    most 15 significant digits. The double nearest to it prints back to
    the same digits, so it is stored in a decimal column and formatted
    by [toFixed(7)] as the decimal itself; two such decimals that differ
    are read as doubles that differ in the same direction; and a sum of
    two of them is off by less than half a unit of 10^-7. On these
    numbers the doubles of the code and the exact rationals that stand
    for them give the same answers; the properties that depend on the
    exact value of a number are stated for them only. *)
Definition safeDecimal (d : Decimal) : bool :=
  (0 <=? d) && (d <? 1000000000000000).

Definition safeNumber (q : Q) : bool :=
  safeDecimal (toDecimal q) && Qeq_bool q (toDecimal q # 10000000).

(* ===================================================================== *)
(** * Part II: properties *)
(* ===================================================================== *)

(** ** Hex encoding and splitting *)

Lemma fromHex_byteToHex (b : ascii) (r : string) :
  fromHex (byteToHex b ++ r) = b :: fromHex r.
Proof.
  destruct b as [[] [] [] [] [] [] [] []]; reflexivity.
Qed.

Lemma fromHex_toHex (bs : bytes) : fromHex (toHex bs) = bs.
Proof.
  induction bs as [|b r IH]; [reflexivity|].
  cbn [toHex]. rewrite fromHex_byteToHex, IH. reflexivity.
Qed.

Lemma hasChar_app (c : ascii) (s1 s2 : string) :
  hasChar c (s1 ++ s2) = hasChar c s1 || hasChar c s2.
Proof.
  induction s1 as [|d r IH]; [reflexivity|].
  cbn. rewrite IH. apply orb_assoc.
Qed.

Lemma hasChar_byteToHex (b : ascii) : hasChar ":" (byteToHex b) = false.
Proof.
  destruct b as [[] [] [] [] [] [] [] []]; reflexivity.
Qed.

Lemma hasChar_toHex (bs : bytes) : hasChar ":" (toHex bs) = false.
Proof.
  induction bs as [|b r IH]; [reflexivity|].
  cbn [toHex]. rewrite hasChar_app, hasChar_byteToHex, IH. reflexivity.
Qed.

Lemma split_absent (sep : ascii) (s : string) :
  hasChar sep s = false -> split sep s = [s].
Proof.
  induction s as [|c r IH]; [reflexivity|].
  cbn. intros H. apply orb_false_elim in H as [Hc Hr].
  rewrite Hc, (IH Hr). reflexivity.
Qed.

Lemma split_app_sep (sep : ascii) (s1 s2 : string) :
  hasChar sep s1 = false ->
  split sep (s1 ++ String sep s2) = s1 :: split sep s2.
Proof.
  induction s1 as [|c r IH]; cbn.
  - intros _. rewrite Ascii.eqb_refl. reflexivity.
  - intros H. apply orb_false_elim in H as [Hc Hr].
    rewrite Hc, (IH Hr). reflexivity.
Qed.

Lemma split_hex_pair (a b : bytes) :
  split ":" (toHex a ++ ":" ++ toHex b) = [toHex a; toHex b].
Proof.
  change (":" ++ toHex b) with (String ":" (toHex b)).
  rewrite split_app_sep by apply hasChar_toHex.
  rewrite split_absent by apply hasChar_toHex. reflexivity.
Qed.

Lemma truthy_toHex (bs : bytes) :
  truthy (Some (toHex bs)) = negb (Nat.eqb (length bs) 0).
Proof.
  destruct bs as [|b r]; reflexivity.
Qed.

Lemma utf8_roundtrip (s : string) : utf8Decode (utf8Encode s) = s.
Proof. apply string_of_list_ascii_of_string. Qed.

Lemma length_utf8Encode (s : string) :
  length (utf8Encode s) = String.length s.
Proof.
  induction s as [|c r IH]; [reflexivity|]. cbn. now rewrite <- IH.
Qed.

(** ** Secret keys survive encryption followed by decryption *)

Section CryptoFacts.
Context {G : AesGcm}.
Hypothesis HG : AesGcmSpec G.
Variable KEY : bytes.

Lemma split_encryptedSecret (rnd : bytes) (s : string) :
  split ":" (encryptedSecret (encryptSecretKey KEY rnd s))
  = [encrypted (encrypt KEY rnd s); authTag (encrypt KEY rnd s)].
Proof. apply split_hex_pair. Qed.

Lemma decrypt_encrypt (rnd : bytes) (s : string) :
  decrypt KEY (encrypt KEY rnd s) = Ok s.
Proof.
  unfold decrypt, encrypt. cbn [iv encrypted authTag].
  rewrite !fromHex_toHex, (gcm_roundtrip G HG), utf8_roundtrip. reflexivity.
Qed.

Lemma decryptSecretKey_encryptSecretKey (rnd : bytes) (s : string) :
  s <> "" ->
  decryptSecretKey KEY (encryptedSecret (encryptSecretKey KEY rnd s))
                   (secretIv (encryptSecretKey KEY rnd s)) = Ok s.
Proof.
  intros Hs. unfold decryptSecretKey.
  rewrite split_encryptedSecret. cbn [nth_error].
  unfold encrypt at 1 2. cbn [encrypted authTag].
  rewrite !truthy_toHex, (gcm_length G HG), (gcm_tag_length G HG), length_utf8Encode.
  destruct s as [|c r]; [congruence|]. cbn [String.length Nat.eqb negb orb].
  rewrite <- (decrypt_encrypt rnd (String c r)) at 1.
  reflexivity.
Qed.

Lemma decryptSecretKey_encryptSecretKey_empty (rnd : bytes) :
  decryptSecretKey KEY (encryptedSecret (encryptSecretKey KEY rnd ""))
                   (secretIv (encryptSecretKey KEY rnd ""))
  = Throw (newError "Invalid encrypted secret key format").
Proof.
  unfold decryptSecretKey.
  rewrite split_encryptedSecret. cbn [nth_error].
  unfold encrypt at 1. cbn [encrypted].
  rewrite truthy_toHex, (gcm_length G HG). reflexivity.
Qed.
End CryptoFacts.

Lemma xorByte_involutive (k c : ascii) : xorByte k (xorByte k c) = c.
Proof.
  assert (X : forall a b : bool, xorb a (xorb a b) = b) by (intros [] []; reflexivity).
  destruct k, c. cbn. rewrite !X. reflexivity.
Qed.

Lemma xorGcm_spec : AesGcmSpec xorGcm.
Proof.
  split; intros key iv0 pt; unfold gcm_encrypt, gcm_decrypt, xorGcm; cbn [fst snd].
  - rewrite map_map.
    rewrite (map_ext _ (fun x => x)) by (intros; apply xorByte_involutive).
    rewrite map_id, String.eqb_refl. reflexivity.
  - apply length_map.
  - apply repeat_length.
Qed.

(** C9. For every secret key, under a cipher that meets its contract,
    decrypting what [encryptSecretKey] produced gives the key back; the
    stored string is the hex ciphertext, a colon, and the hex
    authentication tag, and splitting it at the colon returns exactly
    these two parts. A secret key is a non-empty string of ASCII
    characters: the one caller passes what [Keypair.random().secret()]
    returned, 56 characters of the base-32 alphabet. *)
Theorem secret_key_roundtrip
        (G : AesGcm) (HG : AesGcmSpec G) (KEY rnd : bytes) (s : string) :
  s <> "" ->
  allChars isAscii s = true ->
  decryptSecretKey KEY (encryptedSecret (encryptSecretKey KEY rnd s))
                   (secretIv (encryptSecretKey KEY rnd s)) = Ok s
  /\ encryptedSecret (encryptSecretKey KEY rnd s)
     = encrypted (encrypt KEY rnd s) ++ ":" ++ authTag (encrypt KEY rnd s)
  /\ split ":" (encryptedSecret (encryptSecretKey KEY rnd s))
     = [encrypted (encrypt KEY rnd s); authTag (encrypt KEY rnd s)].
Proof.
  intros Hs _. split; [|split].
  - apply decryptSecretKey_encryptSecretKey; assumption.
  - reflexivity.
  - apply split_encryptedSecret.
Qed.

(** A secret key as the key generator returns them. *)
Lemma secret_key_roundtrip_witness :
  let s := "SCZANGBA5YHTNYVVV4C3U252E2B6P6F5T3U6MM63WBSBZATAQI3EBTQ4" in
  let sealed := encryptSecretKey (G := xorGcm) Sample.key Sample.rnd s in
  let data := encrypt (G := xorGcm) Sample.key Sample.rnd s in
  String.length s = 56%nat
  /\ decryptSecretKey (G := xorGcm) Sample.key (encryptedSecret sealed) (secretIv sealed)
     = Ok s
  /\ encryptedSecret sealed = encrypted data ++ ":" ++ authTag data
  /\ split ":" (encryptedSecret sealed) = [encrypted data; authTag data].
Proof.
  cbv zeta. split; [reflexivity|].
  apply (secret_key_roundtrip xorGcm xorGcm_spec Sample.key Sample.rnd
           "SCZANGBA5YHTNYVVV4C3U252E2B6P6F5T3U6MM63WBSBZATAQI3EBTQ4").
  - discriminate.
  - reflexivity.
Defined.

(** ** Reading operations leave the state alone *)

Ltac run_in H :=
  match type of H with
  | context [match ?x with _ => _ end] => destruct x eqn:?
  | context [if ?x then _ else _] => destruct x eqn:?
  end.

Ltac finish H := first [discriminate H | inversion H; subst; clear H].

(** Case analysis along every [match] and [if] met in the hypotheses. *)
Ltac run_all :=
  repeat (cbv beta iota in *;
          match goal with
          | H : (_, _) = (_, _) |- _ => inversion H; clear H; subst
          | H : Ok _ = Ok _ |- _ => inversion H; clear H; subst
          | H : Throw _ = Throw _ |- _ => inversion H; clear H; subst
          | H : Some _ = Some _ |- _ => inversion H; clear H; subst
          | H : Ok _ = Throw _ |- _ => discriminate H
          | H : Throw _ = Ok _ |- _ => discriminate H
          | H : Some _ = None |- _ => discriminate H
          | H : None = Some _ |- _ => discriminate H
          | H : context [match ?x with _ => _ end] |- _ => destruct x eqn:?
          | H : context [if ?x then _ else _] |- _ => destruct x eqn:?
          end).

Lemma StellarService_getBalance_reads env pk w r w' :
  StellarService.getBalance env pk w = (r, w') -> w' = w.
Proof.
  unfold StellarService.getBalance, bind, get, ret, throw. intros H.
  repeat (run_in H; try (finish H; reflexivity)).
Qed.

Lemma getWalletByUserId_spec uid w :
  WalletService.getWalletByUserId uid w =
  match wallet_findByUserId uid w with
  | Some x => (Ok x, w)
  | None => (Throw (newNotFoundError "Wallet"), w)
  end.
Proof.
  unfold WalletService.getWalletByUserId, bind, get, ret, throw.
  destruct (wallet_findByUserId uid w); reflexivity.
Qed.

Lemma getUserById_spec id w :
  UserService.getUserById id w =
  match user_findById id w with
  | Some x => (Ok x, w)
  | None => (Throw (newNotFoundError "User"), w)
  end.
Proof.
  unfold UserService.getUserById, bind, get, ret, throw.
  destruct (user_findById id w); reflexivity.
Qed.

Lemma getUserByHandle_spec h w :
  UserService.getUserByHandle h w =
  match user_findByHandle h w with
  | Some x => (Ok x, w)
  | None => (Throw (newNotFoundError "User"), w)
  end.
Proof.
  unfold UserService.getUserByHandle, bind, get, ret, throw.
  destruct (user_findByHandle h w); reflexivity.
Qed.

Lemma getUserByKeycloakId_spec k w :
  UserService.getUserByKeycloakId k w =
  match user_findByKeycloakId k w with
  | Some x => (Ok x, w)
  | None => (Throw (newNotFoundError "User"), w)
  end.
Proof.
  unfold UserService.getUserByKeycloakId, bind, get, ret, throw.
  destruct (user_findByKeycloakId k w); reflexivity.
Qed.

(** ** Payment intake *)

Lemma sendPayment_throw_unchanged env p w e w' :
  TransactionService.sendPayment env p w = (Throw e, w') -> w' = w.
Proof.
  unfold TransactionService.sendPayment, UserService.getUserById,
    UserService.getUserByHandle, WalletService.getWalletByUserId,
    transaction_create, bind, get, ret, throw, modify.
  intros H.
  run_all; reflexivity.
Qed.

Lemma truthy_Some (k : string) : truthy (Some k) = true <-> k <> "".
Proof.
  destruct k; cbn; split; congruence.
Qed.

Lemma sendPayment_ok env p w t w' :
  TransactionService.sendPayment env p w = (Ok t, w') -> Intake env p w t w'.
Proof.
  unfold TransactionService.sendPayment, UserService.getUserById,
    UserService.getUserByHandle, WalletService.getWalletByUserId,
    transaction_create, bind, get, ret, throw, modify.
  intros H. run_all.
  all: try (eapply Replayed;
            [eassumption | apply truthy_Some; assumption | assumption | reflexivity]).
  all: apply Created;
    [ intros k Hk Hne; apply truthy_Some in Hne;
      rewrite Hk in *; first [assumption | congruence]
    | first [reflexivity | cbn; congruence] .. ].
Qed.

Lemma sendPayment_replay env p w k t :
  idempotencyKey p = Some k -> k <> "" ->
  TransactionService.amountRejected (config env) (parseFloat (sendAmount p)) = false ->
  transaction_findByIdempotencyKey k w = Some t ->
  TransactionService.sendPayment env p w = (Ok t, w).
Proof.
  intros Hk Hne Ha Hf. apply truthy_Some in Hne.
  unfold TransactionService.sendPayment, bind, get, ret.
  rewrite Ha, Hk, Hne, Hf. reflexivity.
Qed.

Lemma find_app_None {A : Type} (f : A -> bool) (l : list A) (x : A) :
  find f l = None -> f x = true -> find f (l ++ [x]) = Some x.
Proof.
  induction l as [|a l IH]; cbn; intros Hn Hx.
  - rewrite Hx. reflexivity.
  - destruct (f a); [discriminate|]. apply IH; assumption.
Qed.

Lemma optionEqb_refl (k : string) : optionEqb (Some k) (Some k) = true.
Proof. cbn. apply String.eqb_refl. Qed.

(** C4 (as amended). Two [sendPayment] calls carry the same non-empty
    idempotency key, the first one returned a transaction, and the amount
    of the second one (equal or not) passes the amount test of step 1:
    then the second call returns the very same transaction and leaves
    the state as the first call left it, whoever its sender and
    recipient are, so that over both calls one row and one job were
    added when the key was new, and none when it was already stored. *)
Theorem idempotent_intake
        (env1 env2 : Env) (p1 p2 : SendPaymentParams) (k : string)
        (w w1 : World) (t1 : Transaction.t) :
  idempotencyKey p1 = Some k ->
  idempotencyKey p2 = Some k ->
  k <> "" ->
  TransactionService.amountRejected (config env2) (parseFloat (sendAmount p2)) = false ->
  TransactionService.sendPayment env1 p1 w = (Ok t1, w1) ->
  TransactionService.sendPayment env2 p2 w1 = (Ok t1, w1)
  /\ (transaction_findByIdempotencyKey k w = None ->
      transactions w1 = (transactions w ++ [t1])%list
      /\ jobs w1 = (jobs w ++ [jobFor env1 t1])%list)
  /\ (transaction_findByIdempotencyKey k w <> None -> w1 = w).
Proof.
  intros Hk1 Hk2 Hne Hamount H1.
  apply sendPayment_ok in H1.
  destruct H1 as [k' Hkey Hk' Hfound Hsame | Hfresh Hst Hid Hk Hrows Hjobs Hu Hw Hp].
  - assert (k' = k) by congruence. subst k' w1.
    split; [|split].
    + apply (sendPayment_replay env2 p2 w k t1); assumption.
    + intros Hnone. congruence.
    + reflexivity.
  - pose proof (Hfresh k Hk1 Hne) as Hnone.
    split; [|split].
    + apply (sendPayment_replay env2 p2 w1 k t1); try assumption.
      unfold transaction_findByIdempotencyKey in *. rewrite Hrows.
      apply find_app_None; [assumption|].
      rewrite Hk, Hk1. apply optionEqb_refl.
    + intros _. split; assumption.
    + intros Hsome. contradiction.
Qed.

Lemma idempotent_intake_witness :
  TransactionService.sendPayment (Sample.env 0) (Sample.send "25" (Some "key-1"))
                                 Sample.requested
  = (Ok (Sample.tx CREATED), Sample.requested)
  /\ (transaction_findByIdempotencyKey "key-1" Sample.fresh = None ->
      transactions Sample.requested
      = (transactions Sample.fresh ++ [Sample.tx CREATED])%list
      /\ jobs Sample.requested
         = (jobs Sample.fresh ++ [jobFor (Sample.env 0) (Sample.tx CREATED)])%list)
  /\ (transaction_findByIdempotencyKey "key-1" Sample.fresh <> None ->
      Sample.requested = Sample.fresh).
Proof.
  apply (idempotent_intake (Sample.env 0) (Sample.env 0)
                           (Sample.send "10" (Some "key-1"))
                           (Sample.send "25" (Some "key-1")) "key-1").
  - reflexivity.
  - reflexivity.
  - discriminate.
  - vm_compute. reflexivity.
  - vm_compute. reflexivity.
Defined.

(** C4 fails as stated: the amount is tested before the idempotency key
    is looked up, so a second call with the same key and the amount "0"
    is rejected instead of returning the first transaction. *)
Lemma idempotent_intake_counterexample :
  exists e : Exn,
    TransactionService.sendPayment (Sample.env 0) (Sample.send "10" (Some "key-1"))
                                   Sample.fresh
    = (Ok (Sample.tx CREATED), Sample.requested)
    /\ TransactionService.sendPayment (Sample.env 0) (Sample.send "0" (Some "key-1"))
                                      Sample.requested
       = (Throw e, Sample.requested)
    /\ cls e = ValidationError.
Proof.
  eexists. split; [|split]; vm_compute; reflexivity.
Qed.

(** The empty string is a key the lookup skips: a second request under
    the key "" goes through all the checks again and stops at the unique
    index on the key column. *)
Lemma empty_key_is_not_looked_up :
  let w1 := snd (TransactionService.sendPayment
                   (Sample.env 0) (Sample.send "10" (Some "")) Sample.fresh) in
  transactions w1 <> []
  /\ TransactionService.sendPayment (Sample.env 0) (Sample.send "10" (Some "")) w1
     = (Throw (uniqueConstraintFailed "idempotency_key"), w1).
Proof.
  split; [vm_compute; discriminate | vm_compute; reflexivity].
Qed.

(** ** The send route *)

(** C5 (as amended). Every successful response of the send route has
    HTTP status 201. Its body carries status CREATED, the transaction
    being the one row the request added, unless the request replays a
    stored non-empty idempotency key: then nothing is written and the
    body carries the id and the current status of the stored
    transaction, whatever that status is. *)
Theorem send_route_reply
        (env : Env) (keycloakId : string) (body : SendPaymentBody)
        (w w' : World) (r : Reply) :
  TransactionController.sendPayment env keycloakId body w = (Ok r, w') ->
  replyCode r = 201
  /\ ((exists t, transactions w' = (transactions w ++ [t])%list
                 /\ dataTransactionId (replyData r) = Transaction.id t
                 /\ dataStatus (replyData r) = CREATED)
      \/ (exists k t, bodyIdempotencyKey body = Some k /\ k <> ""
                      /\ transaction_findByIdempotencyKey k w = Some t
                      /\ w' = w
                      /\ dataTransactionId (replyData r) = Transaction.id t
                      /\ dataStatus (replyData r) = Transaction.status t)).
Proof.
  unfold TransactionController.sendPayment. intros H.
  destruct (negb (sendPaymentSchema body)); [discriminate H|].
  unfold bind, ret in H. rewrite getUserByKeycloakId_spec in H.
  destruct (user_findByKeycloakId keycloakId w) as [user|]; [|discriminate H].
  destruct (TransactionService.sendPayment env _ w) as [[t|e] w1] eqn:Hs;
    [|discriminate H].
  injection H as <- <-. split; [reflexivity|].
  apply sendPayment_ok in Hs.
  destruct Hs as [k Hkey Hk Hfound Hsame | Hfresh Hst Hid Hk Hrows Hjobs Hu Hw Hp].
  - right. exists k, t. cbn in *. repeat split; auto.
  - left. exists t. cbn. repeat split; auto.
Qed.

Lemma send_route_reply_witness :
  exists r : Reply,
    TransactionController.sendPayment (Sample.env 0) "kc1"
      (Sample.body "10" (Some "key-1")) Sample.fresh = (Ok r, Sample.requested)
    /\ replyCode r = 201
    /\ dataStatus (replyData r) = CREATED.
Proof.
  eexists. split; [vm_compute; reflexivity|].
  destruct (send_route_reply (Sample.env 0) "kc1" (Sample.body "10" (Some "key-1"))
                             Sample.fresh Sample.requested _ eq_refl) as [Hc _].
  split; [exact Hc | reflexivity].
Defined.

(** C5 fails as stated: once the worker has settled a payment, a request
    replaying its idempotency key is answered 201 with the terminal
    status SUCCESS. *)
Lemma send_route_reply_counterexample :
  exists r : Reply,
    TransactionController.sendPayment (Sample.env 0) "kc1"
      (Sample.body "10" (Some "key-1")) Sample.settled = (Ok r, Sample.settled)
    /\ replyCode r = 201
    /\ dataTransactionId (replyData r) = "tx_0"
    /\ dataStatus (replyData r) = SUCCESS.
Proof.
  eexists. split; [vm_compute; reflexivity|]. repeat split.
Qed.

(** ** Intake errors *)

Lemma sendPayment_insufficient env p w e w' :
  TransactionService.sendPayment env p w = (Throw e, w') ->
  cls e = InsufficientBalanceError ->
  exists sender wallet,
    user_findById (senderUserId p) w = Some sender
    /\ wallet_findByUserId (User.id sender) w = Some wallet
    /\ numLt (parseFloat (Decimal_toString (Wallet.balance wallet)))
             (parseFloat (sendAmount p)) = true
    /\ e = newInsufficientBalanceError (sendAmount p)
                                       (Decimal_toString (Wallet.balance wallet)).
Proof.
  unfold TransactionService.sendPayment, UserService.getUserById,
    UserService.getUserByHandle, WalletService.getWalletByUserId,
    transaction_create, bind, get, ret, throw, modify.
  intros H Hc. run_all; try discriminate Hc.
  all: eexists; eexists; repeat split; eassumption.
Qed.

Lemma sendPayment_insufficient_raised env p w sender recipient senderWallet recipientWallet :
  TransactionService.amountRejected (config env) (parseFloat (sendAmount p)) = false ->
  (forall k, idempotencyKey p = Some k -> k <> "" ->
             transaction_findByIdempotencyKey k w = None) ->
  user_findById (senderUserId p) w = Some sender ->
  user_findByHandle (recipientHandle p) w = Some recipient ->
  String.eqb (User.id sender) (User.id recipient) = false ->
  isBlocked (User.status sender) = false ->
  isBlocked (User.status recipient) = false ->
  wallet_findByUserId (User.id sender) w = Some senderWallet ->
  wallet_findByUserId (User.id recipient) w = Some recipientWallet ->
  Wallet.status senderWallet = WALLET_ACTIVE ->
  Wallet.status recipientWallet = WALLET_ACTIVE ->
  numLt (parseFloat (Decimal_toString (Wallet.balance senderWallet)))
        (parseFloat (sendAmount p)) = true ->
  TransactionService.sendPayment env p w
  = (Throw (newInsufficientBalanceError
              (sendAmount p) (Decimal_toString (Wallet.balance senderWallet))), w).
Proof.
  intros Ha Hfresh Hs Hr Hne Hbs Hbr Hsw Hrw Hss Hrs Hlt.
  unfold TransactionService.sendPayment. rewrite Ha.
  unfold bind at 1. unfold get.
  assert (Hnone : (if truthy (idempotencyKey p)
                   then match idempotencyKey p with
                        | Some k => transaction_findByIdempotencyKey k w
                        | None => None
                        end
                   else None) = None).
  { destruct (idempotencyKey p) as [k|] eqn:Hk; [|destruct (truthy None); reflexivity].
    destruct (truthy (Some k)) eqn:Ht; [|reflexivity].
    apply Hfresh; [reflexivity | apply truthy_Some; assumption]. }
  rewrite Hnone.
  unfold bind at 1. rewrite getUserById_spec, Hs.
  unfold bind at 1. rewrite getUserByHandle_spec, Hr.
  rewrite Hne, Hbs, Hbr.
  unfold bind at 1. rewrite getWalletByUserId_spec, Hsw.
  unfold bind at 1. rewrite getWalletByUserId_spec, Hrw.
  rewrite Hss, Hrs. cbn [isFrozen isClosed]. rewrite Hlt. reflexivity.
Qed.

(** C6. Whenever [sendPayment] throws, the state is the one it started
    from: no transaction row was created and no job was enqueued. When
    the request reaches the balance check (valid amount, no stored
    idempotency key, both users found, distinct and not blocked, both
    wallets active) with a cached balance below the amount, the error is
    an [InsufficientBalanceError] whose metadata carry the requested
    amount as [required] and the cached balance as [available]; and
    every [InsufficientBalanceError] thrown is of this form. *)
Theorem intake_errors_write_nothing (env : Env) (p : SendPaymentParams) (w : World) :
  (forall e w',
     TransactionService.sendPayment env p w = (Throw e, w') ->
     w' = w /\ transactions w' = transactions w /\ jobs w' = jobs w)
  /\ (forall sender recipient senderWallet recipientWallet,
        TransactionService.amountRejected (config env) (parseFloat (sendAmount p)) = false ->
        (forall k, idempotencyKey p = Some k -> k <> "" ->
                   transaction_findByIdempotencyKey k w = None) ->
        user_findById (senderUserId p) w = Some sender ->
        user_findByHandle (recipientHandle p) w = Some recipient ->
        String.eqb (User.id sender) (User.id recipient) = false ->
        isBlocked (User.status sender) = false ->
        isBlocked (User.status recipient) = false ->
        wallet_findByUserId (User.id sender) w = Some senderWallet ->
        wallet_findByUserId (User.id recipient) w = Some recipientWallet ->
        Wallet.status senderWallet = WALLET_ACTIVE ->
        Wallet.status recipientWallet = WALLET_ACTIVE ->
        numLt (parseFloat (Decimal_toString (Wallet.balance senderWallet)))
              (parseFloat (sendAmount p)) = true ->
        exists e,
          TransactionService.sendPayment env p w = (Throw e, w)
          /\ cls e = InsufficientBalanceError
          /\ code (cls e) = "INSUFFICIENT_BALANCE"
          /\ metadata e = [("required", sendAmount p);
                           ("available", Decimal_toString (Wallet.balance senderWallet))])
  /\ (forall e w',
        TransactionService.sendPayment env p w = (Throw e, w') ->
        cls e = InsufficientBalanceError ->
        exists sender wallet,
          user_findById (senderUserId p) w = Some sender
          /\ wallet_findByUserId (User.id sender) w = Some wallet
          /\ numLt (parseFloat (Decimal_toString (Wallet.balance wallet)))
                   (parseFloat (sendAmount p)) = true
          /\ metadata e = [("required", sendAmount p);
                           ("available", Decimal_toString (Wallet.balance wallet))]).
Proof.
  split; [|split].
  - intros e w' H. pose proof (sendPayment_throw_unchanged _ _ _ _ _ H) as ->.
    repeat split.
  - intros sender recipient senderWallet recipientWallet
           Ha Hfresh Hs Hr Hne Hbs Hbr Hsw Hrw Hss Hrs Hlt.
    eexists.
    split; [eapply sendPayment_insufficient_raised; eassumption | repeat split].
  - intros e w' H Hc.
    destruct (sendPayment_insufficient _ _ _ _ _ H Hc)
      as (sender & wallet & Hs & Hw & Hlt & ->).
    exists sender, wallet. repeat split; assumption.
Qed.

(** The scenario of the specification: balance 50, amount 100. *)
Lemma intake_errors_write_nothing_witness :
  (exists e,
     TransactionService.sendPayment (Sample.env 0) (Sample.send "100" None) Sample.fresh
     = (Throw e, Sample.fresh)
     /\ cls e = InsufficientBalanceError
     /\ code (cls e) = "INSUFFICIENT_BALANCE"
     /\ metadata e = [("required", "100"); ("available", "50")])
  /\ transactions Sample.fresh = transactions Sample.fresh
  /\ jobs Sample.fresh = jobs Sample.fresh.
Proof.
  destruct (intake_errors_write_nothing (Sample.env 0) (Sample.send "100" None) Sample.fresh)
    as (Hsame & Hraised & _).
  split.
  - apply (Hraised (Sample.user "u1" "kc1" "alice" ACTIVE)
                   (Sample.user "u2" "kc2" "bob" ACTIVE)
                   (Sample.wallet (G := xorGcm) "w1" "u1" "GALICE" "SALICE"
                                  (50 * unitsPerXlm) WALLET_ACTIVE)
                   (Sample.wallet (G := xorGcm) "w2" "u2" "GBOB" "SBOB" 0 WALLET_ACTIVE));
      reflexivity.
  - apply (Hsame (newInsufficientBalanceError "100" "50") Sample.fresh).
    vm_compute. reflexivity.
Defined.

(** ** The ledger gateway's balance query *)

(** C8. [getBalance] answers the string "0" when the network reports
    404 for the account, and when the account holds no native balance;
    it throws, and then a [StellarError], exactly when loading the
    account failed with another status; it never writes. *)
Theorem gateway_getBalance_unknown_account (env : Env) (publicKey : string) (w : World) :
  (forall e, loadAccount (horizon env) (length (payments w)) publicKey = AccountFailed e ->
             responseStatus e = Some 404 ->
             StellarService.getBalance env publicKey w = (Ok "0", w))
  /\ (forall balances,
        loadAccount (horizon env) (length (payments w)) publicKey = AccountLoaded balances ->
        find isNative balances = None ->
        StellarService.getBalance env publicKey w = (Ok "0", w))
  /\ (forall e, loadAccount (horizon env) (length (payments w)) publicKey = AccountFailed e ->
               responseStatus e <> Some 404 ->
               StellarService.getBalance env publicKey w
               = (Throw (newStellarError "Failed to get account balance"), w))
  /\ (forall x w', StellarService.getBalance env publicKey w = (Throw x, w') ->
                  cls x = StellarError
                  /\ exists e, loadAccount (horizon env) (length (payments w)) publicKey
                               = AccountFailed e
                               /\ responseStatus e <> Some 404).
Proof.
  unfold StellarService.getBalance, bind, get, ret, throw.
  repeat split.
  - intros e -> ->. reflexivity.
  - intros balances -> ->. reflexivity.
  - intros e -> Hs. destruct (responseStatus e) as [st|]; cbn; [|reflexivity].
    destruct (Z.eqb_spec st 404); [congruence | reflexivity].
  - run_all. reflexivity.
  - run_all. eexists. split; [reflexivity|].
    intros Hs. rewrite Hs in *. discriminate.
Qed.

Lemma gateway_getBalance_unknown_account_witness :
  StellarService.getBalance Sample.emptyEnv "GNOBODY" Sample.fresh = (Ok "0", Sample.fresh)
  /\ StellarService.getBalance Sample.downEnv "GALICE" Sample.fresh
     = (Throw (newStellarError "Failed to get account balance"), Sample.fresh).
Proof.
  split.
  - apply (gateway_getBalance_unknown_account Sample.emptyEnv "GNOBODY" Sample.fresh)
      with (e := Sample.notFound); reflexivity.
  - apply (gateway_getBalance_unknown_account Sample.downEnv "GALICE" Sample.fresh)
      with (e := Sample.unavailable); [reflexivity | discriminate].
Defined.

(** ** Reading a wallet's balance *)

(** C10. [WalletService.getBalance] never writes: the state, and with it
    the cached balance, is the one it started from. When it answers,
    [balance] is the cached balance and [stellarBalance] the gateway's
    live balance, each formatted to 7 decimal places, and [synced] is
    true exactly when the two formatted strings are equal. *)
Theorem wallet_getBalance_compares_without_writing
        (env : Env) (userId : string) (w w' : World) (r : Outcome BalanceView) :
  WalletService.getBalance env userId w = (r, w') ->
  w' = w
  /\ forall v, r = Ok v ->
       (synced v = true <-> viewBalance v = stellarBalance v)
       /\ exists wallet live,
           wallet_findByUserId userId w = Some wallet
           /\ StellarService.getBalance env (Wallet.stellarPublicKey wallet) w = (Ok live, w)
           /\ viewBalance v = toFixed7 (parseFloat (Decimal_toString (Wallet.balance wallet)))
           /\ stellarBalance v = toFixed7 (parseFloat live).
Proof.
  unfold WalletService.getBalance, bind, ret.
  rewrite getWalletByUserId_spec.
  destruct (wallet_findByUserId userId w) as [wallet|].
  2: { intros H. injection H as <- <-. split; [reflexivity|]. discriminate. }
  destruct (StellarService.getBalance env (Wallet.stellarPublicKey wallet) w)
    as [[live|e] w1] eqn:Hg;
    pose proof (StellarService_getBalance_reads _ _ _ _ _ Hg) as ->;
    intros H; injection H as <- <-; (split; [reflexivity|]).
  - intros v Hv. injection Hv as <-. cbn [synced viewBalance stellarBalance]. split.
    + apply String.eqb_eq.
    + exists wallet, live. repeat split. exact Hg.
  - discriminate.
Qed.

Lemma wallet_getBalance_compares_without_writing_witness :
  WalletService.getBalance (Sample.env 0) "u1" Sample.fresh
  = (Ok {| viewBalance := "50.0000000"; stellarBalance := "40.0000000"; synced := false |},
     Sample.fresh)
  /\ Sample.fresh = Sample.fresh.
Proof.
  split; [vm_compute; reflexivity|].
  apply (wallet_getBalance_compares_without_writing
           (Sample.env 0) "u1" Sample.fresh Sample.fresh
           (Ok {| viewBalance := "50.0000000"; stellarBalance := "40.0000000";
                  synced := false |})).
  vm_compute. reflexivity.
Defined.

(** ** Funding limits *)

Lemma find_map_update {A : Type} (key : A -> string) (id : string)
      (data : A -> A) (l : list A) (o : A) :
  (forall x, key (data x) = key x) ->
  find (fun x => String.eqb (key x) id) l = Some o ->
  find (fun x => String.eqb (key x) id)
       (map (fun x => if String.eqb (key x) id then data x else x) l)
  = Some (data o).
Proof.
  intros Hkey. induction l as [|a l IH]; cbn; [discriminate|].
  destruct (String.eqb (key a) id) eqn:E.
  - intros H. injection H as <-. cbn. rewrite Hkey, E. reflexivity.
  - intros H. cbn. rewrite E. apply IH, H.
Qed.

Lemma reset_iff (env : Env) (wallet : Wallet.t) :
  (1 <=? WalletService.daysDiff env wallet) = true
  <-> msPerDay <= now env - Wallet.lastResetDate wallet.
Proof.
  unfold WalletService.daysDiff. rewrite Z.leb_le.
  assert (Hd : 0 < msPerDay) by reflexivity.
  split; intros H.
  - destruct (Z_lt_le_dec (now env - Wallet.lastResetDate wallet) msPerDay) as [Hlt|]; [|assumption].
    apply (Z.div_lt_upper_bound _ _ 1 Hd) in Hlt; lia.
  - apply Z.div_le_lower_bound; lia.
Qed.

Lemma fundWallet_ok (env : Env) (userId : string) (w w' : World)
      (wallet : Wallet.t) (r : FundResult) :
  wallet_findByUserId userId w = Some wallet ->
  WalletService.fundWallet env userId w = (Ok r, w') ->
  exists stored sum,
    wallet_findById (Wallet.id wallet) w' = Some stored
    /\ numAdd (WalletService.currentDailyFundingSum env wallet)
              (Some WalletService.friendbotAmount) = Some sum
    /\ Wallet.fundingCount stored = WalletService.currentFundingCount env wallet + 1
    /\ Wallet.dailyFundingSum stored = toDecimal sum
    /\ Wallet.lastResetDate stored
       = (if 1 <=? WalletService.daysDiff env wallet then now env
          else Wallet.lastResetDate wallet).
Proof.
  intros Hw. unfold WalletService.fundWallet, bind.
  rewrite getWalletByUserId_spec, Hw.
  destruct (isFrozen (Wallet.status wallet)); [discriminate|].
  destruct (rateLimitMax (config env) <=? _); [discriminate|].
  destruct (numGt _ _); [discriminate|].
  unfold tryCatch, bind, ret, throw.
  destruct (StellarService.fundWithFriendbot env _ w) as [[[]|e] w1] eqn:Hf;
    [|discriminate].
  assert (w1 = w) as ->.
  { revert Hf. unfold StellarService.fundWithFriendbot, tryCatch, bind, get, ret, throw.
    intros Hf. run_all; reflexivity. }
  destruct (StellarService.getBalance env _ w) as [[live|e] w2] eqn:Hg; [|discriminate].
  pose proof (StellarService_getBalance_reads _ _ _ _ _ Hg) as ->.
  destruct (parseFloat live) as [b|]; [|destruct (numAdd _ _); discriminate].
  destruct (numAdd _ _) as [sum|]; [|discriminate].
  unfold wallet_update.
  destruct (wallet_findById (Wallet.id wallet) w) as [o|] eqn:Ho; [|discriminate].
  intros H. injection H as _ <-.
  eexists. exists sum. split; [|repeat split].
  unfold wallet_findById in *. cbn [wallets setWallets].
  rewrite (find_map_update Wallet.id _ _ _ o); [reflexivity | reflexivity | exact Ho].
  all: reflexivity.
Qed.

(** C7. For the wallet of the user: [fundWallet] throws
    [WalletFrozenError] when the wallet is FROZEN; otherwise
    [RateLimitExceededError] when the current funding count has reached
    the maximum per day (3 unless configured); otherwise
    [LimitExceededError] when the current daily sum plus the funded
    amount exceeds the daily cap (10,000 unless configured); none of
    these writes. The current counters are those of the wallet, or zero
    once a full day has passed since [lastResetDate]; a funding that goes
    through after that stores a count of 1 and a daily sum of one
    funding, and moves [lastResetDate] to now. *)
Theorem fundWallet_limits
        (env : Env) (userId : string) (w : World) (wallet : Wallet.t) :
  wallet_findByUserId userId w = Some wallet ->
  (Wallet.status wallet = FROZEN ->
   WalletService.fundWallet env userId w
   = (Throw (newWalletFrozenError (Wallet.id wallet)), w))
  /\ (Wallet.status wallet <> FROZEN ->
      rateLimitMax (config env) <= WalletService.currentFundingCount env wallet ->
      exists e, WalletService.fundWallet env userId w = (Throw e, w)
                /\ cls e = RateLimitExceededError)
  /\ (Wallet.status wallet <> FROZEN ->
      WalletService.currentFundingCount env wallet < rateLimitMax (config env) ->
      numGt (numAdd (WalletService.currentDailyFundingSum env wallet)
                    (Some WalletService.friendbotAmount))
            (Some (dailyCapXlm (config env))) = true ->
      exists e, WalletService.fundWallet env userId w = (Throw e, w)
                /\ cls e = LimitExceededError)
  /\ (msPerDay <= now env - Wallet.lastResetDate wallet ->
      WalletService.currentFundingCount env wallet = 0
      /\ WalletService.currentDailyFundingSum env wallet = Some (inject_Z 0)
      /\ forall r w', WalletService.fundWallet env userId w = (Ok r, w') ->
           exists stored,
             wallet_findById (Wallet.id wallet) w' = Some stored
             /\ Wallet.fundingCount stored = 1
             /\ Wallet.dailyFundingSum stored = 10000 * unitsPerXlm
             /\ Wallet.lastResetDate stored = now env)
  /\ (now env - Wallet.lastResetDate wallet < msPerDay ->
      WalletService.currentFundingCount env wallet = Wallet.fundingCount wallet
      /\ WalletService.currentDailyFundingSum env wallet
         = parseFloat (Decimal_toString (Wallet.dailyFundingSum wallet)))
  /\ rateLimitMax defaultConfig = 3
  /\ dailyCapXlm defaultConfig = inject_Z 10000.
Proof.
  intros Hw.
  assert (Hfrozen : forall st, st <> FROZEN -> isFrozen st = false)
    by (intros [] Hst; first [reflexivity | congruence]).
  refine (conj _ (conj _ (conj _ (conj _ (conj _ (conj _ _)))))); try reflexivity.
  - intros Hst. unfold WalletService.fundWallet, bind.
    rewrite getWalletByUserId_spec, Hw, Hst. reflexivity.
  - intros Hst Hmax. unfold WalletService.fundWallet, bind.
    rewrite getWalletByUserId_spec, Hw, (Hfrozen _ Hst).
    apply Z.leb_le in Hmax. rewrite Hmax. eexists. split; reflexivity.
  - intros Hst Hmax Hcap. unfold WalletService.fundWallet, bind.
    rewrite getWalletByUserId_spec, Hw, (Hfrozen _ Hst).
    apply Z.leb_gt in Hmax. rewrite Hmax, Hcap. eexists. split; reflexivity.
  - intros Hday. apply reset_iff in Hday.
    unfold WalletService.currentFundingCount, WalletService.currentDailyFundingSum.
    rewrite Hday. split; [reflexivity | split; [reflexivity|]].
    intros r w' Hok.
    destruct (fundWallet_ok _ _ _ _ _ _ Hw Hok) as (stored & sum & Hs & Hsum & Hc & Hd & Hl).
    unfold WalletService.currentFundingCount, WalletService.currentDailyFundingSum in *.
    rewrite Hday in *. injection Hsum as <-.
    exists stored. repeat split; assumption.
  - intros Hday.
    assert (Hn : (1 <=? WalletService.daysDiff env wallet) = false).
    { destruct (1 <=? _) eqn:E; [|reflexivity]. apply reset_iff in E. lia. }
    unfold WalletService.currentFundingCount, WalletService.currentDailyFundingSum.
    rewrite Hn. split; reflexivity.
Qed.

(** A wallet funded three times at time 0: a fourth funding the same day
    is refused for the rate limit, a second funding the same day for the
    daily cap, any funding while the wallet is frozen; two days later the
    wallet is funded again and its counters start over. *)
Lemma fundWallet_limits_witness :
  WalletService.fundWallet (Sample.env 0) "u1"
    (Sample.stored ACTIVE FROZEN WALLET_ACTIVE CREATED)
  = (Throw (newWalletFrozenError "w1"), Sample.stored ACTIVE FROZEN WALLET_ACTIVE CREATED)
  /\ (exists e, WalletService.fundWallet (Sample.env 0) "u1" Sample.funded
                = (Throw e, Sample.funded)
                /\ cls e = RateLimitExceededError)
  /\ (exists e, WalletService.fundWallet (Sample.env 0) "u1" Sample.fundedOnce
                = (Throw e, Sample.fundedOnce)
                /\ cls e = LimitExceededError)
  /\ WalletService.fundWallet Sample.twoDaysLater "u1" Sample.funded
     = (Ok {| fundSuccess := true; fundBalance := "40.0000000";
              fundMessage := "Wallet funded successfully" |}, Sample.refunded)
  /\ exists stored,
      wallet_findById (Wallet.id Sample.fundedWallet) Sample.refunded = Some stored
      /\ Wallet.fundingCount stored = 1
      /\ Wallet.dailyFundingSum stored = 10000 * unitsPerXlm
      /\ Wallet.lastResetDate stored = now Sample.twoDaysLater.
Proof.
  assert (Hrun : WalletService.fundWallet Sample.twoDaysLater "u1" Sample.funded
                 = (Ok {| fundSuccess := true; fundBalance := "40.0000000";
                          fundMessage := "Wallet funded successfully" |},
                    Sample.refunded))
    by (vm_compute; reflexivity).
  destruct (fundWallet_limits (Sample.env 0) "u1"
              (Sample.stored ACTIVE FROZEN WALLET_ACTIVE CREATED)
              (Sample.wallet (G := xorGcm) "w1" "u1" "GALICE" "SALICE"
                             (50 * unitsPerXlm) FROZEN) eq_refl)
    as (Hfrozen & _).
  destruct (fundWallet_limits (Sample.env 0) "u1" Sample.funded Sample.fundedWallet eq_refl)
    as (_ & Hrate & _).
  destruct (fundWallet_limits (Sample.env 0) "u1" Sample.fundedOnce Sample.fundedOnceWallet
                              eq_refl)
    as (_ & _ & Hcap & _).
  destruct (fundWallet_limits Sample.twoDaysLater "u1" Sample.funded Sample.fundedWallet
                              eq_refl) as (_ & _ & _ & Hreset & _).
  destruct Hreset as (_ & _ & Hok); [vm_compute; discriminate|].
  split; [exact (Hfrozen eq_refl)|].
  split; [apply Hrate; [discriminate | vm_compute; discriminate]|].
  split; [apply Hcap; [discriminate | reflexivity | reflexivity]|].
  split; [exact Hrun | exact (Hok _ _ Hrun)].
Defined.
(** ** Status updates and the settlement worker *)

Lemma statusUpdate_id env st md o :
  Transaction.id (TransactionService.statusUpdate env st md o) = Transaction.id o.
Proof. reflexivity. Qed.

Lemma updateTransactionStatus_ok env id st md w t :
  transaction_findById id w = Some t ->
  hashTaken id (Transaction.stellarTxHash (TransactionService.statusUpdate env st md t)) w
  = false ->
  exists w',
    TransactionService.updateTransactionStatus env id st md w
    = (Ok (TransactionService.statusUpdate env st md t), w')
    /\ transaction_findById id w' = Some (TransactionService.statusUpdate env st md t)
    /\ users w' = users w /\ wallets w' = wallets w
    /\ jobs w' = jobs w /\ payments w' = payments w.
Proof.
  intros Hf Hh.
  unfold TransactionService.updateTransactionStatus, transaction_update.
  rewrite Hf, Hh. eexists. split; [reflexivity|]. split; [|repeat split].
  unfold transaction_findById in *. cbn [transactions setTransactions].
  apply (find_map_update Transaction.id); [reflexivity | exact Hf].
Qed.

Lemma processTransaction_terminal {G : AesGcm} env job w t :
  transaction_findById (transactionId job) w = Some t ->
  isTerminal (Transaction.status t) = true ->
  Worker.processTransaction env job w
  = (Ok {| resultStatus := Transaction.status t; resultHash := None;
           resultLedger := None; resultReason := None |}, w).
Proof.
  intros Hf Ht.
  unfold Worker.processTransaction, tryCatch, Worker.settle, bind, get, ret.
  rewrite Hf, Ht. reflexivity.
Qed.

(** C2 (as amended). [updateTransactionStatus(id, status, metadata)] is
    an unconditional write: it takes no set of allowed source states,
    and whenever the row exists and the settlement hash it is left with
    is not that of another row, the call succeeds and the row has the
    new status, whatever its status was before (terminal or not). What
    keeps the worker from re-processing a terminal transaction is its
    own check after loading the row: [processTransaction] on a
    transaction it finds SUCCESS or FAILED returns that status and
    writes nothing. *)
Theorem status_update_is_unconditional
        (G : AesGcm) (env : Env) (job : Job) (status : TransactionStatus)
        (md : StatusMetadata) (w : World) (t : Transaction.t) :
  transaction_findById (transactionId job) w = Some t ->
  hashTaken (transactionId job)
            (Transaction.stellarTxHash (TransactionService.statusUpdate env status md t)) w
  = false ->
  (exists t' w',
     TransactionService.updateTransactionStatus env (transactionId job) status md w
     = (Ok t', w')
     /\ transaction_findById (transactionId job) w' = Some t'
     /\ Transaction.status t' = status)
  /\ (isTerminal (Transaction.status t) = true ->
      Worker.processTransaction env job w
      = (Ok {| resultStatus := Transaction.status t; resultHash := None;
               resultLedger := None; resultReason := None |}, w)).
Proof.
  intros Hf Hh. split.
  - destruct (updateTransactionStatus_ok env _ status md w t Hf Hh) as (w' & Hu & Hf' & _).
    exists (TransactionService.statusUpdate env status md t), w'.
    repeat split; assumption.
  - intros Ht. apply processTransaction_terminal; assumption.
Qed.

(** On a payment stored as SUCCESS: a direct update to PENDING is
    applied, while the worker leaves the row alone. *)
Lemma status_update_is_unconditional_witness :
  (exists t' w',
     TransactionService.updateTransactionStatus (Sample.env 0) "tx_0" PENDING noMetadata
       (Sample.stored ACTIVE WALLET_ACTIVE WALLET_ACTIVE SUCCESS) = (Ok t', w')
     /\ transaction_findById "tx_0" w' = Some t'
     /\ Transaction.status t' = PENDING)
  /\ Worker.processTransaction (G := xorGcm) (Sample.env 0) Sample.job
       (Sample.stored ACTIVE WALLET_ACTIVE WALLET_ACTIVE SUCCESS)
     = (Ok {| resultStatus := SUCCESS;
              resultHash := None; resultLedger := None; resultReason := None |},
        Sample.stored ACTIVE WALLET_ACTIVE WALLET_ACTIVE SUCCESS).
Proof.
  destruct (status_update_is_unconditional
              xorGcm (Sample.env 0) Sample.job PENDING noMetadata
              (Sample.stored ACTIVE WALLET_ACTIVE WALLET_ACTIVE SUCCESS)
              (Sample.tx SUCCESS) eq_refl eq_refl) as [Hupdate Hworker].
  split; [exact Hupdate | exact (Hworker eq_refl)].
Defined.

(** C2 fails as stated: on a transaction stored as SUCCESS, the update to
    PENDING goes through and the stored status becomes PENDING. *)
Lemma status_update_is_unconditional_counterexample :
  transaction_findById "tx_0" (Sample.stored ACTIVE WALLET_ACTIVE WALLET_ACTIVE SUCCESS)
  = Some (Sample.tx SUCCESS)
  /\ exists w',
      TransactionService.updateTransactionStatus (Sample.env 0) "tx_0" PENDING noMetadata
        (Sample.stored ACTIVE WALLET_ACTIVE WALLET_ACTIVE SUCCESS)
      = (Ok (Sample.tx PENDING), w')
      /\ transaction_findById "tx_0" w' = Some (Sample.tx PENDING).
Proof.
  split; [reflexivity|]. eexists. split; vm_compute; reflexivity.
Qed.

(** ** The worker asks the gateway whatever the statuses are *)

Lemma keeps_ret {A : Type} (a : A) : keepsPayments (ret a).
Proof. intros w r w' H. injection H as _ <-. reflexivity. Qed.

Lemma keeps_throw {A : Type} (e : Exn) : keepsPayments (@throw A e).
Proof. intros w r w' H. injection H as _ <-. reflexivity. Qed.

Lemma keeps_bind {A B : Type} (m : M A) (k : A -> M B) :
  keepsPayments m -> (forall a, keepsPayments (k a)) -> keepsPayments (bind m k).
Proof.
  intros Hm Hk w r w' H. unfold bind in H.
  destruct (m w) as [[a|e] w1] eqn:E.
  - rewrite (Hk a _ _ _ H). apply (Hm _ _ _ E).
  - injection H as _ <-. apply (Hm _ _ _ E).
Qed.

Lemma keeps_tryCatch {A : Type} (m : M A) (h : Exn -> M A) :
  keepsPayments m -> (forall e, keepsPayments (h e)) -> keepsPayments (tryCatch m h).
Proof.
  intros Hm Hh w r w' H. unfold tryCatch in H.
  destruct (m w) as [[a|e] w1] eqn:E.
  - injection H as _ <-. apply (Hm _ _ _ E).
  - rewrite (Hh e _ _ _ H). apply (Hm _ _ _ E).
Qed.

Lemma keeps_transaction_update id data : keepsPayments (transaction_update id data).
Proof.
  intros w r w' H. unfold transaction_update in H. run_all; reflexivity.
Qed.

Lemma keeps_wallet_update id data : keepsPayments (wallet_update id data).
Proof.
  intros w r w' H. unfold wallet_update in H. run_all; reflexivity.
Qed.

Lemma keeps_getBalance env pk : keepsPayments (StellarService.getBalance env pk).
Proof.
  intros w r w' H. apply StellarService_getBalance_reads in H. now subst.
Qed.

Lemma keeps_syncBalance env id : keepsPayments (WalletService.syncBalance env id).
Proof.
  unfold WalletService.syncBalance.
  intros w r w' H. unfold bind at 1 in H. unfold get in H.
  destruct (wallet_findById id w); [|injection H as _ <-; reflexivity].
  revert w r w' H. apply keeps_bind; [apply keeps_getBalance|].
  intros balance. destruct (parseFloat balance); [|apply keeps_throw].
  apply keeps_bind; [apply keeps_wallet_update | intros; apply keeps_ret].
Qed.

Lemma keeps_updateTransactionStatus env id st md :
  keepsPayments (TransactionService.updateTransactionStatus env id st md).
Proof. apply keeps_transaction_update. Qed.

Lemma keeps_incrementRetryCount id :
  keepsPayments (TransactionService.incrementRetryCount id).
Proof.
  apply keeps_bind; [apply keeps_transaction_update | intros; apply keeps_ret].
Qed.

Lemma keeps_syncBalances {G : AesGcm} env a b :
  keepsPayments (Worker.syncBalances env a b).
Proof.
  intros w r w' H. unfold Worker.syncBalances in H.
  destruct (WalletService.syncBalance env a w) as [r1 w1] eqn:E1.
  destruct (WalletService.syncBalance env b w1) as [r2 w2] eqn:E2.
  apply keeps_syncBalance in E1, E2.
  destruct r1, r2; injection H as _ <-; congruence.
Qed.

Lemma sendPayment_pays env params w r w' :
  StellarService.sendPayment env params w = (r, w') ->
  w' = addPayment (StellarService.buildPayment params) w.
Proof.
  unfold StellarService.sendPayment, bind, get, modify, ret, throw.
  intros H. run_all; reflexivity.
Qed.

Section WorkerFacts.
Context {G : AesGcm}.
Variables (env : Env) (job : Job) (w : World).
Variables (t : Transaction.t) (senderWallet receiverWallet : Wallet.t) (secret : string).
Hypothesis Hfound : transaction_findById (transactionId job) w = Some t.
Hypothesis Hopen : isTerminal (Transaction.status t) = false.
Hypothesis Hhash : hashTaken (transactionId job) (Transaction.stellarTxHash t) w = false.
Hypothesis Hsender : wallet_findByUserId (Transaction.senderId t) w = Some senderWallet.
Hypothesis Hreceiver : wallet_findByUserId (Transaction.receiverId t) w = Some receiverWallet.
Hypothesis Hsecret : WalletService.getDecryptedSecretKey env senderWallet = Ok secret.

Lemma settle_pays (r : Outcome JobResult) (w' : World) :
  Worker.settle env (transactionId job) w = (r, w') ->
  payments w' = (payments w ++ [paymentFor job t secret receiverWallet])%list.
Proof.
  unfold Worker.settle. unfold bind at 1. unfold get.
  rewrite Hfound, Hopen. unfold bind at 1.
  destruct (updateTransactionStatus_ok env (transactionId job) PENDING noMetadata w t
              Hfound Hhash) as (wP & -> & _ & _ & _ & _ & HpP).
  rewrite Hsender, Hreceiver. unfold liftOutcome. unfold bind at 1.
  rewrite Hsecret. unfold bind at 1.
  destruct (StellarService.sendPayment env _ wP) as [[result|e] w1] eqn:Es;
    apply sendPayment_pays in Es; subst w1.
  - intros H.
    assert (Hk : payments w' = payments (addPayment
                   (paymentFor job t secret receiverWallet) wP)).
    { revert H. apply keeps_bind; [apply keeps_updateTransactionStatus|].
      intros _. apply keeps_bind; [apply keeps_syncBalances | intros; apply keeps_ret]. }
    rewrite Hk. cbn [payments addPayment]. rewrite HpP. reflexivity.
  - intros H. injection H as _ <-. cbn [payments addPayment]. rewrite HpP. reflexivity.
Qed.

(** Whatever the statuses of the sender and of the wallets: a job whose
    transaction is not terminal makes the worker ask the gateway for the
    payment, once. *)
Lemma worker_always_calls_gateway :
  payments (snd (Worker.processTransaction env job w))
  = (payments w ++ [paymentFor job t secret receiverWallet])%list.
Proof.
  unfold Worker.processTransaction, tryCatch.
  destruct (Worker.settle env (transactionId job) w) as [[r|e] w1] eqn:Es;
    pose proof (settle_pays _ _ Es) as Hp; [exact Hp|].
  rewrite <- Hp. cbv beta.
  match goal with
  | |- payments (snd (?m w1)) = _ => destruct (m w1) as [r' w'] eqn:Eh
  end.
  cbn [snd]. revert Eh. apply keeps_bind; [apply keeps_incrementRetryCount|].
  intros _. apply keeps_bind; [intros ? ? ? H; injection H as _ <-; reflexivity|].
  intros w2. destruct (transaction_findById _ w2); [|apply keeps_throw].
  destruct (_ <=? _); [|apply keeps_throw].
  apply keeps_bind; [apply keeps_updateTransactionStatus | intros; apply keeps_ret].
Qed.

(** With the row found open, both wallets present and the key
    decrypted, the worker comes down to: mark PENDING, submit and
    record, and on a failure run the [catch] block. *)
Lemma processTransaction_steps :
  Worker.processTransaction env job w
  = tryCatch (afterDecryption env (transactionId job) t senderWallet receiverWallet secret)
             (onFailure env (transactionId job))
             (snd (TransactionService.updateTransactionStatus
                     env (transactionId job) PENDING noMetadata w)).
Proof.
  unfold Worker.processTransaction, tryCatch, Worker.settle.
  unfold bind at 1. unfold get. rewrite Hfound, Hopen. unfold bind at 1.
  destruct (updateTransactionStatus_ok env (transactionId job) PENDING noMetadata w t
              Hfound Hhash) as (wP & -> & _).
  rewrite Hsender, Hreceiver. unfold liftOutcome. unfold bind at 1.
  rewrite Hsecret. reflexivity.
Qed.

End WorkerFacts.

(** On the sample data, under any cipher that meets its contract: the
    payment of a BLOCKED sender, or between FROZEN or CLOSED wallets, is
    handed to the gateway all the same. *)
Lemma sample_payment_is_submitted
      (G : AesGcm) (HG : AesGcmSpec G) (us : UserStatus) (ws wr : WalletStatus) :
  payments (snd (Worker.processTransaction
                   (Sample.env 0) Sample.job
                   (Sample.world (G := G) us ws wr 50 [Sample.tx CREATED])))
  = [Sample.payment].
Proof.
  apply (worker_always_calls_gateway
           (Sample.env 0) Sample.job
           (Sample.world (G := G) us ws wr 50 [Sample.tx CREATED])
           (Sample.tx CREATED)
           (Sample.wallet "w1" "u1" "GALICE" "SALICE" (50 * unitsPerXlm) ws)
           (Sample.wallet "w2" "u2" "GBOB" "SBOB" 0 wr) "SALICE");
    try reflexivity.
  apply (decryptSecretKey_encryptSecretKey HG). discriminate.
Qed.

(** ** The worker on the sample payment *)

Lemma deliver_S {G : AesGcm} env n job w :
  Worker.deliver env (S n) job w
  = match Worker.processTransaction env job w with
    | (Ok r, w') => (Ok r, w')
    | (Throw e, w') =>
        match n with
        | O => (Throw e, w')
        | S _ => Worker.deliver env n job w'
        end
    end.
Proof. reflexivity. Qed.

Section SampleRuns.
Context {G : AesGcm}.
Hypothesis HG : AesGcmSpec G.

Lemma sample_secret (bal : Decimal) (st : WalletStatus) (failures : nat) :
  WalletService.getDecryptedSecretKey
    (Sample.env failures) (Sample.wallet "w1" "u1" "GALICE" "SALICE" bal st)
  = Ok "SALICE".
Proof.
  apply (decryptSecretKey_encryptSecretKey HG). discriminate.
Qed.

(** First delivery on a ledger that rejects the payment: the error is
    thrown again for the queue to retry, with one retry counted. *)
Lemma first_failure (failures : nat) :
  (1 <= failures)%nat ->
  Worker.processTransaction (Sample.env failures) Sample.job
                            (Sample.during (Sample.tx CREATED) [])
  = (Throw (newStellarError "Payment failed: Request timed out"),
     Sample.during (Sample.retried PENDING 1 None None) [Sample.payment]).
Proof.
  intros Hf.
  rewrite (processTransaction_steps
             (Sample.env failures) Sample.job _ (Sample.tx CREATED)
             (Sample.wallet "w1" "u1" "GALICE" "SALICE" (50 * unitsPerXlm) WALLET_ACTIVE)
             (Sample.wallet "w2" "u2" "GBOB" "SBOB" 0 WALLET_ACTIVE) "SALICE");
    try reflexivity; [|apply sample_secret].
  destruct failures as [|n]; [lia|]. reflexivity.
Qed.

(** Second delivery on a ledger that still rejects the payment: the
    retry count reaches 2 = maxRetries - 1 and the worker writes FAILED. *)
Lemma second_failure (failures : nat) :
  (2 <= failures)%nat ->
  Worker.processTransaction (Sample.env failures) Sample.job
                            (Sample.during (Sample.retried PENDING 1 None None)
                                           [Sample.payment])
  = (Ok {| resultStatus := FAILED; resultHash := None; resultLedger := None;
           resultReason := Some "Payment failed: Request timed out" |},
     Sample.during
       (Sample.retried
          FAILED 2
          (Some "Max retries exceeded. Last error: Payment failed: Request timed out")
          (Some 1000))
       [Sample.payment; Sample.payment]).
Proof.
  intros Hf.
  rewrite (processTransaction_steps
             (Sample.env failures) Sample.job _ (Sample.retried PENDING 1 None None)
             (Sample.wallet "w1" "u1" "GALICE" "SALICE" (50 * unitsPerXlm) WALLET_ACTIVE)
             (Sample.wallet "w2" "u2" "GBOB" "SBOB" 0 WALLET_ACTIVE) "SALICE");
    try reflexivity; [|apply sample_secret].
  destruct failures as [|[|n]]; [lia | lia |]. reflexivity.
Qed.

End SampleRuns.

(** C1, evaluated on the code. The worker consults neither the sender's
    account status nor the wallets' statuses: whatever they are (sender
    BLOCKED, a wallet FROZEN or CLOSED), a CREATED payment is handed to
    the gateway and, the ledger accepting it, ends in SUCCESS; no failure
    reason is recorded. *)
Theorem worker_submits_whatever_the_statuses
        (G : AesGcm) (HG : AesGcmSpec G) (us : UserStatus) (ws wr : WalletStatus) :
  Worker.processTransaction (Sample.env 0) Sample.job
                            (Sample.world us ws wr 50 [Sample.tx CREATED])
  = (Ok {| resultStatus := SUCCESS; resultHash := Some "hash1";
           resultLedger := Some 42; resultReason := None |},
     Sample.paid us ws wr)
  /\ payments (Sample.paid us ws wr) = [Sample.payment]
  /\ transaction_findById "tx_0" (Sample.paid us ws wr) = Some Sample.settledTx
  /\ Transaction.status Sample.settledTx = SUCCESS
  /\ Transaction.failureReason Sample.settledTx = None.
Proof.
  split; [|repeat split].
  rewrite (processTransaction_steps
             (Sample.env 0) Sample.job _ (Sample.tx CREATED)
             (Sample.wallet "w1" "u1" "GALICE" "SALICE" (50 * unitsPerXlm) ws)
             (Sample.wallet "w2" "u2" "GBOB" "SBOB" 0 wr) "SALICE");
    [reflexivity | reflexivity .. | apply (sample_secret HG)].
Qed.

(** The sender is BLOCKED when the worker picks the job up. *)
Lemma worker_submits_whatever_the_statuses_witness :
  Worker.processTransaction (G := xorGcm) (Sample.env 0) Sample.job
    (Sample.stored BLOCKED WALLET_ACTIVE WALLET_ACTIVE CREATED)
  = (Ok {| resultStatus := SUCCESS; resultHash := Some "hash1";
           resultLedger := Some 42; resultReason := None |},
     Sample.paid (G := xorGcm) BLOCKED WALLET_ACTIVE WALLET_ACTIVE).
Proof.
  exact (proj1 (worker_submits_whatever_the_statuses
                  xorGcm xorGcm_spec BLOCKED WALLET_ACTIVE WALLET_ACTIVE)).
Defined.

(** C3, evaluated on the code with maxRetries = 3 and three attempts
    granted by the queue. The worker forces FAILED as soon as the retry
    count reaches maxRetries - 1: a gateway that fails twice and would
    accept the third submission is asked only twice, and the payment
    ends FAILED with retry count 2; so does a payment on a gateway that
    fails three times. The failure reason ends with the message of the
    last error. *)
Theorem worker_gives_up_after_two_failures (G : AesGcm) (HG : AesGcmSpec G) :
  maxRetries (config (Sample.env 2)) = 3
  /\ Worker.deliver (Sample.env 2) 3 Sample.job
       (Sample.world ACTIVE WALLET_ACTIVE WALLET_ACTIVE 50 [Sample.tx CREATED])
     = (Ok {| resultStatus := FAILED; resultHash := None; resultLedger := None;
              resultReason := Some "Payment failed: Request timed out" |},
        Sample.during
          (Sample.retried
             FAILED 2
             (Some "Max retries exceeded. Last error: Payment failed: Request timed out")
             (Some 1000))
          [Sample.payment; Sample.payment])
  /\ Worker.deliver (Sample.env 3) 3 Sample.job
       (Sample.world ACTIVE WALLET_ACTIVE WALLET_ACTIVE 50 [Sample.tx CREATED])
     = (Ok {| resultStatus := FAILED; resultHash := None; resultLedger := None;
              resultReason := Some "Payment failed: Request timed out" |},
        Sample.during
          (Sample.retried
             FAILED 2
             (Some "Max retries exceeded. Last error: Payment failed: Request timed out")
             (Some 1000))
          [Sample.payment; Sample.payment]).
Proof.
  split; [reflexivity|].
  change (Sample.world ACTIVE WALLET_ACTIVE WALLET_ACTIVE 50 [Sample.tx CREATED])
    with (Sample.during (Sample.tx CREATED) []).
  split.
  - rewrite deliver_S, (first_failure HG 2) by lia.
    rewrite deliver_S, (second_failure HG 2) by lia. reflexivity.
  - rewrite deliver_S, (first_failure HG 3) by lia.
    rewrite deliver_S, (second_failure HG 3) by lia. reflexivity.
Qed.

Lemma worker_gives_up_after_two_failures_witness :
  Worker.deliver (G := xorGcm) (Sample.env 2) 3 Sample.job
    (Sample.stored ACTIVE WALLET_ACTIVE WALLET_ACTIVE CREATED)
  = (Ok {| resultStatus := FAILED; resultHash := None; resultLedger := None;
           resultReason := Some "Payment failed: Request timed out" |},
     Sample.during (G := xorGcm)
       (Sample.retried
          FAILED 2
          (Some "Max retries exceeded. Last error: Payment failed: Request timed out")
          (Some 1000))
       [Sample.payment; Sample.payment]).
Proof.
  exact (proj1 (proj2 (worker_gives_up_after_two_failures xorGcm xorGcm_spec))).
Defined.

(* ===================================================================== *)
(** * Part III: further properties of the code *)
(* ===================================================================== *)

(** ** The memo of a payment *)

Lemma substring_prefix (n : nat) (s : string) :
  exists rest, s = substring 0 n s ++ rest.
Proof.
  revert n. induction s as [|c r IH]; intros [|n]; cbn.
  - exists "". reflexivity.
  - exists "". reflexivity.
  - exists (String c r). reflexivity.
  - destruct (IH n) as [rest Hrest]. exists rest. now rewrite <- Hrest.
Qed.

Lemma length_substring (n : nat) (s : string) :
  String.length (substring 0 n s) = Nat.min n (String.length s).
Proof.
  revert n. induction s as [|c r IH]; intros [|n]; cbn; try reflexivity.
  now rewrite IH.
Qed.

(** X1. The memo the gateway attaches to a payment is never longer than
    the 28 characters the ledger allows: it is the memo asked for when
    that fits, and its first 28 characters otherwise; an absent or empty
    memo attaches none. *)
Theorem memo_is_cut_to_28_characters (params : PaymentParams) :
  (forall t, memoText (StellarService.buildPayment params) = Some t ->
     (String.length t <= 28)%nat
     /\ exists m rest,
          memo params = Some m /\ m = t ++ rest /\ m <> ""
          /\ String.length t = Nat.min 28 (String.length m))
  /\ (memoText (StellarService.buildPayment params) = None
      <-> memo params = None \/ memo params = Some "").
Proof.
  unfold StellarService.buildPayment. cbn [memoText].
  destruct (memo params) as [m|].
  2:{ split; [discriminate|]. split; auto. }
  destruct (truthy (Some m)) eqn:Hm.
  - apply truthy_Some in Hm. split.
    + intros t Ht.
      assert (Ht' : (if (28 <? String.length m)%nat then substring 0 28 m else m) = t)
        by congruence.
      clear Ht. subst t.
      destruct (28 <? String.length m)%nat eqn:Hlen.
      * apply Nat.ltb_lt in Hlen. rewrite length_substring. split; [lia|].
        destruct (substring_prefix 28 m) as [rest Hrest].
        exists m, rest. repeat split; auto.
      * apply Nat.ltb_ge in Hlen. split; [exact Hlen|].
        exists m, "". repeat split; auto.
        -- clear. induction m as [|d r IH]; cbn; congruence.
        -- lia.
    + split; [discriminate|]. intros [H|H]; [discriminate|]. congruence.
  - destruct m; [|discriminate Hm]. split; [discriminate|]. split; auto.
Qed.

(** ** The stored form of a secret *)

Lemma length_byteToHex (b : ascii) : String.length (byteToHex b) = 2%nat.
Proof. reflexivity. Qed.

Lemma length_append (s1 s2 : string) :
  String.length (s1 ++ s2) = (String.length s1 + String.length s2)%nat.
Proof.
  induction s1 as [|c r IH]; cbn; [reflexivity|]. now rewrite IH.
Qed.

Lemma length_toHex (bs : bytes) : String.length (toHex bs) = (2 * length bs)%nat.
Proof.
  induction bs as [|b r IH]; [reflexivity|].
  cbn [toHex length]. rewrite length_append, length_byteToHex, IH. lia.
Qed.

(** X2. Under a cipher that meets its contract, [decrypt] undoes
    [encrypt] for every plaintext, the empty one included, and the parts
    of the result have fixed sizes: two hex digits per byte of the
    plaintext, of the initialisation vector and of the 16-byte tag. *)
Theorem decrypt_undoes_encrypt
        (G : AesGcm) (HG : AesGcmSpec G) (KEY rnd : bytes) (s : string) :
  decrypt KEY (encrypt KEY rnd s) = Ok s
  /\ String.length (encrypted (encrypt KEY rnd s)) = (2 * String.length s)%nat
  /\ String.length (iv (encrypt KEY rnd s)) = (2 * length rnd)%nat
  /\ String.length (authTag (encrypt KEY rnd s)) = 32%nat.
Proof.
  split; [apply decrypt_encrypt; exact HG|].
  unfold encrypt. cbn [encrypted iv authTag].
  rewrite !length_toHex, (gcm_length G HG), (gcm_tag_length G HG), length_utf8Encode.
  repeat split.
Qed.

Lemma decrypt_undoes_encrypt_witness :
  decrypt (G := xorGcm) Sample.key (encrypt (G := xorGcm) Sample.key Sample.rnd "") = Ok ""
  /\ String.length (encrypted (encrypt (G := xorGcm) Sample.key Sample.rnd ""))
     = (2 * String.length "")%nat
  /\ String.length (iv (encrypt (G := xorGcm) Sample.key Sample.rnd ""))
     = (2 * length Sample.rnd)%nat
  /\ String.length (authTag (encrypt (G := xorGcm) Sample.key Sample.rnd "")) = 32%nat.
Proof.
  exact (decrypt_undoes_encrypt xorGcm xorGcm_spec Sample.key Sample.rnd "").
Defined.

(** X3. A stored secret that does not have the form ciphertext, colon,
    tag is refused before the cipher is asked: a string without a colon,
    one that starts with the colon, and one that ends with its only
    colon are all answered with the format error, under every cipher and
    key. *)
Theorem malformed_secret_is_refused
        (G : AesGcm) (KEY : bytes) (stored ivHex : string) :
  let refused := Throw (newError "Invalid encrypted secret key format") in
  (hasChar ":" stored = false -> decryptSecretKey KEY stored ivHex = refused)
  /\ decryptSecretKey KEY (":" ++ stored) ivHex = refused
  /\ (hasChar ":" stored = false -> decryptSecretKey KEY (stored ++ ":") ivHex = refused).
Proof.
  cbv zeta. unfold decryptSecretKey. split; [|split].
  - intros H. rewrite (split_absent _ _ H). cbn [nth_error truthy].
    now rewrite orb_true_r.
  - reflexivity.
  - intros H. change (stored ++ ":") with (stored ++ String ":" "").
    rewrite (split_app_sep _ _ _ H). cbn [split nth_error truthy negb].
    now rewrite orb_true_r.
Qed.

Lemma malformed_secret_is_refused_witness :
  decryptSecretKey (G := xorGcm) Sample.key "abcdef" "00"
  = Throw (newError "Invalid encrypted secret key format")
  /\ decryptSecretKey (G := xorGcm) Sample.key (":" ++ "abcdef") "00"
     = Throw (newError "Invalid encrypted secret key format")
  /\ decryptSecretKey (G := xorGcm) Sample.key ("abcdef" ++ ":") "00"
     = Throw (newError "Invalid encrypted secret key format").
Proof.
  pose proof (malformed_secret_is_refused xorGcm Sample.key "abcdef" "00") as H.
  cbv zeta in H. destruct H as [H1 [H2 H3]].
  split; [apply H1; reflexivity|]. split; [exact H2|apply H3; reflexivity].
Defined.

(** ** What the ledger gateway throws *)

(** X4. The gateway never writes to the database and throws nothing but
    [StellarError]: [getBalance] and [fundWithFriendbot] leave the state
    as it is, [sendPayment] adds the payment it built to those asked of
    the network and changes nothing else. Funding succeeds exactly on
    the test network when the faucet answers OK, and its failure carries
    one of two fixed messages; a failed payment's message starts with
    "Payment failed: ". *)
Theorem gateway_throws_only_StellarError (env : Env) (w : World) :
  (forall pk r w', StellarService.getBalance env pk w = (r, w') ->
     w' = w /\ forall e, r = Throw e -> cls e = StellarError)
  /\ (forall pk r w', StellarService.fundWithFriendbot env pk w = (r, w') ->
        w' = w
        /\ (r = Ok tt <->
            stellarNetwork (config env) = "testnet"
            /\ friendbot (horizon env) (length (payments w)) pk = FetchOk)
        /\ forall e, r = Throw e ->
             cls e = StellarError
             /\ (message e = "Friendbot only available on testnet"
                 \/ message e = "Failed to fund account with Friendbot"))
  /\ (forall params r w', StellarService.sendPayment env params w = (r, w') ->
        w' = addPayment (StellarService.buildPayment params) w
        /\ forall e, r = Throw e ->
             cls e = StellarError
             /\ exists detail, message e = "Payment failed: " ++ detail).
Proof.
  split; [|split].
  - intros pk r w' H. split; [eapply StellarService_getBalance_reads; eauto|].
    intros e ->. unfold StellarService.getBalance, bind, get, ret, throw in H.
    run_all; reflexivity.
  - intros pk r w' H.
    unfold StellarService.fundWithFriendbot, tryCatch, bind, get, ret, throw in H.
    destruct (String.eqb (stellarNetwork (config env)) "testnet") eqn:Hnet;
      cbn [negb] in H.
    + apply String.eqb_eq in Hnet.
      destruct (friendbot (horizon env) (length (payments w)) pk) eqn:Hf;
        inversion H; subst; clear H.
      * split; [reflexivity|]. split; [tauto|]. discriminate.
      * split; [reflexivity|]. split.
        -- split; [discriminate|]. intros [_ X]. discriminate X.
        -- intros e [= <-]. cbn. auto.
      * split; [reflexivity|]. split.
        -- split; [discriminate|]. intros [_ X]. discriminate X.
        -- intros e [= <-]. cbn. auto.
    + apply String.eqb_neq in Hnet. inversion H; subst; clear H.
      split; [reflexivity|]. split.
      * split; [discriminate|]. intros [X _]. contradiction.
      * intros e [= <-]. cbn. auto.
  - intros params r w' H.
    unfold StellarService.sendPayment, bind, get, modify, ret, throw in H.
    destruct (submitTransaction (horizon env) (length (payments w))
                (StellarService.buildPayment params)) eqn:Hs;
      inversion H; subst; clear H.
    + split; [reflexivity|]. discriminate.
    + split; [reflexivity|]. intros x [= <-]. split; [reflexivity|].
      eexists. reflexivity.
Qed.

Lemma gateway_throws_only_StellarError_witness :
  StellarService.sendPayment Sample.downEnv
    {| fromSecretKey := "SALICE"; toPublicKey := "GBOB"; amount := "10";
       memo := Some "tx_0" |} Sample.fresh
  = (Throw (newStellarError "Payment failed: Service Unavailable"),
     addPayment Sample.payment Sample.fresh)
  /\ cls (newStellarError "Payment failed: Service Unavailable") = StellarError.
Proof.
  pose proof (gateway_throws_only_StellarError Sample.downEnv Sample.fresh) as [_ [_ H]].
  specialize (H {| fromSecretKey := "SALICE"; toPublicKey := "GBOB"; amount := "10";
                   memo := Some "tx_0" |}
                (Throw (newStellarError "Payment failed: Service Unavailable"))
                (addPayment Sample.payment Sample.fresh) eq_refl).
  destruct H as [_ H]. split; [reflexivity|].
  exact (proj1 (H _ eq_refl)).
Defined.

(** ** Funding and balance synchronisation *)

Lemma fundWithFriendbot_reads env pk w r w' :
  StellarService.fundWithFriendbot env pk w = (r, w') -> w' = w.
Proof.
  unfold StellarService.fundWithFriendbot, tryCatch, bind, get, ret, throw.
  intros H. run_all; reflexivity.
Qed.

Lemma friendbot_ran_on_testnet env w pk w' :
  StellarService.fundWithFriendbot env pk w = (Ok tt, w') ->
  stellarNetwork (config env) = "testnet".
Proof.
  unfold StellarService.fundWithFriendbot, throw.
  destruct (String.eqb (stellarNetwork (config env)) "testnet") eqn:Hnet;
    cbn [negb]; [|discriminate].
  intros _. now apply String.eqb_eq.
Qed.

(** X5. A funding request that fails has written nothing, and fails with
    one of five errors: [NotFoundError] exactly when the user has no
    wallet, the three limit errors, or [InternalServerError] with the
    message "Failed to fund wallet" for whatever went wrong while the
    faucet, the ledger or the database was asked. *)
Theorem fundWallet_failure_writes_nothing
        (env : Env) (userId : string) (w w' : World) (e : Exn) :
  WalletService.fundWallet env userId w = (Throw e, w') ->
  w' = w
  /\ In (cls e) [NotFoundError; WalletFrozenError; RateLimitExceededError;
                 LimitExceededError; InternalServerError]
  /\ (cls e = NotFoundError <-> wallet_findByUserId userId w = None)
  /\ (cls e = InternalServerError -> message e = "Failed to fund wallet").
Proof.
  unfold WalletService.fundWallet, bind.
  rewrite getWalletByUserId_spec.
  destruct (wallet_findByUserId userId w) as [wallet|] eqn:Hw.
  2:{ intros [= <- <-]. cbn. repeat split; auto; discriminate. }
  assert (Hnf : forall c, c <> NotFoundError ->
                  (c = NotFoundError <-> Some wallet = None))
    by (intros c Hc; split; [contradiction | discriminate]).
  destruct (isFrozen (Wallet.status wallet)).
  { intros [= <- <-]. cbn. repeat split; auto.
    1,2: apply Hnf; discriminate. discriminate. }
  destruct (rateLimitMax (config env) <=? _).
  { intros [= <- <-]. cbn. repeat split; auto 6.
    1,2: apply Hnf; discriminate. discriminate. }
  destruct (numGt _ _).
  { intros [= <- <-]. cbn. repeat split; auto 6.
    1,2: apply Hnf; discriminate. discriminate. }
  unfold tryCatch, bind, ret, throw.
  destruct (StellarService.fundWithFriendbot env _ w) as [[[]|x] w1] eqn:Hf;
    pose proof (fundWithFriendbot_reads _ _ _ _ _ Hf) as ->.
  2:{ intros [= <- <-]. cbn. repeat split; auto 8.
      1,2: apply Hnf; discriminate. }
  destruct (StellarService.getBalance env _ w) as [[live|x] w2] eqn:Hg;
    pose proof (StellarService_getBalance_reads _ _ _ _ _ Hg) as ->.
  2:{ intros [= <- <-]. cbn. repeat split; auto 8.
      1,2: apply Hnf; discriminate. }
  destruct (parseFloat live) as [b|].
  2:{ intros [= <- <-]. cbn. repeat split; auto 8. 1,2: apply Hnf; discriminate. }
  destruct (numAdd _ _) as [s|].
  2:{ intros [= <- <-]. cbn. repeat split; auto 8. 1,2: apply Hnf; discriminate. }
  unfold wallet_update.
  destruct (wallet_findById (Wallet.id wallet) w) as [o|]; [discriminate|].
  intros [= <- <-]. cbn. repeat split; auto 8. 1,2: apply Hnf; discriminate.
Qed.

Lemma fundWallet_failure_writes_nothing_witness :
  WalletService.fundWallet Sample.downEnv "u1" Sample.fresh
  = (Throw (newInternalServerError
              "Failed to fund wallet"
              [("error", "Failed to fund account with Friendbot")]), Sample.fresh)
  /\ Sample.fresh = Sample.fresh
  /\ In InternalServerError
        [NotFoundError; WalletFrozenError; RateLimitExceededError;
         LimitExceededError; InternalServerError]
  /\ (InternalServerError = NotFoundError
      <-> wallet_findByUserId "u1" Sample.fresh = None)
  /\ (InternalServerError = InternalServerError ->
      "Failed to fund wallet" = "Failed to fund wallet").
Proof.
  assert (H : WalletService.fundWallet Sample.downEnv "u1" Sample.fresh
              = (Throw (newInternalServerError
                          "Failed to fund wallet"
                          [("error", "Failed to fund account with Friendbot")]),
                 Sample.fresh)) by reflexivity.
  split; [exact H|].
  exact (fundWallet_failure_writes_nothing _ _ _ _ _ H).
Defined.

Lemma Forall2_map_same {A : Type} (R : A -> A -> Prop) (f : A -> A) (l : list A) :
  (forall x, R x (f x)) -> Forall2 R l (map f l).
Proof.
  intros H. induction l as [|x r IH]; cbn; constructor; auto.
Qed.

Lemma fundWallet_ok_rows (env : Env) (userId : string) (w w' : World) (r : FundResult) :
  WalletService.fundWallet env userId w = (Ok r, w') ->
  exists wallet b s,
    wallet_findByUserId userId w = Some wallet
    /\ Wallet.status wallet <> FROZEN
    /\ stellarNetwork (config env) = "testnet"
    /\ StellarService.getBalance env (Wallet.stellarPublicKey wallet) w
       = (Ok (fundBalance r), w)
    /\ parseFloat (fundBalance r) = Some b
    /\ fundSuccess r = true
    /\ numAdd (WalletService.currentDailyFundingSum env wallet)
              (Some WalletService.friendbotAmount) = Some s
    /\ Forall2 (fun o o' =>
                  custodyKeys o' = custodyKeys o
                  /\ (Wallet.id o <> Wallet.id wallet -> o' = o)
                  /\ (Wallet.id o = Wallet.id wallet ->
                      Wallet.balance o' = toDecimal b
                      /\ Wallet.lastFundedAt o' = Some (now env)
                      /\ Wallet.fundingCount o'
                         = WalletService.currentFundingCount env wallet + 1
                      /\ Wallet.dailyFundingSum o' = toDecimal s
                      /\ Wallet.lastResetDate o'
                         = (if 1 <=? WalletService.daysDiff env wallet then now env
                            else Wallet.lastResetDate wallet)))
               (wallets w) (wallets w')
    /\ users w' = users w /\ transactions w' = transactions w
    /\ jobs w' = jobs w /\ payments w' = payments w.
Proof.
  unfold WalletService.fundWallet, bind.
  rewrite getWalletByUserId_spec.
  destruct (wallet_findByUserId userId w) as [wallet|] eqn:Hw; [|discriminate].
  destruct (isFrozen (Wallet.status wallet)) eqn:Hfrozen; [discriminate|].
  destruct (rateLimitMax (config env) <=? _); [discriminate|].
  destruct (numGt _ _); [discriminate|].
  unfold tryCatch, bind, ret, throw.
  destruct (StellarService.fundWithFriendbot env _ w) as [[[]|x] w1] eqn:Hf;
    pose proof (fundWithFriendbot_reads _ _ _ _ _ Hf) as ->; [|discriminate].
  destruct (StellarService.getBalance env _ w) as [[live|x] w2] eqn:Hg;
    pose proof (StellarService_getBalance_reads _ _ _ _ _ Hg) as ->; [|discriminate].
  destruct (parseFloat live) as [b|] eqn:Hb; [|discriminate].
  destruct (numAdd _ _) as [s|] eqn:Hs; [|discriminate].
  unfold wallet_update.
  destruct (wallet_findById (Wallet.id wallet) w) as [o|]; [|discriminate].
  intros [= <- <-]. exists wallet, b, s. cbn [fundBalance fundSuccess].
  split; [reflexivity|]. split; [intros X; rewrite X in Hfrozen; discriminate|].
  split.
  { exact (friendbot_ran_on_testnet _ _ _ _ Hf). }
  split; [exact Hg|]. split; [exact Hb|]. split; [reflexivity|].
  split; [exact Hs|].
  split; [|repeat split].
  cbn [wallets setWallets]. apply Forall2_map_same. intros x.
  destruct (String.eqb (Wallet.id x) (Wallet.id wallet)) eqn:Hx.
  - apply String.eqb_eq in Hx. repeat split; auto. contradiction.
  - apply String.eqb_neq in Hx. repeat split; auto; contradiction.
Qed.

(** X6. A funding request that succeeds ran on the test network for a
    wallet that is not frozen; the balance it answers with is the one
    the ledger reports, and that balance, rounded to 7 digits, is what
    the wallet row now caches, stamped with the time of the request.
    Every wallet keeps its keys, encrypted secret and status; wallets
    with another id, and all users, transactions, jobs and payments, are
    as before. *)
Theorem fundWallet_success_caches_the_ledger_balance
        (env : Env) (userId : string) (w w' : World) (r : FundResult) :
  WalletService.fundWallet env userId w = (Ok r, w') ->
  exists wallet b,
    wallet_findByUserId userId w = Some wallet
    /\ Wallet.status wallet <> FROZEN
    /\ stellarNetwork (config env) = "testnet"
    /\ StellarService.getBalance env (Wallet.stellarPublicKey wallet) w
       = (Ok (fundBalance r), w)
    /\ parseFloat (fundBalance r) = Some b
    /\ fundSuccess r = true
    /\ Forall2 (fun o o' =>
                  custodyKeys o' = custodyKeys o
                  /\ (Wallet.id o <> Wallet.id wallet -> o' = o)
                  /\ (Wallet.id o = Wallet.id wallet ->
                      Wallet.balance o' = toDecimal b
                      /\ Wallet.lastFundedAt o' = Some (now env)))
               (wallets w) (wallets w')
    /\ users w' = users w /\ transactions w' = transactions w
    /\ jobs w' = jobs w /\ payments w' = payments w.
Proof.
  intros H.
  destruct (fundWallet_ok_rows _ _ _ _ _ H)
    as (wallet & b & s & H1 & H2 & H3 & H4 & H5 & H6 & _ & Hrows & Hrest).
  exists wallet, b. do 6 (split; [assumption|]). split; [|exact Hrest].
  revert Hrows. apply Forall2_impl.
  intros o o' (Hk & Hother & Hsame). split; [exact Hk|]. split; [exact Hother|].
  intros Hid. destruct (Hsame Hid) as (Hb & Ht & _). now split.
Qed.

Lemma fundWallet_success_caches_the_ledger_balance_witness :
  WalletService.fundWallet Sample.twoDaysLater "u1" Sample.funded
  = (Ok {| fundSuccess := true; fundBalance := "40.0000000";
           fundMessage := "Wallet funded successfully" |}, Sample.refunded)
  /\ exists stored,
       wallets Sample.refunded = [stored]
       /\ Wallet.balance stored = 40 * unitsPerXlm
       /\ Wallet.lastFundedAt stored = Some (2 * msPerDay)
       /\ custodyKeys stored = custodyKeys Sample.fundedWallet.
Proof.
  assert (H : WalletService.fundWallet Sample.twoDaysLater "u1" Sample.funded
              = (Ok {| fundSuccess := true; fundBalance := "40.0000000";
                       fundMessage := "Wallet funded successfully" |},
                 Sample.refunded)) by reflexivity.
  split; [exact H|].
  destruct (fundWallet_success_caches_the_ledger_balance _ _ _ _ _ H)
    as (wallet & b & Hw & _ & _ & _ & Hb & _ & Hall & _).
  injection Hw as <-. injection Hb as <-.
  change (wallets Sample.funded) with [Sample.fundedWallet] in Hall.
  destruct (wallets Sample.refunded) as [|stored [|extra rest]];
    [inversion Hall| |inversion Hall as [|? ? ? ? ? Hrest]; inversion Hrest].
  exists stored. split; [reflexivity|].
  assert (Hone : custodyKeys stored = custodyKeys Sample.fundedWallet
                 /\ (Wallet.id Sample.fundedWallet = Wallet.id Sample.fundedWallet ->
                     Wallet.balance stored = toDecimal (inject_Z 40 + 0)
                     /\ Wallet.lastFundedAt stored = Some (now Sample.twoDaysLater))).
  { inversion Hall as [|? ? ? ? [Hkeys [_ Hsame]]]. split; [exact Hkeys|exact Hsame]. }
  destruct Hone as [Hkeys Hsame]. destruct (Hsame eq_refl) as [Hbal Hat].
  split; [exact Hbal|]. split; [exact Hat|exact Hkeys].
Defined.

(** The gateway's answer about a balance depends on the state only
    through the number of payments asked for so far. *)
Lemma getBalance_same_payments env pk w1 w2 :
  payments w1 = payments w2 ->
  fst (StellarService.getBalance env pk w1) = fst (StellarService.getBalance env pk w2).
Proof.
  intros H. unfold StellarService.getBalance, bind, get, ret, throw. rewrite H.
  destruct (loadAccount _ _ _) as [bs|x].
  - destruct (find isNative bs) as [nb|]; [|reflexivity].
    destruct (truthy _); reflexivity.
  - destruct (statusIs _ _); reflexivity.
Qed.

Lemma getBalance_total env pk w :
  StellarService.getBalance env pk w = (fst (StellarService.getBalance env pk w), w).
Proof.
  destruct (StellarService.getBalance env pk w) as [r w'] eqn:H.
  now rewrite (StellarService_getBalance_reads _ _ _ _ _ H).
Qed.

Lemma gateway_cls env w pk :
  forall e w', StellarService.getBalance env pk w = (Throw e, w') -> cls e = StellarError.
Proof.
  intros e w' H. unfold StellarService.getBalance, bind, get, ret, throw in H.
  run_all; reflexivity.
Qed.

(** X7. Synchronising a wallet's balance either fails and writes
    nothing ([NotFoundError] exactly when no wallet has the id, else the
    gateway's [StellarError] or a rejected value), or caches the
    ledger's balance, rounded to 7 digits, in the wallet row and answers
    with the ledger's own string. Nothing else changes: every wallet
    keeps all its other columns, wallets with another id and all other
    tables are as before. Synchronising again gives the same answer and
    the same state. *)
Theorem syncBalance_caches_the_ledger_balance
        (env : Env) (walletId : string) (w : World) :
  (forall e w',
     WalletService.syncBalance env walletId w = (Throw e, w') ->
     w' = w
     /\ (cls e = NotFoundError <-> wallet_findById walletId w = None)
     /\ In (cls e) [NotFoundError; StellarError; PrismaError])
  /\ (forall live w',
        WalletService.syncBalance env walletId w = (Ok live, w') ->
        exists wallet b,
          wallet_findById walletId w = Some wallet
          /\ StellarService.getBalance env (Wallet.stellarPublicKey wallet) w
             = (Ok live, w)
          /\ parseFloat live = Some b
          /\ wallet_findById walletId w'
             = Some (WalletService.setBalance (toDecimal b) wallet)
          /\ Forall2 (fun o o' =>
                        custodyColumns o' = custodyColumns o
                        /\ (Wallet.id o <> walletId -> o' = o))
                     (wallets w) (wallets w')
          /\ users w' = users w /\ transactions w' = transactions w
          /\ jobs w' = jobs w /\ payments w' = payments w
          /\ WalletService.syncBalance env walletId w' = (Ok live, w')).
Proof.
  unfold WalletService.syncBalance at 1 2. unfold bind, get, ret, throw.
  destruct (wallet_findById walletId w) as [wallet|] eqn:Hw.
  2:{ split; [|discriminate]. intros e w' [= <- <-]. cbn. tauto. }
  assert (Hnf : forall c, c <> NotFoundError ->
                  (c = NotFoundError <-> Some wallet = None))
    by (intros c Hc; split; [contradiction | discriminate]).
  rewrite getBalance_total.
  destruct (fst (StellarService.getBalance env (Wallet.stellarPublicKey wallet) w))
    as [live|x] eqn:Hg.
  2:{ split; [|discriminate]. intros e w' [= <- <-].
      split; [reflexivity|].
      pose proof (gateway_cls env w (Wallet.stellarPublicKey wallet)) as Hc.
      rewrite getBalance_total, Hg in Hc. specialize (Hc _ _ eq_refl).
      rewrite Hc. split; [apply Hnf; discriminate|cbn; auto]. }
  destruct (parseFloat live) as [b|] eqn:Hb.
  2:{ split; [|discriminate]. intros e w' [= <- <-]. cbn.
      split; [reflexivity|]. split; [apply Hnf; discriminate|auto]. }
  unfold wallet_update. rewrite Hw.
  split; [discriminate|].
  intros live' w' [= <- <-]. exists wallet, b.
  split; [reflexivity|].
  split; [rewrite getBalance_total, Hg; reflexivity|]. split; [exact Hb|].
  assert (Hfound : wallet_findById walletId
                     (setWallets
                        (map (fun o => if String.eqb (Wallet.id o) walletId
                                       then WalletService.setBalance (toDecimal b) o
                                       else o) (wallets w)) w)
                   = Some (WalletService.setBalance (toDecimal b) wallet)).
  { unfold wallet_findById in *. cbn [wallets setWallets].
    apply (find_map_update Wallet.id); [reflexivity|exact Hw]. }
  split; [exact Hfound|].
  split.
  { cbn [wallets setWallets]. apply Forall2_map_same. intros x.
    destruct (String.eqb (Wallet.id x) walletId) eqn:Hx.
    - apply String.eqb_eq in Hx. split; [reflexivity|]. contradiction.
    - split; reflexivity. }
  do 4 (split; [reflexivity|]).
  unfold WalletService.syncBalance, bind, get, ret, throw.
  rewrite Hfound. cbn [WalletService.setBalance Wallet.stellarPublicKey].
  rewrite getBalance_total.
  rewrite (getBalance_same_payments env _ _ w) by reflexivity.
  rewrite Hg, Hb. unfold wallet_update. rewrite Hfound.
  f_equal. unfold setWallets. cbn [users wallets transactions jobs payments nextId].
  f_equal. rewrite map_map. apply map_ext. intros x.
  destruct (String.eqb (Wallet.id x) walletId) eqn:Hx.
  - cbn [WalletService.setBalance Wallet.id]. rewrite Hx. reflexivity.
  - rewrite Hx. reflexivity.
Qed.

Lemma syncBalance_caches_the_ledger_balance_witness :
  let w' := snd (WalletService.syncBalance (Sample.env 0) "w1" Sample.fresh) in
  WalletService.syncBalance (Sample.env 0) "w1" Sample.fresh = (Ok "40.0000000", w')
  /\ WalletService.syncBalance (Sample.env 0) "w1" w' = (Ok "40.0000000", w')
  /\ payments w' = payments Sample.fresh.
Proof.
  cbv zeta.
  assert (H : WalletService.syncBalance (Sample.env 0) "w1" Sample.fresh
              = (Ok "40.0000000",
                 snd (WalletService.syncBalance (Sample.env 0) "w1" Sample.fresh)))
    by reflexivity.
  split; [exact H|].
  destruct (proj2 (syncBalance_caches_the_ledger_balance (Sample.env 0) "w1" Sample.fresh)
                  _ _ H)
    as (wallet & b & _ & _ & _ & _ & _ & _ & _ & _ & Hp & Hagain).
  split; [exact Hagain|exact Hp].
Defined.

(** ** What one run of the settlement worker may change *)

Lemma respects_ret {A : Type} (R : World -> World -> Prop) (a : A) :
  (forall w, R w w) -> respects R (ret a).
Proof. intros HR w r w' [= _ <-]. apply HR. Qed.

Lemma respects_throw {A : Type} (R : World -> World -> Prop) (e : Exn) :
  (forall w, R w w) -> respects R (@throw A e).
Proof. intros HR w r w' [= _ <-]. apply HR. Qed.

Lemma respects_bind {A B : Type} (R1 R2 R3 : World -> World -> Prop)
      (m : M A) (k : A -> M B) :
  (forall w1 w2 w3, R1 w1 w2 -> R2 w2 w3 -> R3 w1 w3) ->
  (forall w1 w2, R1 w1 w2 -> R3 w1 w2) ->
  respects R1 m -> (forall a, respects R2 (k a)) -> respects R3 (bind m k).
Proof.
  intros Hcomp Hweak Hm Hk w r w' H. unfold bind in H.
  destruct (m w) as [[a|e] w1] eqn:E.
  - eapply Hcomp; [apply (Hm _ _ _ E)|apply (Hk _ _ _ _ H)].
  - injection H as _ <-. apply Hweak, (Hm _ _ _ E).
Qed.

Lemma respects_tryCatch {A : Type} (R1 R2 R3 : World -> World -> Prop)
      (m : M A) (h : Exn -> M A) :
  (forall w1 w2 w3, R1 w1 w2 -> R2 w2 w3 -> R3 w1 w3) ->
  (forall w1 w2, R1 w1 w2 -> R3 w1 w2) ->
  respects R1 m -> (forall e, respects R2 (h e)) -> respects R3 (tryCatch m h).
Proof.
  intros Hcomp Hweak Hm Hh w r w' H. unfold tryCatch in H.
  destruct (m w) as [[a|e] w1] eqn:E.
  - injection H as _ <-. apply Hweak, (Hm _ _ _ E).
  - eapply Hcomp; [apply (Hm _ _ _ E)|apply (Hh _ _ _ _ H)].
Qed.

Lemma asksFor_refl (n : nat) (w : World) : asksFor n w w.
Proof. exists []. split; [now rewrite app_nil_r|cbn; lia]. Qed.

Lemma asksFor_trans (a b : nat) (w1 w2 w3 : World) :
  asksFor a w1 w2 -> asksFor b w2 w3 -> asksFor (a + b) w1 w3.
Proof.
  intros [p1 [H1 L1]] [p2 [H2 L2]]. exists (p1 ++ p2)%list.
  rewrite H2, H1, app_assoc, length_app. split; [reflexivity|lia].
Qed.

Lemma asksFor_le (a b : nat) (w1 w2 : World) :
  (a <= b)%nat -> asksFor a w1 w2 -> asksFor b w1 w2.
Proof. intros Hab [p [H L]]. exists p. split; [exact H|lia]. Qed.

Lemma asks_keeps {A : Type} (m : M A) : keepsPayments m -> respects (asksFor 0) m.
Proof.
  intros Hm w r w' H. exists []. rewrite (Hm _ _ _ H), app_nil_r. split; [reflexivity|cbn; lia].
Qed.

Lemma asks_sendPayment env params :
  respects (asksFor 1) (StellarService.sendPayment env params).
Proof.
  intros w r w' H. rewrite (sendPayment_pays _ _ _ _ _ H).
  exists [StellarService.buildPayment params]. split; [reflexivity|cbn; lia].
Qed.

Lemma asks_bind {A B : Type} (a b : nat) (m : M A) (k : A -> M B) :
  respects (asksFor a) m -> (forall x, respects (asksFor b) (k x)) ->
  respects (asksFor (a + b)) (bind m k).
Proof.
  apply respects_bind; [apply asksFor_trans|].
  intros w1 w2 H. eapply asksFor_le; [|exact H]. lia.
Qed.

Lemma asks_tryCatch {A : Type} (a b : nat) (m : M A) (h : Exn -> M A) :
  respects (asksFor a) m -> (forall e, respects (asksFor b) (h e)) ->
  respects (asksFor (a + b)) (tryCatch m h).
Proof.
  apply respects_tryCatch; [apply asksFor_trans|].
  intros w1 w2 H. eapply asksFor_le; [|exact H]. lia.
Qed.

Lemma keeps_liftOutcome {A : Type} (o : Outcome A) : keepsPayments (liftOutcome o).
Proof. intros w r w' [= _ <-]. reflexivity. Qed.

Lemma asks_settle {G : AesGcm} env id : respects (asksFor 1) (Worker.settle env id).
Proof.
  intros w r w' H. unfold Worker.settle in H. unfold bind at 1, get in H.
  destruct (transaction_findById id w) as [t|].
  2:{ injection H as _ <-. apply asksFor_refl. }
  destruct (isTerminal (Transaction.status t)).
  { injection H as _ <-. apply asksFor_refl. }
  destruct (wallet_findByUserId (Transaction.senderId t) w) as [sw|].
  2:{ revert w r w' H. apply (asks_bind 0 1).
      - apply asks_keeps, keeps_updateTransactionStatus.
      - intros _ w r w' [= _ <-]. apply asksFor_refl. }
  destruct (wallet_findByUserId (Transaction.receiverId t) w) as [rw|].
  2:{ revert w r w' H. apply (asks_bind 0 1).
      - apply asks_keeps, keeps_updateTransactionStatus.
      - intros _ w r w' [= _ <-]. apply asksFor_refl. }
  revert w r w' H. apply (asks_bind 0 1).
  { apply asks_keeps, keeps_updateTransactionStatus. }
  intros _. apply (asks_bind 0 1); [apply asks_keeps, keeps_liftOutcome|].
  intros secret. apply (asks_bind 1 0); [apply asks_sendPayment|].
  intros result. apply (asks_bind 0 0).
  { apply asks_keeps, keeps_updateTransactionStatus. }
  intros _. apply (asks_bind 0 0); [apply asks_keeps, keeps_syncBalances|].
  intros _. apply asks_keeps, keeps_ret.
Qed.

Lemma keeps_onFailure env id error : keepsPayments (onFailure env id error).
Proof.
  unfold onFailure. apply keeps_bind; [apply keeps_incrementRetryCount|].
  intros _ w r w' H. unfold bind at 1, get in H.
  destruct (transaction_findById id w) as [t|]; [|injection H as _ <-; reflexivity].
  destruct (_ <=? _); [|injection H as _ <-; reflexivity].
  revert w r w' H.
  apply keeps_bind; [apply keeps_updateTransactionStatus|intros; apply keeps_ret].
Qed.

Lemma asks_processTransaction {G : AesGcm} env job :
  respects (asksFor 1) (Worker.processTransaction env job).
Proof.
  unfold Worker.processTransaction.
  apply (asks_tryCatch 1 0); [apply asks_settle|].
  intros e. apply asks_keeps. apply (keeps_onFailure env (transactionId job) e).
Qed.

Lemma asks_deliver {G : AesGcm} env job n :
  respects (asksFor n) (Worker.deliver env n job).
Proof.
  induction n as [|n IH]; intros w r w' H.
  - injection H as _ <-. apply asksFor_refl.
  - rewrite deliver_S in H.
    destruct (Worker.processTransaction env job w) as [[a|e] w1] eqn:E.
    + injection H as _ <-. eapply asksFor_le; [|apply (asks_processTransaction _ _ _ _ _ E)].
      lia.
    + destruct n as [|n].
      * injection H as _ <-. apply (asks_processTransaction _ _ _ _ _ E).
      * change (S (S n)) with (1 + S n)%nat. eapply asksFor_trans.
        -- apply (asks_processTransaction _ _ _ _ _ E).
        -- apply (IH _ _ _ H).
Qed.

(** X8. One run of the settlement worker asks the gateway for at most
    one payment, whatever the job and the state; over the [n] attempts
    the queue grants a job, the gateway is asked for at most [n]. No
    payment asked for earlier is dropped from the record. *)
Theorem worker_asks_for_at_most_one_payment_per_run
        (G : AesGcm) (env : Env) (job : Job) (w : World) :
  asksFor 1 w (snd (Worker.processTransaction env job w))
  /\ forall n, asksFor n w (snd (Worker.deliver env n job w)).
Proof.
  split.
  - apply (asks_processTransaction env job w
             (fst (Worker.processTransaction env job w))).
    now destruct (Worker.processTransaction env job w).
  - intros n. apply (asks_deliver env job n w (fst (Worker.deliver env n job w))).
    now destruct (Worker.deliver env n job w).
Qed.

Lemma frame_refl (w : World) : settlementFrame w w.
Proof. repeat split. Qed.

Lemma frame_trans (w1 w2 w3 : World) :
  settlementFrame w1 w2 -> settlementFrame w2 w3 -> settlementFrame w1 w3.
Proof.
  intros (A1 & B1 & C1 & D1 & E1) (A2 & B2 & C2 & D2 & E2).
  repeat split; congruence.
Qed.

Lemma frame_bind {A B : Type} (m : M A) (k : A -> M B) :
  respects settlementFrame m -> (forall x, respects settlementFrame (k x)) ->
  respects settlementFrame (bind m k).
Proof. apply respects_bind; [apply frame_trans|auto]. Qed.

Lemma frame_tryCatch {A : Type} (m : M A) (h : Exn -> M A) :
  respects settlementFrame m -> (forall e, respects settlementFrame (h e)) ->
  respects settlementFrame (tryCatch m h).
Proof. apply respects_tryCatch; [apply frame_trans|auto]. Qed.

Lemma map_update_columns {A C : Type} (col : A -> C) (test : A -> bool)
      (data : A -> A) (l : list A) :
  (forall o, col (data o) = col o) ->
  map col (map (fun o => if test o then data o else o) l) = map col l.
Proof.
  intros H. rewrite map_map. apply map_ext. intros o.
  destruct (test o); [apply H|reflexivity].
Qed.

Lemma frame_transaction_update id data :
  (forall o, intakeColumns (data o) = intakeColumns o) ->
  respects settlementFrame (transaction_update id data).
Proof.
  intros Hd w r w' H. unfold transaction_update in H.
  destruct (transaction_findById id w); [|injection H as _ <-; apply frame_refl].
  destruct (hashTaken _ _ _); injection H as _ <-; [apply frame_refl|].
  repeat split. cbn [transactions setTransactions].
  apply (map_update_columns intakeColumns (fun o => String.eqb (Transaction.id o) id)).
  exact Hd.
Qed.

Lemma frame_wallet_update id data :
  (forall o, custodyColumns (data o) = custodyColumns o) ->
  respects settlementFrame (wallet_update id data).
Proof.
  intros Hd w r w' H. unfold wallet_update in H.
  destruct (wallet_findById id w); injection H as _ <-; [|apply frame_refl].
  repeat split. cbn [wallets setWallets].
  apply (map_update_columns custodyColumns (fun o => String.eqb (Wallet.id o) id)).
  exact Hd.
Qed.

Lemma frame_syncBalance env id : respects settlementFrame (WalletService.syncBalance env id).
Proof.
  intros w r w' H. unfold WalletService.syncBalance in H. unfold bind at 1, get in H.
  destruct (wallet_findById id w); [|injection H as _ <-; apply frame_refl].
  revert w r w' H. apply frame_bind.
  { intros w r w' H. apply StellarService_getBalance_reads in H. subst. apply frame_refl. }
  intros balance. destruct (parseFloat balance).
  - apply frame_bind; [apply frame_wallet_update; reflexivity|].
    intros; apply respects_ret, frame_refl.
  - apply respects_throw, frame_refl.
Qed.

Lemma frame_syncBalances {G : AesGcm} env a b :
  respects settlementFrame (Worker.syncBalances env a b).
Proof.
  intros w r w' H. unfold Worker.syncBalances in H.
  destruct (WalletService.syncBalance env a w) as [r1 w1] eqn:E1.
  destruct (WalletService.syncBalance env b w1) as [r2 w2] eqn:E2.
  apply frame_syncBalance in E1, E2.
  destruct r1, r2; injection H as _ <-; eapply frame_trans; eassumption.
Qed.

Lemma frame_updateTransactionStatus env id st md :
  respects settlementFrame (TransactionService.updateTransactionStatus env id st md).
Proof. apply frame_transaction_update. reflexivity. Qed.

Lemma frame_sendPayment env params :
  respects settlementFrame (StellarService.sendPayment env params).
Proof.
  intros w r w' H. rewrite (sendPayment_pays _ _ _ _ _ H). repeat split.
Qed.

Lemma frame_settle {G : AesGcm} env id : respects settlementFrame (Worker.settle env id).
Proof.
  intros w r w' H. unfold Worker.settle in H. unfold bind at 1, get in H.
  destruct (transaction_findById id w) as [t|].
  2:{ injection H as _ <-. apply frame_refl. }
  destruct (isTerminal (Transaction.status t)).
  { injection H as _ <-. apply frame_refl. }
  destruct (wallet_findByUserId (Transaction.senderId t) w) as [sw|].
  2:{ revert w r w' H. apply frame_bind; [apply frame_updateTransactionStatus|].
      intros _. apply respects_throw, frame_refl. }
  destruct (wallet_findByUserId (Transaction.receiverId t) w) as [rw|].
  2:{ revert w r w' H. apply frame_bind; [apply frame_updateTransactionStatus|].
      intros _. apply respects_throw, frame_refl. }
  revert w r w' H. apply frame_bind; [apply frame_updateTransactionStatus|].
  intros _. apply frame_bind.
  { intros w r w' [= _ <-]. apply frame_refl. }
  intros secret. apply frame_bind; [apply frame_sendPayment|].
  intros result. apply frame_bind; [apply frame_updateTransactionStatus|].
  intros _. apply frame_bind; [apply frame_syncBalances|].
  intros _. apply respects_ret, frame_refl.
Qed.

Lemma frame_onFailure env id error : respects settlementFrame (onFailure env id error).
Proof.
  unfold onFailure. apply frame_bind.
  { apply frame_bind; [apply frame_transaction_update; reflexivity|].
    intros; apply respects_ret, frame_refl. }
  intros _ w r w' H. unfold bind at 1, get in H.
  destruct (transaction_findById id w) as [t|]; [|injection H as _ <-; apply frame_refl].
  destruct (_ <=? _); [|injection H as _ <-; apply frame_refl].
  revert w r w' H.
  apply frame_bind; [apply frame_updateTransactionStatus|].
  intros; apply respects_ret, frame_refl.
Qed.

Lemma frame_processTransaction {G : AesGcm} env job :
  respects settlementFrame (Worker.processTransaction env job).
Proof.
  unfold Worker.processTransaction.
  apply frame_tryCatch; [apply frame_settle|].
  intros e. apply (frame_onFailure env (transactionId job) e).
Qed.

Lemma frame_deliver {G : AesGcm} env job n :
  respects settlementFrame (Worker.deliver env n job).
Proof.
  induction n as [|n IH]; intros w r w' H.
  - injection H as _ <-. apply frame_refl.
  - rewrite deliver_S in H.
    destruct (Worker.processTransaction env job w) as [[a|e] w1] eqn:E.
    + injection H as _ <-. apply (frame_processTransaction _ _ _ _ _ E).
    + destruct n as [|n].
      * injection H as _ <-. apply (frame_processTransaction _ _ _ _ _ E).
      * eapply frame_trans.
        -- apply (frame_processTransaction _ _ _ _ _ E).
        -- apply (IH _ _ _ H).
Qed.

(** X9. The settlement worker creates and deletes no row and rewrites
    no identity: after a run, and after all the attempts of a job, the
    users and the queue are as before, the transactions are the same
    rows in the same order with the sender, receiver, amount, type,
    idempotency key, handles and creation time they were stored with,
    and every wallet has kept all its columns but the cached balance. *)
Theorem worker_rewrites_only_status_and_cached_balance
        (G : AesGcm) (env : Env) (job : Job) (w : World) :
  settlementFrame w (snd (Worker.processTransaction env job w))
  /\ forall n, settlementFrame w (snd (Worker.deliver env n job w)).
Proof.
  split.
  - apply (frame_processTransaction env job w
             (fst (Worker.processTransaction env job w))).
    now destruct (Worker.processTransaction env job w).
  - intros n. apply (frame_deliver env job n w (fst (Worker.deliver env n job w))).
    now destruct (Worker.deliver env n job w).
Qed.

(** X10. A job whose transaction does not exist fails on every attempt
    with the database's "record not found" error, raised by the retry
    counter inside the failure handler in place of the worker's own
    "Transaction not found"; nothing is written, the gateway is not
    asked, and the job stays failed after its last attempt. *)
Theorem worker_on_a_missing_transaction
        (G : AesGcm) (env : Env) (job : Job) (w : World) :
  transaction_findById (transactionId job) w = None ->
  Worker.settle env (transactionId job) w = (Throw (newError "Transaction not found"), w)
  /\ Worker.processTransaction env job w = (Throw recordNotFound, w)
  /\ forall n, Worker.deliver env (S n) job w = (Throw recordNotFound, w).
Proof.
  intros H.
  assert (Hs : Worker.settle env (transactionId job) w
               = (Throw (newError "Transaction not found"), w)).
  { unfold Worker.settle, bind, get, throw. now rewrite H. }
  assert (Hp : Worker.processTransaction env job w = (Throw recordNotFound, w)).
  { unfold Worker.processTransaction, tryCatch. rewrite Hs.
    unfold TransactionService.incrementRetryCount, transaction_update, bind.
    now rewrite H. }
  split; [exact Hs|]. split; [exact Hp|].
  induction n as [|n IH]; rewrite deliver_S, Hp; [reflexivity|exact IH].
Qed.

Lemma worker_on_a_missing_transaction_witness :
  Worker.settle (G := xorGcm) (Sample.env 0) (transactionId Sample.job) Sample.fresh
  = (Throw (newError "Transaction not found"), Sample.fresh)
  /\ Worker.processTransaction (G := xorGcm) (Sample.env 0) Sample.job Sample.fresh
     = (Throw recordNotFound, Sample.fresh)
  /\ forall n, Worker.deliver (G := xorGcm) (Sample.env 0) (S n) Sample.job Sample.fresh
               = (Throw recordNotFound, Sample.fresh).
Proof.
  apply (worker_on_a_missing_transaction xorGcm (Sample.env 0) Sample.job Sample.fresh).
  reflexivity.
Defined.


Lemma syncBalance_transactions env id w r w' :
  WalletService.syncBalance env id w = (r, w') -> transactions w' = transactions w.
Proof.
  unfold WalletService.syncBalance. unfold bind at 1, get.
  destruct (wallet_findById id w); [|intros [= _ <-]; reflexivity].
  unfold bind at 1.
  destruct (StellarService.getBalance env _ w) as [[live|e] w1] eqn:Hg;
    apply StellarService_getBalance_reads in Hg; subst w1;
    [|intros [= _ <-]; reflexivity].
  destruct (parseFloat live); [|intros [= _ <-]; reflexivity].
  unfold bind, wallet_update, ret.
  destruct (wallet_findById id w); intros [= _ <-]; reflexivity.
Qed.

Lemma syncBalances_transactions {G : AesGcm} env a b w r w' :
  Worker.syncBalances env a b w = (r, w') -> transactions w' = transactions w.
Proof.
  unfold Worker.syncBalances. intros H.
  destruct (WalletService.syncBalance env a w) as [r1 w1] eqn:E1.
  destruct (WalletService.syncBalance env b w1) as [r2 w2] eqn:E2.
  apply syncBalance_transactions in E1, E2.
  destruct r1, r2; injection H as _ <-; congruence.
Qed.







(** ** What intake has checked *)

Lemma amount_in_range (cfg : Config) (a : Q) :
  TransactionService.amountRejected cfg (Some a) = false ->
  (0 < a)%Q /\ (minAmount cfg <= a)%Q /\ (a <= maxAmount cfg)%Q.
Proof.
  unfold TransactionService.amountRejected, numLe, numLt, numGt, numLt, isNaN.
  cbn [orb]. intros H.
  apply orb_false_elim in H as [H Hmax].
  apply orb_false_elim in H as [Hpos Hmin].
  apply negb_false_iff in Hmax, Hmin.
  apply Qle_bool_iff in Hmax, Hmin.
  repeat split; auto.
  apply Qnot_le_lt. intros X. apply Qle_bool_iff in X.
  unfold inject_Z in Hpos. rewrite X in Hpos. discriminate.
Qed.

Lemma sendPayment_accepted env p w t w' :
  TransactionService.sendPayment env p w = (Ok t, w') ->
  w' <> w ->
  Accepted env p w t.
Proof.
  unfold TransactionService.sendPayment, UserService.getUserById,
    UserService.getUserByHandle, WalletService.getWalletByUserId,
    transaction_create, bind, get, ret, throw, modify.
  intros H Hw.
  destruct (parseFloat (sendAmount p)) as [a|] eqn:Ha; [|discriminate].
  destruct (TransactionService.amountRejected (config env) (Some a)) eqn:Hrange;
    [discriminate|].
  apply amount_in_range in Hrange as (Hpos & Hmin & Hmax).
  run_all; try contradiction.
  all: match goal with |- Accepted _ _ ?w0 _ => eapply (accepted env p w0 _ a) end;
    first [ eassumption | reflexivity
          | apply String.eqb_neq; assumption
          | intros X; rewrite X in *; discriminate
          | cbn; repeat split; reflexivity
          | idtac ].
  all: try match goal with
           | Hf : isFrozen (Wallet.status ?x) = false,
             Hc : isClosed (Wallet.status ?x) = false
             |- Wallet.status ?x = WALLET_ACTIVE =>
               destruct (Wallet.status x);
               [reflexivity | discriminate Hf | discriminate Hc]
           end.
  all: unfold dailySum;
    match goal with
    | H : transaction_sumSentSince _ _ _ = _ |- _ => rewrite H
    end;
    try match goal with
        | H : truthy (Some (Decimal_toString _)) = _ |- _ => rewrite H
        end;
    assumption.
Qed.

(** X12. Every transaction row that intake stores has passed every
    check: the amount is a number, positive and within the configured
    bounds; sender and recipient exist, differ and are not blocked; both
    have an active wallet; the sender's cached balance is not below the
    amount and the day's total stays within the daily limit. The row is
    appended in status CREATED with a zero retry count, the amount
    rounded to 7 digits, and the parties as they were looked up. *)
Theorem stored_payment_passed_every_check
        (env : Env) (p : SendPaymentParams) (w w' : World) (t : Transaction.t) :
  TransactionService.sendPayment env p w = (Ok t, w') ->
  w' <> w ->
  Accepted env p w t
  /\ transactions w' = (transactions w ++ [t])%list
  /\ jobs w' = (jobs w ++ [jobFor env t])%list.
Proof.
  intros H Hw. split; [exact (sendPayment_accepted _ _ _ _ _ H Hw)|].
  destruct (sendPayment_ok _ _ _ _ _ H); [contradiction|]. split; assumption.
Qed.

Lemma stored_payment_passed_every_check_witness :
  Accepted (Sample.env 0) (Sample.send "10" (Some "key-1")) Sample.fresh
           (Sample.tx CREATED)
  /\ transactions Sample.requested
     = (transactions Sample.fresh ++ [Sample.tx CREATED])%list
  /\ jobs Sample.requested
     = (jobs Sample.fresh ++ [jobFor (Sample.env 0) (Sample.tx CREATED)])%list.
Proof.
  apply (stored_payment_passed_every_check
           (Sample.env 0) (Sample.send "10" (Some "key-1")) Sample.fresh
           Sample.requested (Sample.tx CREATED)).
  - vm_compute. reflexivity.
  - intros X. apply (f_equal transactions) in X. vm_compute in X. discriminate X.
Defined.

(** ** Blocking a user, freezing a wallet *)

Lemma find_key {A : Type} (key : A -> string) (k : string) (l : list A) (x : A) :
  find (fun o => String.eqb (key o) k) l = Some x -> key x = k /\ In x l.
Proof.
  intros H. apply find_some in H as [Hin Hk]. split; [now apply String.eqb_eq|exact Hin].
Qed.

Lemma updateUserStatus_ok userId st w u w1 :
  UserAccounts.updateUserStatus userId st w = (Ok u, w1) ->
  user_findById userId w1 = Some u
  /\ User.status u = st
  /\ (forall x, In x (users w1) -> User.id x = userId -> User.status x = st)
  /\ wallets w1 = wallets w /\ transactions w1 = transactions w
  /\ jobs w1 = jobs w /\ payments w1 = payments w.
Proof.
  unfold UserAccounts.updateUserStatus, user_update.
  destruct (user_findById userId w) as [o|] eqn:Ho; [|discriminate].
  destruct (existsb _ _); [discriminate|].
  destruct (existsb _ _); [discriminate|].
  destruct (existsb _ _); [discriminate|].
  intros [= <- <-]. split; [|split; [reflexivity|split; [|repeat split]]].
  - unfold user_findById in *. cbn [users].
    apply (find_map_update User.id); [reflexivity|exact Ho].
  - cbn [users]. intros x Hx Hid. apply in_map_iff in Hx as [y [Hy _]].
    subst x. destruct (String.eqb (User.id y) userId) eqn:E; [reflexivity|].
    apply String.eqb_neq in E. contradiction.
Qed.

(** X13. Once an administrator has set a user's status to BLOCKED, no
    payment from or to that user is stored: every later send request
    naming the user as sender, or a handle of the user as recipient,
    leaves the state as it is, and can only answer with an error or with
    a row stored earlier under the same idempotency key. When the amount
    is valid, no key is replayed and the recipient is another user, the
    error is [UserBlockedError]. *)
Theorem blocking_a_user_stops_intake
        (env : Env) (userId : string) (w w1 : World) (u : User.t) :
  UserAccounts.updateUserStatus userId BLOCKED w = (Ok u, w1) ->
  forall p r w2,
    TransactionService.sendPayment env p w1 = (r, w2) ->
    (senderUserId p = userId
     \/ exists x, user_findByHandle (recipientHandle p) w1 = Some x
                  /\ User.id x = userId) ->
    w2 = w1
    /\ (forall t, r = Ok t ->
          exists k, idempotencyKey p = Some k /\ k <> ""
                    /\ transaction_findByIdempotencyKey k w1 = Some t)
    /\ (senderUserId p = userId ->
        TransactionService.amountRejected (config env) (parseFloat (sendAmount p)) = false ->
        (forall k, idempotencyKey p = Some k -> k <> "" ->
                   transaction_findByIdempotencyKey k w1 = None) ->
        (exists x, user_findByHandle (recipientHandle p) w1 = Some x
                   /\ User.id x <> userId) ->
        r = Throw (newUserBlockedError userId)).
Proof.
  intros Hup p r w2 Hsend Hparty.
  destruct (updateUserStatus_ok _ _ _ _ _ Hup) as (Hfound & Hst & Hall & _).
  assert (Hnone : forall t, r = Ok t -> w2 = w1).
  { intros t ->. destruct (sendPayment_ok _ _ _ _ _ Hsend) as [|? ? ? ? Hrows];
      [assumption|].
    exfalso.
    assert (Hne : w2 <> w1).
    { intros X. rewrite X in Hrows. apply (f_equal (@length _)) in Hrows.
      rewrite length_app in Hrows. cbn in Hrows. lia. }
    destruct (sendPayment_accepted _ _ _ _ _ Hsend Hne).
    destruct Hparty as [Hs|[x [Hx Hxid]]].
    - rewrite Hs, Hfound in Hsender. injection Hsender as <-. contradiction.
    - rewrite Hx in Hrecipient. injection Hrecipient as <-.
      apply HrecipientOpen, Hall; [|exact Hxid].
      now apply (find_key User.handle) in Hx. }
  split; [|split].
  - destruct r as [t|e]; [now apply (Hnone t)|].
    now apply (sendPayment_throw_unchanged _ _ _ _ _ Hsend).
  - intros t ->. destruct (sendPayment_ok _ _ _ _ _ Hsend) as [k|? ? ? ? Hrows].
    + exists k. subst w2. auto.
    + exfalso. specialize (Hnone t eq_refl). rewrite Hnone in Hrows.
      apply (f_equal (@length _)) in Hrows. rewrite length_app in Hrows.
      cbn in Hrows. lia.
  - intros Hs Hamount Hfresh [x [Hx Hxid]].
    revert Hsend.
    unfold TransactionService.sendPayment. rewrite Hamount.
    unfold bind at 1, get.
    assert (Hkey : (if truthy (idempotencyKey p)
                    then match idempotencyKey p with
                         | Some k => transaction_findByIdempotencyKey k w1
                         | None => None
                         end
                    else None) = None).
    { destruct (idempotencyKey p) as [k|] eqn:Hk; [|reflexivity].
      destruct (truthy (Some k)) eqn:Hne; [|reflexivity].
      apply Hfresh; [reflexivity|now apply truthy_Some]. }
    rewrite Hkey. unfold bind at 1.
    rewrite getUserById_spec, Hs, Hfound. unfold bind at 1.
    rewrite getUserByHandle_spec, Hx.
    assert (Hu : User.id u = userId) by now apply (find_key User.id) in Hfound.
    rewrite Hu.
    destruct (String.eqb userId (User.id x)) eqn:E.
    { apply String.eqb_eq in E. congruence. }
    rewrite Hst. cbn [isBlocked]. unfold throw. now intros [= <- _].
Qed.

Lemma blocking_a_user_stops_intake_witness :
  let w1 := snd (UserAccounts.updateUserStatus "u1" BLOCKED Sample.fresh) in
  let answer := TransactionService.sendPayment (Sample.env 0) (Sample.send "10" None) w1 in
  UserAccounts.updateUserStatus "u1" BLOCKED Sample.fresh
  = (Ok (Sample.user "u1" "kc1" "alice" BLOCKED), w1)
  /\ snd answer = w1
  /\ fst answer = Throw (newUserBlockedError "u1").
Proof.
  cbv zeta.
  assert (H1 : UserAccounts.updateUserStatus "u1" BLOCKED Sample.fresh
               = (Ok (Sample.user "u1" "kc1" "alice" BLOCKED),
                  snd (UserAccounts.updateUserStatus "u1" BLOCKED Sample.fresh)))
    by reflexivity.
  split; [exact H1|].
  destruct (blocking_a_user_stops_intake
              (Sample.env 0) _ _ _ _ H1 (Sample.send "10" None) _ _
              (surjective_pairing _) (or_introl eq_refl))
    as (Hsame & _ & Hblocked).
  split; [exact Hsame|].
  apply Hblocked.
  - reflexivity.
  - vm_compute. reflexivity.
  - intros k Hk. discriminate Hk.
  - exists (Sample.user "u2" "kc2" "bob" ACTIVE). split; [reflexivity|discriminate].
Defined.

Lemma updateWalletStatus_ok walletId st w x w1 :
  WalletAccounts.updateWalletStatus walletId st w = (Ok x, w1) ->
  wallet_findById walletId w1 = Some x
  /\ Wallet.status x = st
  /\ (forall y, In y (wallets w1) -> Wallet.id y = walletId -> Wallet.status y = st)
  /\ Forall2 (fun o o' =>
                (Wallet.id o <> walletId -> o' = o)
                /\ Wallet.id o' = Wallet.id o /\ Wallet.userId o' = Wallet.userId o
                /\ Wallet.balance o' = Wallet.balance o
                /\ Wallet.stellarSecretKey o' = Wallet.stellarSecretKey o)
             (wallets w) (wallets w1)
  /\ users w1 = users w /\ transactions w1 = transactions w
  /\ jobs w1 = jobs w /\ payments w1 = payments w.
Proof.
  unfold WalletAccounts.updateWalletStatus, wallet_update.
  destruct (wallet_findById walletId w) as [o|] eqn:Ho; [|discriminate].
  intros [= <- <-]. split; [|split; [reflexivity|split; [|split; [|repeat split]]]].
  - unfold wallet_findById in *. cbn [wallets setWallets].
    apply (find_map_update Wallet.id); [reflexivity|exact Ho].
  - cbn [wallets setWallets]. intros y Hy Hid. apply in_map_iff in Hy as [z [Hz _]].
    subst y. destruct (String.eqb (Wallet.id z) walletId) eqn:E; [reflexivity|].
    apply String.eqb_neq in E. contradiction.
  - cbn [wallets setWallets]. apply Forall2_map_same. intros z.
    destruct (String.eqb (Wallet.id z) walletId) eqn:E.
    + apply String.eqb_eq in E. repeat split. contradiction.
    + repeat split.
Qed.

(** X14. Once an administrator has frozen a wallet, its owner can
    neither fund it nor send from it: a funding request is answered with
    [WalletFrozenError] naming the wallet, and a send request by the
    owner stores nothing. Freezing itself changes the status only: every
    wallet keeps its id, owner, balance and encrypted secret, and the
    other tables are untouched. *)
Theorem freezing_a_wallet_stops_funding_and_sending
        (env : Env) (walletId : string) (w w1 : World) (x : Wallet.t) :
  WalletAccounts.updateWalletStatus walletId FROZEN w = (Ok x, w1) ->
  Forall2 (fun o o' =>
             (Wallet.id o <> walletId -> o' = o)
             /\ Wallet.id o' = Wallet.id o /\ Wallet.userId o' = Wallet.userId o
             /\ Wallet.balance o' = Wallet.balance o
             /\ Wallet.stellarSecretKey o' = Wallet.stellarSecretKey o)
          (wallets w) (wallets w1)
  /\ users w1 = users w /\ transactions w1 = transactions w
  /\ forall userId y,
       wallet_findByUserId userId w1 = Some y ->
       Wallet.id y = walletId ->
       WalletService.fundWallet env userId w1
       = (Throw (newWalletFrozenError walletId), w1)
       /\ forall p r w2,
            senderUserId p = userId ->
            TransactionService.sendPayment env p w1 = (r, w2) ->
            w2 = w1
            /\ forall t, r = Ok t ->
                 exists k, idempotencyKey p = Some k /\ k <> ""
                           /\ transaction_findByIdempotencyKey k w1 = Some t.
Proof.
  intros Hup.
  destruct (updateWalletStatus_ok _ _ _ _ _ Hup)
    as (_ & _ & Hall & Hframe & Hu & Ht & _).
  split; [exact Hframe|]. split; [exact Hu|]. split; [exact Ht|].
  intros userId y Hy Hid.
  assert (Hfrozen : Wallet.status y = FROZEN).
  { apply Hall; [|exact Hid]. now apply (find_key Wallet.userId) in Hy. }
  split.
  { unfold WalletService.fundWallet, bind. rewrite getWalletByUserId_spec, Hy, Hfrozen.
    cbn [isFrozen]. now rewrite Hid. }
  intros p r w2 Hs Hsend.
  assert (Hcreated : forall t, r = Ok t -> w2 = w1).
  { intros t ->. destruct (sendPayment_ok _ _ _ _ _ Hsend) as [|? ? ? ? Hrows];
      [assumption|].
    exfalso.
    assert (Hne : w2 <> w1).
    { intros X. rewrite X in Hrows. apply (f_equal (@length _)) in Hrows.
      rewrite length_app in Hrows. cbn in Hrows. lia. }
    destruct (sendPayment_accepted _ _ _ _ _ Hsend Hne).
    apply (find_key User.id) in Hsender as [Hsid _].
    rewrite Hsid, Hs, Hy in HsenderWallet. injection HsenderWallet as <-.
    congruence. }
  split.
  - destruct r as [t|e]; [now apply (Hcreated t)|].
    now apply (sendPayment_throw_unchanged _ _ _ _ _ Hsend).
  - intros t ->. destruct (sendPayment_ok _ _ _ _ _ Hsend) as [k|? ? ? ? Hrows].
    + exists k. subst w2. auto.
    + exfalso. specialize (Hcreated t eq_refl). rewrite Hcreated in Hrows.
      apply (f_equal (@length _)) in Hrows. rewrite length_app in Hrows.
      cbn in Hrows. lia.
Qed.

Lemma freezing_a_wallet_stops_funding_and_sending_witness :
  let w1 := snd (WalletAccounts.updateWalletStatus "w1" FROZEN Sample.fresh) in
  WalletService.fundWallet (Sample.env 0) "u1" w1 = (Throw (newWalletFrozenError "w1"), w1)
  /\ users w1 = users Sample.fresh.
Proof.
  cbv zeta.
  assert (H1 : WalletAccounts.updateWalletStatus "w1" FROZEN Sample.fresh
               = (Ok (Sample.wallet (G := xorGcm) "w1" "u1" "GALICE" "SALICE"
                        (50 * unitsPerXlm) FROZEN),
                  snd (WalletAccounts.updateWalletStatus "w1" FROZEN Sample.fresh)))
    by reflexivity.
  destruct (freezing_a_wallet_stops_funding_and_sending (Sample.env 0) _ _ _ _ H1)
    as (_ & Hu & _ & Hf).
  split; [|exact Hu].
  apply (Hf "u1" (Sample.wallet (G := xorGcm) "w1" "u1" "GALICE" "SALICE"
                    (50 * unitsPerXlm) FROZEN)); reflexivity.
Defined.

(** ** Handles *)

Lemma length_mapChars (f : ascii -> ascii) (s : string) :
  String.length (mapChars f s) = String.length s.
Proof. induction s as [|c r IH]; cbn; congruence. Qed.

Lemma allChars_mapChars (P : ascii -> bool) (f : ascii -> ascii) (s : string) :
  (forall c, P (f c) = true) -> allChars P (mapChars f s) = true.
Proof.
  intros H. induction s as [|c r IH]; cbn; [reflexivity|]. now rewrite H, IH.
Qed.

Lemma allChars_substring (P : ascii -> bool) (n : nat) (s : string) :
  allChars P s = true -> allChars P (substring 0 n s) = true.
Proof.
  revert n. induction s as [|c r IH]; intros [|n]; cbn; auto.
  intros H. apply andb_prop in H as [Hc Hr]. now rewrite Hc, IH.
Qed.

Lemma allChars_weaken (P Q : ascii -> bool) (s : string) :
  (forall c, P c = true -> Q c = true) -> allChars P s = true -> allChars Q s = true.
Proof.
  intros H. induction s as [|c r IH]; cbn; [reflexivity|].
  intros X. apply andb_prop in X as [Hc Hr]. now rewrite (H _ Hc), IH.
Qed.

Lemma allChars_hasChar (P : ascii -> bool) (c : ascii) (s : string) :
  P c = false -> allChars P s = true -> hasChar c s = false.
Proof.
  intros Hc. induction s as [|d r IH]; cbn; [reflexivity|].
  intros X. apply andb_prop in X as [Hd Hr]. rewrite (IH Hr), orb_false_r.
  destruct (Ascii.eqb d c) eqn:E; [|reflexivity].
  apply Ascii.eqb_eq in E. congruence.
Qed.

Lemma split_head (sep : ascii) (s1 s2 : string) :
  hasChar sep s1 = false -> hd "" (split sep (s1 ++ String sep s2)) = s1.
Proof. intros H. now rewrite split_app_sep. Qed.

(** X15. For an e-mail address whose part before the "@", [name], is
    written in ASCII, the generated handle consists of the characters
    a-z, 0-9 and "_" only, is as long as [name] up to 30 characters, and
    is a valid handle exactly when [name] has at least 3 characters; for
    a shorter name the send route refuses every payment addressed to the
    generated handle. (Outside ASCII the code works on UTF-16 code units,
    of which a character may take several here, and the property is not
    claimed.) *)
Theorem generated_handle_shape (name domain : string) :
  allChars isAscii name = true ->
  hasChar "@" name = false ->
  let h := UserAccounts.generateHandleFromEmail (name ++ "@" ++ domain) in
  allChars isHandleCharLower h = true
  /\ String.length h = Nat.min 30 (String.length name)
  /\ UserAccounts.isValidHandle h = (3 <=? String.length name)%nat
  /\ ((String.length name < 3)%nat ->
      forall amount key,
        sendPaymentSchema {| bodyRecipientHandle := h; bodyAmount := amount;
                             bodyIdempotencyKey := key |} = false).
Proof.
  intros _ Hname. cbv zeta. unfold UserAccounts.generateHandleFromEmail.
  change ("@" ++ domain) with (String "@" domain).
  rewrite (split_head _ _ _ Hname).
  set (body := mapChars _ (mapChars toLowerChar name)).
  assert (Hchars : allChars isHandleCharLower (substring 0 30 body) = true).
  { apply allChars_substring. apply allChars_mapChars. intros c.
    destruct (isHandleCharLower c) eqn:E; [exact E|reflexivity]. }
  assert (Hlen : String.length (substring 0 30 body)
                 = Nat.min 30 (String.length name)).
  { rewrite length_substring. unfold body. now rewrite !length_mapChars. }
  split; [exact Hchars|]. split; [exact Hlen|]. split.
  - unfold UserAccounts.isValidHandle. rewrite Hlen.
    rewrite (allChars_weaken isHandleCharLower isHandleChar _) ; [|
      intros c Hc; unfold isHandleChar; now rewrite Hc | exact Hchars].
    rewrite andb_true_r.
    destruct (3 <=? String.length name)%nat eqn:E3.
    + apply Nat.leb_le in E3.
      assert (X : (3 <=? Nat.min 30 (String.length name))%nat = true)
        by (apply Nat.leb_le; lia).
      assert (Y : (Nat.min 30 (String.length name) <=? 30)%nat = true)
        by (apply Nat.leb_le; lia).
      now rewrite X, Y.
    + apply Nat.leb_gt in E3.
      assert (X : (3 <=? Nat.min 30 (String.length name))%nat = false)
        by (apply Nat.leb_gt; lia).
      now rewrite X.
  - intros Hshort amount key. unfold sendPaymentSchema. cbn [bodyRecipientHandle].
    rewrite Hlen.
    assert (X : (3 <=? Nat.min 30 (String.length name))%nat = false)
      by (apply Nat.leb_gt; lia).
    now rewrite X.
Qed.

Lemma generated_handle_shape_witness :
  UserAccounts.generateHandleFromEmail "Alice.Smith@example.org" = "alice_smith"
  /\ allChars isHandleCharLower "alice_smith" = true
  /\ UserAccounts.isValidHandle "alice_smith" = true.
Proof.
  split; [reflexivity|].
  destruct (generated_handle_shape "Alice.Smith" "example.org" eq_refl eq_refl)
    as (Hchars & _ & Hvalid & _).
  split; [exact Hchars|exact Hvalid].
Defined.

Lemma existsb_false_find {A : Type} (f : A -> bool) (l : list A) :
  existsb f l = false -> find f l = None.
Proof.
  induction l as [|x r IH]; cbn; [reflexivity|].
  intros H. apply orb_false_elim in H as [Hx Hr]. now rewrite Hx, IH.
Qed.

Lemma find_None_forall {A : Type} (f : A -> bool) (l : list A) :
  find f l = None -> forall x, In x l -> f x = false.
Proof.
  intros H x Hx. destruct (f x) eqn:E; [|reflexivity].
  exfalso. apply (find_none _ _ H) in Hx. congruence.
Qed.

(** Renaming the one row with the given id keeps handles distinct when
    no other row carries the new handle. *)
Lemma NoDup_setHandle (userId h : string) (l : list User.t) :
  NoDup (map User.id l) ->
  NoDup (map User.handle l) ->
  (forall o, In o l -> User.handle o = h -> User.id o = userId) ->
  NoDup (map User.handle
             (map (fun o => if String.eqb (User.id o) userId then setHandle h o else o) l)).
Proof.
  induction l as [|o r IH]; cbn [map]; intros Hid Hh Hfree; [constructor|].
  inversion Hid as [|? ? Hid1 Hid2]; subst. inversion Hh as [|? ? Hh1 Hh2]; subst.
  constructor.
  - rewrite map_map. intros Hin. apply in_map_iff in Hin as [o' [Heq Ho']].
    destruct (String.eqb (User.id o) userId) eqn:Eo;
      destruct (String.eqb (User.id o') userId) eqn:Eo'.
    + apply String.eqb_eq in Eo, Eo'. apply Hid1. apply in_map_iff.
      exists o'. split; [congruence|exact Ho'].
    + cbn [setHandle User.handle] in Heq. apply String.eqb_neq in Eo'. apply Eo'.
      apply Hfree; [now right|exact Heq].
    + cbn [setHandle User.handle] in Heq. apply String.eqb_neq in Eo. apply Eo.
      apply Hfree; [now left|congruence].
    + apply Hh1. apply in_map_iff. exists o'. split; [exact Heq|exact Ho'].
  - apply IH; auto. intros o' Ho'. apply Hfree. now right.
Qed.

Lemma map_id_update {A : Type} (key : A -> string) (test : A -> bool)
      (data : A -> A) (l : list A) :
  (forall o, key (data o) = key o) ->
  map key (map (fun o => if test o then data o else o) l) = map key l.
Proof. apply map_update_columns. Qed.

Lemma NoDup_map_In_eq {A : Type} (key : A -> string) (l : list A) (x y : A) :
  NoDup (map key l) -> In x l -> In y l -> key x = key y -> x = y.
Proof.
  induction l as [|o r IH]; cbn; [contradiction|].
  intros Hnd Hx Hy Hk. inversion Hnd as [|? ? Hnot Hrest]; subst.
  destruct Hx as [->|Hx], Hy as [->|Hy]; auto.
  - exfalso. apply Hnot. rewrite Hk. now apply in_map.
  - exfalso. apply Hnot. rewrite <- Hk. now apply in_map.
Qed.

(** X16. Changing a handle keeps the user table's unique indexes: if ids,
    handles, Keycloak ids and e-mail addresses were pairwise distinct
    before, they are after, whatever the outcome. A success stored a well-formed handle
    on the row of that user, which is now the row found under the
    handle, and changed no other table; a failure wrote nothing and is a
    [ValidationError] exactly when the format is wrong, a
    [DuplicateHandleError] exactly when the format is right and another
    user holds the handle, and otherwise the database's "record not
    found" for an unknown user: the unique index itself is never hit. *)
Theorem updateHandle_keeps_handles_unique
        (userId newHandle : string) (w w' : World) (r : Outcome User.t) :
  uniqueUsers w ->
  UserAccounts.updateHandle userId newHandle w = (r, w') ->
  uniqueUsers w'
  /\ (forall u, r = Ok u ->
        UserAccounts.isValidHandle newHandle = true
        /\ User.id u = userId /\ User.handle u = newHandle
        /\ user_findById userId w' = Some u
        /\ user_findByHandle newHandle w' = Some u
        /\ wallets w' = wallets w /\ transactions w' = transactions w
        /\ jobs w' = jobs w /\ payments w' = payments w)
  /\ (forall e, r = Throw e ->
        w' = w
        /\ (cls e = ValidationError <-> UserAccounts.isValidHandle newHandle = false)
        /\ (cls e = DuplicateHandleError <->
            UserAccounts.isValidHandle newHandle = true
            /\ exists other, user_findByHandle newHandle w = Some other
                             /\ User.id other <> userId)
        /\ (cls e <> ValidationError -> cls e <> DuplicateHandleError ->
            e = recordNotFound /\ user_findById userId w = None)).
Proof.
  intros (Hids & Hhandles & Hkcs & Hemails).
  unfold UserAccounts.updateHandle.
  destruct (UserAccounts.isValidHandle newHandle) eqn:Hvalid; cbn [negb].
  2:{ intros [= <- <-]. split; [now repeat split|]. split; [discriminate|].
      intros e [= <-]. cbn. split; [reflexivity|]. split; [tauto|].
      split; [split; [discriminate|intros [X _]; discriminate X]|].
      intros X. contradiction. }
  unfold bind, get, throw.
  assert (Hupdate :
            (forall o, In o (users w) -> User.handle o = newHandle -> User.id o = userId) ->
            user_update userId (setHandle newHandle) w = (r, w') ->
            uniqueUsers w'
            /\ (forall u, r = Ok u ->
                  true = true
                  /\ User.id u = userId /\ User.handle u = newHandle
                  /\ user_findById userId w' = Some u
                  /\ user_findByHandle newHandle w' = Some u
                  /\ wallets w' = wallets w /\ transactions w' = transactions w
                  /\ jobs w' = jobs w /\ payments w' = payments w)
            /\ (forall e, r = Throw e ->
                  w' = w /\ e = recordNotFound /\ user_findById userId w = None)).
  { intros Hfree. unfold user_update.
    destruct (user_findById userId w) as [u|] eqn:Hu.
    2:{ intros [= <- <-]. split; [now repeat split|]. split; [discriminate|].
        intros e [= <-]. auto. }
    destruct (find_key User.id _ _ _ Hu) as [Huid Huin].
    assert (Hk : existsb (fun o => negb (String.eqb (User.id o) userId)
                                   && String.eqb (User.keycloakId o)
                                                 (User.keycloakId (setHandle newHandle u)))
                         (users w) = false).
    { apply not_true_is_false. intros X. apply existsb_exists in X as [o [Ho Hc]].
      apply andb_prop in Hc as [Hne Heq]. apply negb_true_iff, String.eqb_neq in Hne.
      apply String.eqb_eq in Heq. cbn in Heq.
      apply Hne. rewrite <- Huid. f_equal.
      apply (NoDup_map_In_eq User.keycloakId (users w)); auto. }
    assert (Hm : existsb (fun o => negb (String.eqb (User.id o) userId)
                                   && String.eqb (User.email o)
                                                 (User.email (setHandle newHandle u)))
                         (users w) = false).
    { apply not_true_is_false. intros X. apply existsb_exists in X as [o [Ho Hc]].
      apply andb_prop in Hc as [Hne Heq]. apply negb_true_iff, String.eqb_neq in Hne.
      apply String.eqb_eq in Heq. cbn in Heq.
      apply Hne. rewrite <- Huid. f_equal.
      apply (NoDup_map_In_eq User.email (users w)); auto. }
    assert (Hh : existsb (fun o => negb (String.eqb (User.id o) userId)
                                   && String.eqb (User.handle o)
                                                 (User.handle (setHandle newHandle u)))
                         (users w) = false).
    { apply not_true_is_false. intros X. apply existsb_exists in X as [o [Ho Hc]].
      apply andb_prop in Hc as [Hne Heq]. apply negb_true_iff, String.eqb_neq in Hne.
      apply String.eqb_eq in Heq. cbn in Heq. now apply Hne, Hfree. }
    rewrite Hk, Hm, Hh. intros [= <- <-]. split; [|split; [|discriminate]].
    - unfold uniqueUsers. cbn [users].
      split; [rewrite (map_id_update User.id); [exact Hids|reflexivity]|].
      split; [apply NoDup_setHandle; assumption|].
      split; [rewrite (map_id_update User.keycloakId); [exact Hkcs|reflexivity]|].
      rewrite (map_id_update User.email); [exact Hemails|reflexivity].
    - intros u' [= <-]. split; [reflexivity|]. split; [exact Huid|].
      split; [reflexivity|].
      assert (Hfound : user_findById userId
                         {| users := map (fun o => if String.eqb (User.id o) userId
                                                   then setHandle newHandle o else o)
                                         (users w);
                            wallets := wallets w; transactions := transactions w;
                            jobs := jobs w; payments := payments w;
                            nextId := nextId w |}
                       = Some (setHandle newHandle u)).
      { unfold user_findById in *. cbn [users].
        apply (find_map_update User.id); [reflexivity|exact Hu]. }
      split; [exact Hfound|]. split; [|repeat split].
      unfold user_findByHandle. cbn [users].
      destruct (find _ _) as [x|] eqn:Hx.
      + destruct (find_key User.handle _ _ _ Hx) as [Hxh Hxin].
        f_equal.
        apply (NoDup_map_In_eq User.handle
                 (map (fun o => if String.eqb (User.id o) userId
                                then setHandle newHandle o else o) (users w))).
        * apply NoDup_setHandle; assumption.
        * exact Hxin.
        * apply (find_key User.id) in Hfound as [_ Hin]. exact Hin.
        * rewrite Hxh. reflexivity.
      + exfalso. apply (find_key User.id) in Hfound as [_ Hin].
        apply (find_None_forall _ _ Hx) in Hin. cbn in Hin.
        now rewrite String.eqb_refl in Hin. }
  destruct (user_findByHandle newHandle w) as [existing|] eqn:Hex.
  - destruct (find_key User.handle _ _ _ Hex) as [Hexh Hexin].
    destruct (String.eqb (User.id existing) userId) eqn:Hsame; cbn [negb].
    + apply String.eqb_eq in Hsame. intros H.
      destruct Hupdate as (Hu1 & Hu2 & Hu3); [|exact H|].
      { intros o Ho Hoh. rewrite <- Hsame. f_equal.
        apply (NoDup_map_In_eq User.handle (users w)); auto. congruence. }
      split; [exact Hu1|]. split; [exact Hu2|].
      intros e He. destruct (Hu3 e He) as (-> & -> & Hnone).
      split; [reflexivity|]. cbn.
      split; [split; discriminate|].
      split; [split; [discriminate|]|auto].
      intros [_ [other [Ho Hne]]]. injection Ho as <-. contradiction.
    + apply String.eqb_neq in Hsame. intros [= <- <-].
      split; [now repeat split|]. split; [discriminate|].
      intros e [= <-]. cbn. split; [reflexivity|].
      split; [split; discriminate|].
      split; [split; [intros _; split; [reflexivity|now exists existing]|reflexivity]|].
      intros _ X. contradiction.
  - intros H.
    destruct Hupdate as (Hu1 & Hu2 & Hu3); [|exact H|].
    { intros o Ho Hoh. exfalso.
      apply (find_None_forall _ _ Hex) in Ho. apply String.eqb_neq in Ho. contradiction. }
    split; [exact Hu1|]. split; [exact Hu2|].
    intros e He. destruct (Hu3 e He) as (-> & -> & Hnone).
    split; [reflexivity|]. cbn.
    split; [split; discriminate|].
    split; [split; [discriminate|]|auto].
    intros [_ [other [Ho _]]]. discriminate Ho.
Qed.

Lemma sample_users_are_unique : uniqueUsers Sample.fresh.
Proof.
  unfold uniqueUsers. cbn.
  repeat split; repeat constructor; cbn; intuition discriminate.
Qed.

Lemma updateHandle_keeps_handles_unique_witness :
  let w' := snd (UserAccounts.updateHandle "u1" "alice_2" Sample.fresh) in
  let renamed := setHandle "alice_2" (Sample.user "u1" "kc1" "alice" ACTIVE) in
  uniqueUsers w'
  /\ user_findById "u1" w' = Some renamed
  /\ user_findByHandle "alice_2" w' = Some renamed.
Proof.
  cbv zeta.
  destruct (updateHandle_keeps_handles_unique
              "u1" "alice_2" Sample.fresh
              (snd (UserAccounts.updateHandle "u1" "alice_2" Sample.fresh))
              (Ok (setHandle "alice_2" (Sample.user "u1" "kc1" "alice" ACTIVE)))
              sample_users_are_unique eq_refl) as (Hunique & Hok & _).
  destruct (Hok _ eq_refl) as (_ & _ & _ & Hid & Hhandle & _).
  split; [exact Hunique|]. split; [exact Hid|exact Hhandle].
Defined.

Lemma updateHandleSchema_isValidHandle (handle : string) :
  UserController.updateHandleSchema handle = UserAccounts.isValidHandle handle.
Proof.
  unfold UserController.updateHandleSchema, UserAccounts.isValidHandle.
  destruct handle as [|c r]; [reflexivity|].
  cbn [String.eqb negb]. now rewrite andb_true_r.
Qed.

(** X17. The handle route and the service test the same format: the
    route's schema accepts exactly the handles [isValidHandle] accepts,
    so the service's own format error never reaches a caller of the
    route. A failing request wrote nothing; when it failed with a
    [ValidationError], the handle was malformed and the message is the
    route's "Invalid handle format". *)
Theorem handle_route_checks_what_the_service_checks
        (keycloakId handle : string) (w : World) :
  UserController.updateHandleSchema handle = UserAccounts.isValidHandle handle
  /\ forall e w',
       UserController.updateHandle keycloakId handle w = (Throw e, w') ->
       w' = w
       /\ (cls e = ValidationError ->
           UserAccounts.isValidHandle handle = false
           /\ message e = "Invalid handle format").
Proof.
  split; [apply updateHandleSchema_isValidHandle|].
  intros e w'. unfold UserController.updateHandle.
  rewrite updateHandleSchema_isValidHandle.
  destruct (UserAccounts.isValidHandle handle) eqn:Hvalid; cbn [negb].
  2:{ intros [= <- <-]. split; [reflexivity|]. intros _. split; reflexivity. }
  unfold bind at 1. rewrite getUserByKeycloakId_spec.
  destruct (user_findByKeycloakId keycloakId w) as [user|].
  2:{ intros [= <- <-]. split; [reflexivity|]. discriminate. }
  unfold bind at 1.
  destruct (UserAccounts.updateHandle (User.id user) handle w) as [[u|x] w1] eqn:Hup.
  { discriminate. }
  intros [= <- <-].
  revert Hup. unfold UserAccounts.updateHandle. rewrite Hvalid. cbn [negb].
  unfold bind, get, throw, user_update. intros Hup.
  assert (X : w1 = w /\ cls x <> ValidationError).
  { run_all; split; try reflexivity; discriminate. }
  destruct X as [-> Hcls]. split; [reflexivity|]. intros Y. contradiction.
Qed.

(** ** Role checks *)

Lemma includes_In (xs : list string) (x : string) :
  includes xs x = true <-> In x xs.
Proof.
  unfold includes. rewrite existsb_exists. split.
  - intros [y [Hy E]]. apply String.eqb_eq in E. now subst.
  - intros H. exists x. split; [exact H|apply String.eqb_refl].
Qed.

(** X18. [requireRole] lets a request pass exactly when it carries a
    user who holds at least one of the required roles. Without a user it
    answers 401, with a user holding none of the roles 403 and a message
    listing the roles; with no role required it lets nobody pass.
    Whoever passes the administrator check passes the authentication
    check, and the administrator check passes exactly the holders of
    the role "ADMIN". *)
Theorem requireRole_admits_exactly_role_holders
        (requiredRoles : list string) (user : option RequestUser) :
  (AuthMiddleware.requireRole requiredRoles user = Ok tt
   <-> exists u role, user = Some u /\ In role requiredRoles /\ In role (roles u))
  /\ (user = None ->
      exists e, AuthMiddleware.requireRole requiredRoles user = Throw e
                /\ cls e = UnauthorizedError /\ httpStatus (cls e) = 401)
  /\ (forall u, user = Some u ->
        (forall role, In role requiredRoles -> ~ In role (roles u)) ->
        exists e, AuthMiddleware.requireRole requiredRoles user = Throw e
                  /\ cls e = ForbiddenError /\ httpStatus (cls e) = 403
                  /\ message e = "Required role: " ++ join " or " requiredRoles)
  /\ AuthMiddleware.requireRole [] user <> Ok tt
  /\ (AuthMiddleware.requireAdmin user = Ok tt
      <-> exists u, user = Some u /\ In "ADMIN" (roles u))
  /\ (AuthMiddleware.requireAdmin user = Ok tt -> AuthMiddleware.requireAuth user = Ok tt).
Proof.
  assert (Hiff : forall required,
            AuthMiddleware.requireRole required user = Ok tt
            <-> exists u role, user = Some u /\ In role required /\ In role (roles u)).
  { intros required. unfold AuthMiddleware.requireRole.
    destruct user as [u|].
    2:{ split; [discriminate|]. intros (u & role & X & _). discriminate X. }
    destruct (existsb _ required) eqn:E; cbn [negb].
    - split; [|reflexivity]. intros _.
      apply existsb_exists in E as [role [Hr Hin]]. apply includes_In in Hin.
      now exists u, role.
    - split; [discriminate|]. intros (u' & role & [= <-] & Hr & Hin).
      exfalso. apply not_true_iff_false in E. apply E.
      apply existsb_exists. exists role. split; [exact Hr|now apply includes_In]. }
  split; [apply Hiff|]. split; [|split; [|split; [|split; [|]]]].
  - intros ->. eexists. repeat split.
  - intros u -> Hnone. unfold AuthMiddleware.requireRole.
    assert (E : existsb (fun role => includes (roles u) role) requiredRoles = false).
    { apply not_true_iff_false. intros X.
      apply existsb_exists in X as [role [Hr Hin]]. apply includes_In in Hin.
      exact (Hnone role Hr Hin). }
    rewrite E. cbn [negb]. eexists. repeat split.
  - intros X. apply Hiff in X as (u & role & _ & [] & _).
  - unfold AuthMiddleware.requireAdmin. rewrite Hiff. split.
    + intros (u & role & Hu & [<-|[]] & Hin). now exists u.
    + intros (u & Hu & Hin). exists u, "ADMIN". repeat split; auto. now left.
  - unfold AuthMiddleware.requireAdmin, AuthMiddleware.requireAuth. rewrite !Hiff.
    intros (u & role & Hu & [<-|[]] & Hin).
    exists u, "ADMIN". repeat split; auto. right. now left.
Qed.

(** ** Reading one transaction *)

(** X19. The transaction route shows a transaction only to its sender,
    to its receiver, and to callers whose token carries the role
    "ADMIN"; it never writes. For a stored transaction, any other caller
    is answered 403; an id that is not stored is answered 404 for every
    known caller, party or not. The answer to a party or administrator
    carries the row's own status, amount and parties. *)
Theorem transaction_is_shown_to_parties_and_admins
        (user : RequestUser) (id : string) (w : World) :
  (forall r w', TransactionQueries.getTransactionRoute user id w = (r, w') -> w' = w)
  /\ (forall reply w',
        TransactionQueries.getTransactionRoute user id w = (Ok reply, w') ->
        exists caller t,
          user_findByKeycloakId (userKeycloakId user) w = Some caller
          /\ transaction_findById id w = Some t
          /\ (Transaction.senderId t = User.id caller
              \/ Transaction.receiverId t = User.id caller
              \/ In "ADMIN" (roles user))
          /\ transactionReplyCode reply = 200
          /\ txId (transactionReplyData reply) = id
          /\ txStatus (transactionReplyData reply) = Transaction.status t
          /\ txAmount (transactionReplyData reply) = Decimal_toString (Transaction.amount t)
          /\ txSenderId (transactionReplyData reply) = Transaction.senderId t
          /\ txReceiverId (transactionReplyData reply) = Transaction.receiverId t)
  /\ (forall caller,
        user_findByKeycloakId (userKeycloakId user) w = Some caller ->
        (transaction_findById id w = None ->
         TransactionQueries.getTransactionRoute user id w
         = (Throw (newNotFoundError "Transaction"), w))
        /\ (forall t,
              transaction_findById id w = Some t ->
              Transaction.senderId t <> User.id caller ->
              Transaction.receiverId t <> User.id caller ->
              ~ In "ADMIN" (roles user) ->
              exists e,
                TransactionQueries.getTransactionRoute user id w = (Throw e, w)
                /\ cls e = ForbiddenError /\ httpStatus (cls e) = 403)).
Proof.
  unfold TransactionQueries.getTransactionRoute, TransactionQueries.getTransaction.
  split; [|split].
  - intros r w'. unfold bind, get, ret, throw. rewrite getUserByKeycloakId_spec.
    intros H. run_all; reflexivity.
  - intros reply w'. unfold bind, get, ret, throw. rewrite getUserByKeycloakId_spec.
    destruct (user_findByKeycloakId (userKeycloakId user) w) as [caller|];
      [|discriminate].
    destruct (transaction_findById id w) as [t|] eqn:Ht; [|discriminate].
    cbn [row sender receiver].
    destruct (negb (String.eqb (Transaction.senderId t) (User.id caller))
              && negb (String.eqb (Transaction.receiverId t) (User.id caller))
              && negb (includes (roles user) "ADMIN")) eqn:Hdenied; [discriminate|].
    destruct (user_findById (Transaction.senderId t) w) as [s|]; [|discriminate].
    destruct (user_findById (Transaction.receiverId t) w) as [x|]; [|discriminate].
    intros [= <- <-]. exists caller, t. cbn.
    split; [reflexivity|]. split; [reflexivity|]. split; [|repeat split].
    + apply andb_false_iff in Hdenied as [Hd|Hd];
        [apply andb_false_iff in Hd as [Hd|Hd]|];
        apply negb_false_iff in Hd.
      * left. now apply String.eqb_eq.
      * right. left. now apply String.eqb_eq.
      * right. right. now apply includes_In.
    + now apply (find_key Transaction.id) in Ht.
  - intros caller Hcaller. unfold bind, get, ret, throw.
    rewrite getUserByKeycloakId_spec, Hcaller. split.
    + intros ->. reflexivity.
    + intros t -> Hs Hr Hadmin. cbn [row sender receiver].
      apply String.eqb_neq in Hs, Hr. rewrite Hs, Hr.
      assert (X : includes (roles user) "ADMIN" = false).
      { apply not_true_iff_false. intros X. now apply includes_In in X. }
      rewrite X. cbn [negb andb]. eexists. repeat split.
Qed.

Lemma transaction_is_shown_to_parties_and_admins_witness :
  (exists e,
     TransactionQueries.getTransactionRoute Cases.asCarol "tx_0" Cases.threeUsers
     = (Throw e, Cases.threeUsers)
     /\ cls e = ForbiddenError /\ httpStatus (cls e) = 403)
  /\ TransactionQueries.getTransactionRoute Cases.asCarol "tx_1" Cases.threeUsers
     = (Throw (newNotFoundError "Transaction"), Cases.threeUsers).
Proof.
  destruct (transaction_is_shown_to_parties_and_admins
              Cases.asCarol "tx_0" Cases.threeUsers) as (_ & _ & H0).
  destruct (transaction_is_shown_to_parties_and_admins
              Cases.asCarol "tx_1" Cases.threeUsers) as (_ & _ & H1).
  split.
  - apply (proj2 (H0 Cases.carol eq_refl) Sample.settledTx); cbn; try reflexivity;
      intuition discriminate.
  - apply (proj1 (H1 Cases.carol eq_refl)). reflexivity.
Defined.

(** ** The system overview *)

Lemma count_partition {A : Type} (f g h : A -> bool) (l : list A) :
  (forall x, (f x = true /\ g x = false /\ h x = false)
             \/ (f x = false /\ g x = true /\ h x = false)
             \/ (f x = false /\ g x = false /\ h x = true)) ->
  count (fun _ => true) l = count f l + count g l + count h l.
Proof.
  intros H. unfold count. induction l as [|x r IH]; [reflexivity|].
  cbn [filter]. destruct (H x) as [(-> & -> & ->)|[(-> & -> & ->)|(-> & -> & ->)]];
    cbn [length]; lia.
Qed.

(** X20. The system overview counts every row once: the users it does
    not report as active or blocked are exactly the suspended ones, the
    wallets it does not report as active or frozen exactly the closed
    ones; no count is negative, and reading the overview writes
    nothing. *)
Theorem overview_counts_add_up (w : World) :
  exists o,
    AdminService.getSystemOverview w = (Ok o, w)
    /\ totalUsers o
       = activeUsers o + blockedUsers o
         + count (fun u => match User.status u with SUSPENDED => true | _ => false end)
                 (users w)
    /\ totalWallets o
       = activeWallets o + frozenWallets o
         + count (fun x => isClosed (Wallet.status x)) (wallets w)
    /\ 0 <= activeUsers o /\ 0 <= blockedUsers o
    /\ activeUsers o + blockedUsers o <= totalUsers o
    /\ 0 <= activeWallets o /\ 0 <= frozenWallets o
    /\ activeWallets o + frozenWallets o <= totalWallets o
    /\ totalUsers o = Z.of_nat (length (users w))
    /\ totalWallets o = Z.of_nat (length (wallets w)).
Proof.
  eexists. split; [reflexivity|].
  cbn [totalUsers activeUsers blockedUsers totalWallets activeWallets frozenWallets].
  assert (Hu := count_partition
                  (fun u => match User.status u with ACTIVE => true | _ => false end)
                  (fun u => isBlocked (User.status u))
                  (fun u => match User.status u with SUSPENDED => true | _ => false end)
                  (users w)).
  assert (Hw := count_partition
                  (fun x => match Wallet.status x with WALLET_ACTIVE => true | _ => false end)
                  (fun x => isFrozen (Wallet.status x))
                  (fun x => isClosed (Wallet.status x))
                  (wallets w)).
  rewrite Hu by (intros x; destruct (User.status x); cbn; tauto).
  rewrite Hw by (intros x; destruct (Wallet.status x); cbn; tauto).
  assert (Hpos : forall A (f : A -> bool) l, 0 <= count f l)
    by (intros; unfold count; lia).
  pose proof (Hpos _ (fun u => match User.status u with ACTIVE => true | _ => false end)
                   (users w)).
  pose proof (Hpos _ (fun u => isBlocked (User.status u)) (users w)).
  pose proof (Hpos _ (fun u => match User.status u with SUSPENDED => true | _ => false end)
                   (users w)).
  pose proof (Hpos _ (fun x => match Wallet.status x with WALLET_ACTIVE => true | _ => false end)
                   (wallets w)).
  pose proof (Hpos _ (fun x => isFrozen (Wallet.status x)) (wallets w)).
  pose proof (Hpos _ (fun x => isClosed (Wallet.status x)) (wallets w)).
  repeat split; try lia.
  - rewrite <- Hu by (intros x; destruct (User.status x); cbn; tauto).
    unfold count. f_equal. f_equal. clear. induction (users w); cbn; congruence.
  - rewrite <- Hw by (intros x; destruct (Wallet.status x); cbn; tauto).
    unfold count. f_equal. f_equal. clear. induction (wallets w); cbn; congruence.
Qed.

(** ** Creating a wallet *)

(** X21. A wallet created for a user stores the generated secret key so
    that it can be recovered: under a cipher that meets its contract and
    for a non-empty secret, [getDecryptedSecretKey] of the stored row
    gives the secret back. The row is appended with status ACTIVE and a
    zero balance, and is the row then found for the user and for the
    public key; nothing else changes. The user existed, had no wallet,
    and the public key was new; a creation that fails writes nothing. *)
Theorem createWallet_stores_a_recoverable_secret
        (G : AesGcm) (HG : AesGcmSpec G) (env : Env) (defaults : WalletDefaults)
        (pair : Keypair) (rnd : bytes) (userId : string) (w : World) :
  secretKey pair <> "" ->
  (forall x w',
     WalletAccounts.createWallet env defaults pair rnd userId w = (Ok x, w') ->
     WalletService.getDecryptedSecretKey env x = Ok (secretKey pair)
     /\ Wallet.userId x = userId
     /\ Wallet.stellarPublicKey x = publicKey pair
     /\ Wallet.status x = WALLET_ACTIVE
     /\ Wallet.balance x = 0
     /\ wallets w' = (wallets w ++ [x])%list
     /\ wallet_findByUserId userId w' = Some x
     /\ wallet_findByPublicKey (publicKey pair) w' = Some x
     /\ wallet_findByUserId userId w = None
     /\ wallet_findByPublicKey (publicKey pair) w = None
     /\ (exists u, In u (users w) /\ User.id u = userId)
     /\ users w' = users w /\ transactions w' = transactions w
     /\ jobs w' = jobs w /\ payments w' = payments w)
  /\ (forall e w',
        WalletAccounts.createWallet env defaults pair rnd userId w = (Throw e, w') ->
        w' = w /\ cls e = PrismaError).
Proof.
  intros Hsecret.
  unfold WalletAccounts.createWallet, wallet_create.
  cbn [Wallet.userId Wallet.stellarPublicKey].
  destruct (existsb (fun u => String.eqb (User.id u) userId) (users w)) eqn:Huser;
    cbn [negb].
  2:{ split; [discriminate|]. intros e w' [= <- <-]. now split. }
  destruct (existsb (fun o => String.eqb (Wallet.userId o) userId) (wallets w)) eqn:Hhas.
  { split; [discriminate|]. intros e w' [= <- <-]. now split. }
  destruct (existsb (fun o => String.eqb (Wallet.stellarPublicKey o) (publicKey pair))
                    (wallets w)) eqn:Hpk.
  { split; [discriminate|]. intros e w' [= <- <-]. now split. }
  split; [|discriminate].
  intros x w' [= <- <-].
  apply existsb_false_find in Hhas, Hpk.
  split.
  { unfold WalletService.getDecryptedSecretKey.
    cbn [Wallet.stellarSecretKey Wallet.encryptionIV].
    now apply decryptSecretKey_encryptSecretKey. }
  do 5 (split; [reflexivity|]).
  split.
  { unfold wallet_findByUserId. cbn [wallets].
    apply find_app_None; [exact Hhas|]. cbn. apply String.eqb_refl. }
  split.
  { unfold wallet_findByPublicKey. cbn [wallets].
    apply find_app_None; [exact Hpk|]. cbn. apply String.eqb_refl. }
  split; [exact Hhas|]. split; [exact Hpk|].
  split; [|repeat split].
  apply existsb_exists in Huser as [u [Hu E]]. exists u.
  split; [exact Hu|now apply String.eqb_eq].
Qed.

Lemma createWallet_stores_a_recoverable_secret_witness :
  let created :=
    WalletAccounts.createWallet (G := xorGcm) (Sample.env 0) Cases.defaults
      Cases.carolKeys Sample.rnd "u3" Cases.threeUsers in
  exists x,
    created = (Ok x, snd created)
    /\ WalletService.getDecryptedSecretKey (G := xorGcm) (Sample.env 0) x = Ok "SCAROL"
    /\ wallet_findByUserId "u3" (snd created) = Some x
    /\ Wallet.status x = WALLET_ACTIVE.
Proof.
  cbv zeta.
  destruct (createWallet_stores_a_recoverable_secret
              xorGcm xorGcm_spec (Sample.env 0) Cases.defaults Cases.carolKeys
              Sample.rnd "u3" Cases.threeUsers) as [Hok _]; [discriminate|].
  eexists. split; [reflexivity|].
  destruct (Hok _ _ eq_refl) as (Hsecret & _ & _ & Hstatus & _ & _ & Hfound & _).
  split; [exact Hsecret|]. split; [exact Hfound|exact Hstatus].
Defined.

(** ** Reading back what a decimal prints *)

Lemma takeDigits_digits (s rest : string) (acc : Z) (n : nat) :
  allDigits s = true -> noLeadingDigit rest = true ->
  takeDigits (s ++ rest) acc n = (digitsValue s acc, (n + String.length s)%nat, rest).
Proof.
  revert acc n. induction s as [|c r IH]; intros acc n Hs Hrest.
  - cbn. rewrite Nat.add_0_r. destruct rest as [|c r]; [reflexivity|].
    cbn in *. apply negb_true_iff in Hrest. now rewrite Hrest.
  - cbn in Hs. apply andb_prop in Hs as [Hc Hr]. cbn [append takeDigits].
    rewrite Hc, (IH _ _ Hr Hrest). cbn [digitsValue String.length]. f_equal. f_equal. lia.
Qed.

Lemma digitsValue_acc (s : string) (acc : Z) :
  digitsValue s acc = acc * 10 ^ Z.of_nat (String.length s) + digitsValue s 0.
Proof.
  revert acc. induction s as [|c r IH]; intros acc; cbn [digitsValue String.length].
  - cbn. lia.
  - rewrite IH, (IH (10 * 0 + _)). rewrite Nat2Z.inj_succ, Z.pow_succ_r by lia. lia.
Qed.

Lemma uint_digits (u : Decimal.uint) :
  allDigits (NilEmpty.string_of_uint u) = true
  /\ String.length (NilEmpty.string_of_uint u) = N.to_nat (DecimalPos.Unsigned.usize u)
  /\ forall acc,
       digitsValue (NilEmpty.string_of_uint u) acc
       = acc * 10 ^ Z.of_N (DecimalPos.Unsigned.usize u) + Z.of_N (DecimalPos.Unsigned.of_lu (Decimal.rev u)).
Proof.
  induction u as [|u [IH1 [IH2 IH3]]|u [IH1 [IH2 IH3]]|u [IH1 [IH2 IH3]]
                  |u [IH1 [IH2 IH3]]|u [IH1 [IH2 IH3]]|u [IH1 [IH2 IH3]]
                  |u [IH1 [IH2 IH3]]|u [IH1 [IH2 IH3]]|u [IH1 [IH2 IH3]]
                  |u [IH1 [IH2 IH3]]].
  1:{ repeat split. intros acc. cbn. lia. }
  all: split; [exact IH1|]; split;
    [cbn [NilEmpty.string_of_uint String.length DecimalPos.Unsigned.usize];
     rewrite IH2; lia|].
  all: intros acc; cbn [NilEmpty.string_of_uint digitsValue DecimalPos.Unsigned.usize];
    rewrite IH3; unfold Decimal.rev at 2; cbn [Decimal.revapp];
    rewrite DecimalPos.Unsigned.of_lu_revapp; cbn [DecimalPos.Unsigned.of_lu];
    rewrite N2Z.inj_succ, Z.pow_succ_r by lia;
    rewrite N2Z.inj_add, N2Z.inj_mul, N2Z.inj_pow;
    change (digitValue _) with 0 || change (digitValue _) with 1
    || change (digitValue _) with 2 || change (digitValue _) with 3
    || change (digitValue _) with 4 || change (digitValue _) with 5
    || change (digitValue _) with 6 || change (digitValue _) with 7
    || change (digitValue _) with 8 || change (digitValue _) with 9;
    cbn [N.mul N.add Z.of_N]; lia.
Qed.

Lemma natString_digits (z : Z) :
  0 <= z ->
  allDigits (natString z) = true
  /\ (0 < String.length (natString z))%nat
  /\ digitsValue (natString z) 0 = z.
Proof.
  intros Hz. unfold natString.
  set (u := N.to_uint (Z.to_N z)).
  assert (Hu : u <> Decimal.Nil).
  { unfold u. destruct (Z.to_N z); cbn; [discriminate|apply DecimalPos.Unsigned.to_uint_nonnil]. }
  assert (Hv : Z.of_N (N.of_uint u) = z).
  { unfold u. rewrite DecimalN.Unsigned.of_to. lia. }
  clearbody u.
  assert (E : NilZero.string_of_uint u = NilEmpty.string_of_uint u)
    by (destruct u; [contradiction|reflexivity..]).
  rewrite E. destruct (uint_digits u) as (H1 & H2 & H3).
  split; [exact H1|]. split.
  - rewrite H2. destruct u; [contradiction|cbn; lia..].
  - rewrite H3. cbn [Z.mul]. rewrite <- DecimalPos.Unsigned.of_uint_alt. exact Hv.
Qed.

Lemma digit_of (m : Z) :
  0 <= m < 10 ->
  isDigit (ascii_of_N (Z.to_N (48 + m))) = true
  /\ digitValue (ascii_of_N (Z.to_N (48 + m))) = m.
Proof.
  intros H.
  assert (X : m = 0 \/ m = 1 \/ m = 2 \/ m = 3 \/ m = 4 \/ m = 5 \/ m = 6 \/ m = 7
              \/ m = 8 \/ m = 9) by lia.
  repeat (destruct X as [->|X]; [split; reflexivity|]). subst. split; reflexivity.
Qed.

Lemma fracDigits_digits (k : nat) (f : Z) :
  0 <= f ->
  allDigits (fracDigits k f) = true
  /\ String.length (fracDigits k f) = k
  /\ digitsValue (fracDigits k f) 0 = f mod 10 ^ Z.of_nat k.
Proof.
  intros Hf. induction k as [|k (IH1 & IH2 & IH3)].
  - repeat split. cbn. now rewrite Z.mod_1_r.
  - cbn [fracDigits allDigits String.length digitsValue].
    assert (Hm : 0 <= (f / 10 ^ Z.of_nat k) mod 10 < 10) by (apply Z.mod_pos_bound; lia).
    destruct (digit_of _ Hm) as [Hd Hv]. rewrite Hd, IH1, IH2, Hv.
    repeat split. rewrite digitsValue_acc, IH2, IH3.
    rewrite Nat2Z.inj_succ, Z.pow_succ_r by lia.
    rewrite (Z.mul_comm 10 (10 ^ Z.of_nat k)).
    rewrite (Z.rem_mul_r f (10 ^ Z.of_nat k) 10) by lia. lia.
Qed.

Lemma stripZeros_digits (s : string) :
  allDigits s = true ->
  allDigits (stripZeros s) = true
  /\ (String.length (stripZeros s) <= String.length s)%nat
  /\ digitsValue s 0
     = digitsValue (stripZeros s) 0
       * 10 ^ Z.of_nat (String.length s - String.length (stripZeros s)).
Proof.
  induction s as [|c r IH]; intros Hs.
  - split; [reflexivity|]. split; [reflexivity|]. cbn. lia.
  - cbn in Hs. apply andb_prop in Hs as [Hc Hr].
    destruct (IH Hr) as (IH1 & IH2 & IH3).
    cbn [stripZeros]. cbn [digitsValue]. rewrite (digitsValue_acc r), IH3.
    destruct (stripZeros r) as [|c' r'] eqn:E.
    + cbn [digitsValue] in *. destruct (Ascii.eqb c "0") eqn:E0.
      * apply Ascii.eqb_eq in E0. subst c.
        split; [reflexivity|]. split; [cbn; lia|]. cbn. lia.
      * cbn [allDigits String.length digitsValue]. rewrite Hc.
        split; [reflexivity|]. split; [lia|]. rewrite Nat.sub_0_r.
        replace (S (String.length r) - 1)%nat with (String.length r) by lia. lia.
    + cbn [allDigits]. rewrite Hc. cbn [allDigits] in IH1. rewrite IH1.
      split; [reflexivity|]. split; [cbn [String.length] in *; lia|].
      cbn [digitsValue]. rewrite (digitsValue_acc r' (10 * 0 + digitValue c')).
      rewrite (digitsValue_acc r' (10 * (10 * 0 + digitValue c) + digitValue c')).
      cbn [String.length] in *.
      replace (S (String.length r) - S (S (String.length r')))%nat
        with (String.length r - S (String.length r'))%nat by lia.
      set (e := Z.of_nat (String.length r - S (String.length r'))).
      replace (Z.of_nat (String.length r))
        with (Z.of_nat (String.length r') + 1 + e) by (unfold e; lia).
      rewrite !Z.pow_add_r by (unfold e; lia). lia.
Qed.

Lemma digit_is_no_sign (c : ascii) (r : string) :
  isDigit c = true ->
  trimStart (String c r) = String c r /\ takeSign (String c r) = (false, String c r).
Proof.
  destruct c as [[] [] [] [] [] [] [] []]; cbn; try discriminate; intros _; split; reflexivity.
Qed.

Lemma parseFloat_digits (s : string) :
  (exists c r, s = String c r /\ isDigit c = true) ->
  parseFloat s
  = (let '(ip, ni, s2) := takeDigits s 0 0 in
     let '(fp, nf, s3) :=
       match s2 with
       | String "." r => takeDigits r 0 0
       | _ => (0, 0%nat, s2)
       end in
     if (ni + nf =? 0)%nat then None
     else Some (Qred (((ip * 10 ^ Z.of_nat nf + fp) # Z.to_pos (10 ^ Z.of_nat nf))
                      * Qpower (inject_Z 10) (takeExponent s3))))
  /\ parseFloat (String "-" s)
     = (let '(ip, ni, s2) := takeDigits s 0 0 in
        let '(fp, nf, s3) :=
          match s2 with
          | String "." r => takeDigits r 0 0
          | _ => (0, 0%nat, s2)
          end in
        if (ni + nf =? 0)%nat then None
        else Some (Qopp (Qred (((ip * 10 ^ Z.of_nat nf + fp) # Z.to_pos (10 ^ Z.of_nat nf))
                               * Qpower (inject_Z 10) (takeExponent s3))))).
Proof.
  intros (c & r & -> & Hc). destruct (digit_is_no_sign c r Hc) as [Ht Hs].
  unfold parseFloat. rewrite Ht, Hs.
  change (trimStart (String "-" (String c r))) with (String "-" (String c r)).
  change (takeSign (String "-" (String c r))) with (true, String c r).
  split.
  - destruct (takeDigits (String c r) 0 0) as [[ip ni] s2].
    destruct (match s2 with String "." r0 => _ | _ => _ end) as [[fp nf] s3].
    reflexivity.
  - destruct (takeDigits (String c r) 0 0) as [[ip ni] s2].
    destruct (match s2 with String "." r0 => _ | _ => _ end) as [[fp nf] s3].
    reflexivity.
Qed.

Lemma parseFloat_neg (s : string) :
  (exists c r, s = String c r /\ isDigit c = true) ->
  parseFloat (String "-" s)
  = match parseFloat s with Some v => Some (Qopp v) | None => None end.
Proof.
  intros H. destruct (parseFloat_digits s H) as [-> ->].
  destruct (takeDigits s 0 0) as [[ip ni] s2].
  destruct (match s2 with String "." r0 => _ | _ => _ end) as [[fp nf] s3].
  destruct (ni + nf =? 0)%nat; reflexivity.
Qed.

Lemma natString_head (z : Z) (rest : string) :
  0 <= z -> exists c r, natString z ++ rest = String c r /\ isDigit c = true.
Proof.
  intros Hz. destruct (natString_digits z Hz) as (Hd & Hl & _).
  destruct (natString z) as [|c r]; [cbn in Hl; lia|].
  cbn in Hd. apply andb_prop in Hd as [Hc _]. exists c, (r ++ rest). now split.
Qed.

Lemma Decimal_toString_neg (d : Decimal) :
  d < 0 -> Decimal_toString d = String "-" (Decimal_toString (- d)).
Proof.
  intros Hd. unfold Decimal_toString.
  rewrite Z.abs_opp.
  assert (E1 : (d <? 0) = true) by (apply Z.ltb_lt; lia).
  assert (E2 : (- d <? 0) = false) by (apply Z.ltb_ge; lia).
  rewrite E1, E2. destruct (_ && _); reflexivity.
Qed.

Lemma Decimal_toString_head (d : Decimal) :
  0 <= d -> exists c r, Decimal_toString d = String c r /\ isDigit c = true.
Proof.
  intros Hd. unfold Decimal_toString.
  assert (E : (d <? 0) = false) by (apply Z.ltb_ge; lia). rewrite E.
  rewrite Z.abs_eq by lia.
  destruct (_ && _).
  - cbn [append]. apply natString_head. apply Z.mod_pos_bound. reflexivity.
  - cbn [append]. apply natString_head. apply Z.div_pos; [lia|reflexivity].
Qed.

Lemma append_empty (s : string) : s ++ "" = s.
Proof. induction s as [|c r IH]; cbn; congruence. Qed.

Lemma parseFloat_Decimal_toString_nonneg (d : Decimal) :
  0 <= d -> parseFloat (Decimal_toString d) = Some (decimalValue d).
Proof.
  intros Hd.
  rewrite (proj1 (parseFloat_digits _ (Decimal_toString_head d Hd))).
  unfold Decimal_toString, decimalValue.
  assert (E : (d <? 0) = false) by (apply Z.ltb_ge; lia). rewrite E.
  rewrite Z.abs_eq by lia. cbn [append].
  assert (Hdiv : 0 <= d / unitsPerXlm) by (apply Z.div_pos; [lia|reflexivity]).
  assert (Hmod : 0 <= d mod unitsPerXlm < unitsPerXlm)
    by (apply Z.mod_pos_bound; reflexivity).
  pose proof (Z.div_mod d unitsPerXlm ltac:(discriminate)) as Hdm.
  set (ip := d / unitsPerXlm) in *. set (fp := d mod unitsPerXlm) in *.
  destruct ((ip =? 0) && (0 <? fp) && (fp <? 10)) eqn:Hsmall.
  - apply andb_prop in Hsmall as [Hsmall H10]. apply andb_prop in Hsmall as [H0 Hpos].
    apply Z.eqb_eq in H0. apply Z.ltb_lt in Hpos, H10.
    destruct (natString_digits fp (proj1 Hmod)) as (Ha & Hl & Hv).
    rewrite (takeDigits_digits (natString fp) "e-7" 0 0 Ha eq_refl), Hv.
    cbn [Nat.add].
    assert (En : (String.length (natString fp) + 0 =? 0)%nat = false)
      by (apply Nat.eqb_neq; lia).
    rewrite En. f_equal. apply Qred_complete.
    change (takeExponent "e-7") with (-7).
    change (Qpower (inject_Z 10) (-7)) with (1 # 10000000).
    unfold Qeq, Qmult. cbn [Qnum Qden Z.of_nat Z.pow Z.to_pos Z.pow_pos Pos.iter].
    unfold unitsPerXlm in *. rewrite H0 in Hdm. lia.
  - destruct (natString_digits ip Hdiv) as (Ha & Hl & Hv).
    destruct (fracDigits_digits 7 fp (proj1 Hmod)) as (Fa & Fl & Fv).
    destruct (stripZeros_digits _ Fa) as (Sa & Sl & Sv).
    rewrite Fv, Fl in Sv. rewrite Fl in Sl.
    change (10 ^ Z.of_nat 7) with unitsPerXlm in Sv.
    rewrite (Z.mod_small fp) in Sv by lia.
    destruct (stripZeros (fracDigits 7 fp)) as [|c r] eqn:Efs.
    + rewrite (takeDigits_digits (natString ip) "" 0 0 Ha eq_refl), Hv.
      assert (En : (0 + String.length (natString ip) + 0 =? 0)%nat = false)
        by (apply Nat.eqb_neq; lia).
      rewrite En. f_equal. apply Qred_complete.
      change (takeExponent "") with 0. cbn [Qpower].
      cbn [digitsValue] in Sv.
      unfold Qeq, Qmult. cbn [Qnum Qden Z.of_nat Z.pow Z.to_pos Z.pow_pos Pos.iter].
      unfold unitsPerXlm in *. lia.
    + change ("." ++ String c r) with (String "." (String c r)).
      rewrite (takeDigits_digits (natString ip) (String "." (String c r)) 0 0 Ha eq_refl), Hv.
      rewrite <- (append_empty (String c r)) at 1.
      rewrite (takeDigits_digits (String c r) "" 0 0 Sa eq_refl).
      set (nf := String.length (String c r)) in *.
      set (fv := digitsValue (String c r) 0) in *.
      assert (En : (0 + String.length (natString ip) + (0 + nf) =? 0)%nat = false)
        by (apply Nat.eqb_neq; lia).
      rewrite En. f_equal. apply Qred_complete.
      change (takeExponent "") with 0. cbn [Qpower].
      assert (Hp : 0 < 10 ^ Z.of_nat (0 + nf)) by (apply Z.pow_pos_nonneg; lia).
      unfold Qeq, Qmult. cbn [Qnum Qden].
      rewrite Pos.mul_1_r, Z.mul_1_r, Z2Pos.id by exact Hp.
      cbn [Nat.add] in *.
      assert (H7 : unitsPerXlm = 10 ^ Z.of_nat (7 - nf) * 10 ^ Z.of_nat nf).
      { rewrite <- Z.pow_add_r by lia. replace (Z.of_nat (7 - nf) + Z.of_nat nf) with 7 by lia.
        reflexivity. }
      change (Z.pos 10000000) with unitsPerXlm.
      rewrite Hdm, Sv. rewrite H7. ring.
Qed.

Lemma parseFloat_Decimal_toString (d : Decimal) :
  parseFloat (Decimal_toString d) = Some (decimalValue d).
Proof.
  destruct (Z.lt_ge_cases d 0) as [Hneg|Hpos].
  - rewrite (Decimal_toString_neg d Hneg).
    rewrite parseFloat_neg by (apply Decimal_toString_head; lia).
    rewrite parseFloat_Decimal_toString_nonneg by lia.
    unfold decimalValue. rewrite <- Qred_opp. f_equal. f_equal.
    unfold Qopp. cbn [Qnum Qden]. now rewrite Z.opp_involutive.
  - now apply parseFloat_Decimal_toString_nonneg.
Qed.

Lemma decimalValue_eq (d : Decimal) : decimalValue d == d # 10000000.
Proof. apply Qred_correct. Qed.

(** ** Intake, in exact arithmetic *)




Lemma safeNumber_nonneg (q : Q) : safeNumber q = true -> (0 <= q)%Q.
Proof.
  unfold safeNumber, safeDecimal. intros H.
  apply andb_prop in H as [H Hq]. apply andb_prop in H as [Hd _].
  apply Z.leb_le in Hd. apply Qeq_bool_iff in Hq. rewrite Hq.
  unfold Qle. cbn. lia.
Qed.



(** ** Reading a balance after it was synchronised *)

Lemma toDecimal_nonneg (b : Q) : (0 <= b)%Q -> 0 <= toDecimal b.
Proof.
  intros Hb. unfold Qle in Hb. cbn in Hb. unfold toDecimal, unitsPerXlm.
  destruct b as [n d]. cbn [Qnum Qden] in *.
  assert (Hn : 0 <= n) by lia.
  destruct (Z.eq_dec n 0) as [->|Hne]; [cbn; lia|].
  rewrite Z.sgn_pos by lia. rewrite Z.mul_1_l. apply Z.div_pos; lia.
Qed.

Lemma toFixed7_nonneg (b : Q) :
  (0 <= b)%Q ->
  toFixed7 (Some b)
  = natString (toDecimal b / unitsPerXlm) ++ "." ++ fracDigits 7 (toDecimal b mod unitsPerXlm).
Proof.
  intros Hb. unfold Qle in Hb. cbn in Hb. unfold toFixed7, toDecimal, unitsPerXlm.
  destruct b as [n d]. cbn [Qnum Qden] in *.
  assert (Hn : 0 <= n) by lia.
  assert (E : (n <? 0) = false) by (apply Z.ltb_ge; lia). rewrite E.
  destruct (Z.eq_dec n 0) as [->|Hne].
  - assert (R : (2 * Z.abs (0 * 10000000) + Z.pos d) / (2 * Z.pos d) = 0)
      by (apply Z.div_small; lia).
    rewrite R. reflexivity.
  - rewrite Z.sgn_pos by lia. rewrite Z.mul_1_l. reflexivity.
Qed.

Lemma toFixed7_decimalValue (d : Decimal) :
  0 <= d ->
  toFixed7 (Some (decimalValue d))
  = natString (d / unitsPerXlm) ++ "." ++ fracDigits 7 (d mod unitsPerXlm).
Proof.
  intros Hd. pose proof (decimalValue_eq d) as Heq.
  unfold toFixed7, unitsPerXlm. destruct (decimalValue d) as [n p].
  unfold Qeq in Heq. cbn [Qnum Qden] in *.
  assert (Hn : 0 <= n) by nia.
  assert (E : (n <? 0) = false) by (apply Z.ltb_ge; lia). rewrite E.
  rewrite Z.abs_eq by lia.
  assert (R : (2 * (n * 10000000) + Z.pos p) / (2 * Z.pos p) = d).
  { rewrite Heq. symmetry. apply (Z.div_unique _ _ _ (Z.pos p)); lia. }
  rewrite R. reflexivity.
Qed.

Lemma cached_balance_prints_like_the_ledger (b : Q) :
  (0 <= b)%Q ->
  toFixed7 (parseFloat (Decimal_toString (toDecimal b))) = toFixed7 (Some b).
Proof.
  intros Hb. rewrite parseFloat_Decimal_toString.
  rewrite toFixed7_decimalValue by now apply toDecimal_nonneg.
  now rewrite toFixed7_nonneg.
Qed.

Lemma find_map_preserved {A : Type} (test : A -> bool) (f : A -> A) (l : list A) :
  (forall x, test (f x) = test x) ->
  find test (map f l) = option_map f (find test l).
Proof.
  intros H. induction l as [|x r IH]; [reflexivity|].
  cbn. rewrite H. destruct (test x); [reflexivity|exact IH].
Qed.

Lemma syncBalance_ok_state env walletId w live w' :
  WalletService.syncBalance env walletId w = (Ok live, w') ->
  exists wallet b,
    wallet_findById walletId w = Some wallet
    /\ StellarService.getBalance env (Wallet.stellarPublicKey wallet) w = (Ok live, w)
    /\ parseFloat live = Some b
    /\ w' = setWallets
              (map (fun o => if String.eqb (Wallet.id o) walletId
                             then WalletService.setBalance (toDecimal b) o else o)
                   (wallets w)) w.
Proof.
  unfold WalletService.syncBalance. unfold bind at 1, get.
  destruct (wallet_findById walletId w) as [wallet|] eqn:Hw; [|discriminate].
  unfold bind at 1. rewrite getBalance_total.
  destruct (fst (StellarService.getBalance env (Wallet.stellarPublicKey wallet) w))
    as [x|x] eqn:Hg; [|discriminate].
  destruct (parseFloat x) as [b|] eqn:Hb; [|discriminate].
  unfold bind, wallet_update, ret. rewrite Hw. intros [= <- <-].
  exists wallet, b. rewrite getBalance_total, Hg. auto.
Qed.

(** X23. After a wallet's balance was synchronised, reading the
    owner's balance reports it as synced: for a ledger balance of at
    most 7 decimals below 10^8, as the ledger reports balances, and as
    long as the ledger's answer stays the same, the cached balance and
    the live balance print to the same string, which is the ledger's
    balance written with 7 decimals. (A ledger answer with more
    decimals is cached rounded, and need not read as synced.) *)
Theorem synchronised_balance_reads_as_synced
        (env : Env) (userId : string) (w w' : World) (wallet : Wallet.t)
        (live : string) (b : Q) :
  wallet_findByUserId userId w = Some wallet ->
  wallet_findById (Wallet.id wallet) w = Some wallet ->
  WalletService.syncBalance env (Wallet.id wallet) w = (Ok live, w') ->
  parseFloat live = Some b ->
  safeNumber b = true ->
  WalletService.getBalance env userId w'
  = (Ok {| viewBalance := toFixed7 (Some b);
           stellarBalance := toFixed7 (Some b);
           synced := true |}, w').
Proof.
  intros Hu Hid Hsync Hb Hsafe. pose proof (safeNumber_nonneg b Hsafe) as Hpos.
  destruct (syncBalance_ok_state _ _ _ _ _ Hsync) as (x & b' & Hx & Hg & Hb' & ->).
  rewrite Hid in Hx. injection Hx as <-. rewrite Hb in Hb'. injection Hb' as <-.
  unfold WalletService.getBalance. unfold bind at 1.
  rewrite getWalletByUserId_spec. unfold wallet_findByUserId in *.
  cbn [wallets setWallets].
  rewrite find_map_preserved
    by (intros o; destruct (String.eqb (Wallet.id o) (Wallet.id wallet)); reflexivity).
  rewrite Hu. cbn [option_map]. rewrite String.eqb_refl.
  unfold bind at 1. cbn [WalletService.setBalance Wallet.stellarPublicKey Wallet.balance].
  rewrite getBalance_total.
  rewrite (getBalance_same_payments env _ _ w) by reflexivity.
  rewrite Hg. cbn [fst]. unfold ret.
  rewrite Hb, (cached_balance_prints_like_the_ledger b Hpos), String.eqb_refl.
  reflexivity.
Qed.

Lemma synchronised_balance_reads_as_synced_witness :
  let w' := snd (WalletService.syncBalance (Sample.env 0) "w1" Sample.fresh) in
  WalletService.getBalance (Sample.env 0) "u1" w'
  = (Ok {| viewBalance := toFixed7 (Some (inject_Z 40));
           stellarBalance := toFixed7 (Some (inject_Z 40));
           synced := true |}, w').
Proof.
  cbv zeta.
  apply (synchronised_balance_reads_as_synced
           (Sample.env 0) "u1" Sample.fresh _
           (Sample.wallet (G := xorGcm) "w1" "u1" "GALICE" "SALICE"
              (50 * unitsPerXlm) WALLET_ACTIVE)
           "40.0000000" (inject_Z 40)).
  - reflexivity.
  - reflexivity.
  - reflexivity.
  - reflexivity.
  - reflexivity.
Defined.

(** ** Funding twice on one day *)

Lemma Forall2_find {A : Type} (R : A -> A -> Prop) (test : A -> bool)
      (l l' : list A) (x : A) :
  Forall2 R l l' ->
  (forall o o', R o o' -> test o' = test o) ->
  find test l = Some x ->
  exists x', find test l' = Some x' /\ R x x'.
Proof.
  intros HF Htest. induction HF as [|o o' l l' Ho HF IH]; [discriminate|].
  cbn. rewrite (Htest _ _ Ho). destruct (test o).
  - intros [= <-]. now exists o'.
  - exact IH.
Qed.

Lemma toDecimal_at_least (k : Z) (s : Q) :
  0 <= k -> (inject_Z k <= s)%Q -> k * unitsPerXlm <= toDecimal s.
Proof.
  intros Hk Hs. unfold Qle in Hs. cbn in Hs. unfold toDecimal, unitsPerXlm.
  destruct s as [n d]. cbn [Qnum Qden] in *.
  assert (Hn : 0 <= n) by nia.
  destruct (Z.eq_dec n 0) as [->|Hne].
  - assert (k = 0) by nia. subst. cbn. lia.
  - rewrite Z.sgn_pos, Z.abs_eq by lia. rewrite Z.mul_1_l.
    apply Z.div_le_lower_bound; nia.
Qed.

Lemma decimalValue_at_least (k : Z) (d : Decimal) :
  k * unitsPerXlm <= d -> (inject_Z k <= decimalValue d)%Q.
Proof.
  intros H. rewrite decimalValue_eq. unfold Qle, unitsPerXlm in *. cbn. lia.
Qed.

Lemma currentDailyFundingSum_nonneg (env : Env) (wallet : Wallet.t) :
  0 <= Wallet.dailyFundingSum wallet ->
  exists c, WalletService.currentDailyFundingSum env wallet = Some c /\ (0 <= c)%Q.
Proof.
  intros H. unfold WalletService.currentDailyFundingSum.
  destruct (1 <=? WalletService.daysDiff env wallet).
  - exists (inject_Z 0). split; [reflexivity|]. discriminate.
  - rewrite parseFloat_Decimal_toString. eexists. split; [reflexivity|].
    apply (decimalValue_at_least 0). cbn. exact H.
Qed.

(** X24. While the daily cap is below two faucet grants, as the default
    cap of 10,000 is, a wallet is funded at most once a day: after a
    successful funding, every request made before the counters' next
    reset is refused with [RateLimitExceededError] or
    [LimitExceededError] and writes nothing, whatever the rate limit
    is. The running total starts from a sum that is not negative. *)
Theorem second_funding_the_same_day_is_refused
        (env1 env2 : Env) (userId : string) (w w1 : World)
        (wallet : Wallet.t) (r : FundResult) :
  wallet_findByUserId userId w = Some wallet ->
  0 <= Wallet.dailyFundingSum wallet ->
  WalletService.fundWallet env1 userId w = (Ok r, w1) ->
  now env2 - (if 1 <=? WalletService.daysDiff env1 wallet then now env1
              else Wallet.lastResetDate wallet) < msPerDay ->
  (dailyCapXlm (config env2) < inject_Z 20000)%Q ->
  (exists e, WalletService.fundWallet env2 userId w1 = (Throw e, w1)
             /\ (cls e = RateLimitExceededError \/ cls e = LimitExceededError))
  /\ (dailyCapXlm defaultConfig < inject_Z 20000)%Q.
Proof.
  intros Hw Hsum Hfund Hday Hcap. split; [|reflexivity].
  destruct (fundWallet_ok_rows _ _ _ _ _ Hfund)
    as (wallet' & b & s & Hw' & Hopen & _ & _ & _ & _ & Hs & Hrows & _).
  rewrite Hw in Hw'. injection Hw' as <-.
  assert (Hfind : exists stored,
            find (fun x => String.eqb (Wallet.userId x) userId) (wallets w1) = Some stored
            /\ custodyKeys stored = custodyKeys wallet
            /\ (Wallet.id wallet = Wallet.id wallet ->
                Wallet.balance stored = toDecimal b
                /\ Wallet.lastFundedAt stored = Some (now env1)
                /\ Wallet.fundingCount stored
                   = WalletService.currentFundingCount env1 wallet + 1
                /\ Wallet.dailyFundingSum stored = toDecimal s
                /\ Wallet.lastResetDate stored
                   = (if 1 <=? WalletService.daysDiff env1 wallet then now env1
                      else Wallet.lastResetDate wallet))).
  { destruct (Forall2_find _ (fun x => String.eqb (Wallet.userId x) userId)
                _ _ wallet Hrows) as (stored & Hstored & Hkeys & _ & Hsame).
    - intros o o' (Hk & _). unfold custodyKeys in Hk. now injection Hk as _ -> _ _ _ _.
    - exact Hw.
    - exists stored. auto. }
  destruct Hfind as (stored & Hstored & Hkeys & Hsame).
  destruct (Hsame eq_refl) as (_ & _ & Hcount & Hdaily & Hreset).
  assert (Hstatus : Wallet.status stored = Wallet.status wallet)
    by (unfold custodyKeys in Hkeys; now injection Hkeys).
  destruct (currentDailyFundingSum_nonneg env1 wallet Hsum) as (c & Hc & Hc0).
  assert (Es : s = Qred (c + WalletService.friendbotAmount))
    by (rewrite Hc in Hs; unfold numAdd in Hs; congruence).
  assert (Hbig : (inject_Z 10000 <= decimalValue (Wallet.dailyFundingSum stored))%Q).
  { apply decimalValue_at_least. rewrite Hdaily.
    apply toDecimal_at_least; [lia|]. rewrite Es.
    eapply Qle_trans; [|apply Qle_lteq; right; symmetry; apply Qred_correct].
    unfold WalletService.friendbotAmount.
    rewrite <- (Qplus_0_l (inject_Z 10000)) at 1. apply Qplus_le_compat; [exact Hc0|].
    apply Qle_refl. }
  unfold WalletService.fundWallet, bind.
  rewrite getWalletByUserId_spec. unfold wallet_findByUserId in *. rewrite Hstored.
  rewrite Hstatus.
  destruct (isFrozen (Wallet.status wallet)) eqn:Hfrozen.
  { destruct (Wallet.status wallet); try discriminate. contradiction. }
  assert (Hsameday : (1 <=? WalletService.daysDiff env2 stored) = false).
  { apply not_true_iff_false. intros X. apply reset_iff in X. rewrite Hreset in X. lia. }
  unfold WalletService.currentFundingCount, WalletService.currentDailyFundingSum.
  rewrite Hsameday, parseFloat_Decimal_toString.
  destruct (rateLimitMax (config env2) <=? Wallet.fundingCount stored).
  { eexists. split; [reflexivity|]. now left. }
  assert (Hover : numGt (numAdd (Some (decimalValue (Wallet.dailyFundingSum stored)))
                                (Some WalletService.friendbotAmount))
                        (Some (dailyCapXlm (config env2))) = true).
  { unfold numGt, numLt, numAdd. apply negb_true_iff, not_true_iff_false.
    intros X. apply Qle_bool_iff in X.
    assert (X' : (decimalValue (Wallet.dailyFundingSum stored) + inject_Z 10000
                  <= dailyCapXlm (config env2))%Q).
    { eapply Qle_trans; [|exact X]. apply Qle_lteq. right. symmetry.
      apply Qred_correct. }
    clear X. rename X' into X.
    assert (Y : (inject_Z 20000 <= dailyCapXlm (config env2))%Q).
    { eapply Qle_trans; [|exact X].
      change (inject_Z 20000) with (inject_Z 10000 + inject_Z 10000)%Q.
      apply Qplus_le_compat; [exact Hbig|apply Qle_refl]. }
    apply Qle_not_lt in Y. contradiction. }
  rewrite Hover. eexists. split; [reflexivity|]. now right.
Qed.

Lemma second_funding_the_same_day_is_refused_witness :
  (exists e, WalletService.fundWallet Sample.twoDaysLater "u1" Sample.refunded
             = (Throw e, Sample.refunded)
             /\ (cls e = RateLimitExceededError \/ cls e = LimitExceededError))
  /\ (dailyCapXlm defaultConfig < inject_Z 20000)%Q.
Proof.
  apply (second_funding_the_same_day_is_refused
           Sample.twoDaysLater Sample.twoDaysLater "u1" Sample.funded Sample.refunded
           Sample.fundedWallet
           {| fundSuccess := true; fundBalance := "40.0000000";
              fundMessage := "Wallet funded successfully" |}).
  - reflexivity.
  - discriminate.
  - reflexivity.
  - reflexivity.
  - reflexivity.
Defined.

(** ** The amount of a payment, from the request to the stored row *)

Lemma split_nonempty (sep : ascii) (s : string) : split sep s <> [].
Proof.
  destruct s as [|c r]; cbn; [discriminate|].
  destruct (Ascii.eqb c sep); [discriminate|].
  destruct (split sep r); discriminate.
Qed.

Lemma split_one (sep : ascii) (s a : string) :
  split sep s = [a] -> s = a.
Proof.
  revert a. induction s as [|c r IH]; intros a; cbn.
  - now intros [= <-].
  - destruct (Ascii.eqb c sep).
    + intros [= _ H]. now apply split_nonempty in H.
    + destruct (split sep r) as [|h [|h2 t]] eqn:E; try discriminate.
      * now apply split_nonempty in E.
      * intros [= <-]. f_equal. now apply IH.
Qed.

Lemma split_two (sep : ascii) (s a b : string) :
  split sep s = [a; b] -> s = a ++ String sep b.
Proof.
  revert a. induction s as [|c r IH]; intros a; cbn; [discriminate|].
  destruct (Ascii.eqb c sep) eqn:Ec.
  - apply Ascii.eqb_eq in Ec. subst c. intros [= <- Hb]. cbn. f_equal.
    now apply split_one in Hb.
  - destruct (split sep r) as [|h [|h2 [|h3 t]]] eqn:E; try discriminate.
    intros [= <- <-]. cbn. f_equal. now apply IH.
Qed.

Lemma digitValue_nonneg (c : ascii) : isDigit c = true -> 0 <= digitValue c.
Proof.
  unfold isDigit, digitValue. intros H. apply andb_prop in H as [H _].
  apply N.leb_le in H. lia.
Qed.

Lemma digitsValue_nonneg (s : string) (acc : Z) :
  allDigits s = true -> 0 <= acc -> 0 <= digitsValue s acc.
Proof.
  revert acc. induction s as [|c r IH]; intros acc Hs Hacc; [exact Hacc|].
  cbn in Hs. apply andb_prop in Hs as [Hc Hr]. cbn [digitsValue].
  apply IH; [exact Hr|]. pose proof (digitValue_nonneg c Hc). lia.
Qed.

(** A number with at most 7 decimals is stored as it is. *)
Lemma toDecimal_exact (q : Q) (d : Decimal) :
  q == d # 10000000 -> toDecimal q = d.
Proof.
  unfold Qeq, toDecimal, unitsPerXlm. destruct q as [n p]. cbn [Qnum Qden].
  intros H. rewrite H.
  destruct (Z.lt_trichotomy d 0) as [Hd|[->|Hd]].
  - rewrite Z.sgn_neg by nia. rewrite Z.abs_neq by nia.
    assert (R : (2 * - (d * Z.pos p) + Z.pos p) / (2 * Z.pos p) = - d)
      by (symmetry; apply (Z.div_unique _ _ _ (Z.pos p)); lia).
    rewrite R. lia.
  - cbn. reflexivity.
  - rewrite Z.sgn_pos by nia. rewrite Z.abs_eq by nia.
    assert (R : (2 * (d * Z.pos p) + Z.pos p) / (2 * Z.pos p) = d)
      by (symmetry; apply (Z.div_unique _ _ _ (Z.pos p)); lia).
    rewrite R. lia.
Qed.

Lemma amount_is_stored_exactly (s : string) :
  amountPattern s = true ->
  exists q, parseFloat s = Some q /\ (0 <= q)%Q /\ decimalValue (toDecimal q) = q.
Proof.
  unfold amountPattern.
  assert (Hfinish : forall (n : Z) (nf : nat),
            0 <= n -> (nf <= 7)%nat ->
            let q := Qred ((n # Z.to_pos (10 ^ Z.of_nat nf)) * Qpower (inject_Z 10) 0) in
            (0 <= q)%Q /\ decimalValue (toDecimal q) = q).
  { intros n nf Hn Hnf q.
    assert (Hp : 0 < 10 ^ Z.of_nat nf) by (apply Z.pow_pos_nonneg; lia).
    assert (H7 : 10 ^ Z.of_nat nf * 10 ^ Z.of_nat (7 - nf) = 10000000).
    { rewrite <- Z.pow_add_r by lia.
      replace (Z.of_nat nf + Z.of_nat (7 - nf)) with 7 by lia. reflexivity. }
    assert (Hq : q == (n * 10 ^ Z.of_nat (7 - nf)) # 10000000).
    { unfold q. rewrite Qred_correct. cbn [Qpower].
      unfold Qeq, Qmult. cbn [Qnum Qden].
      rewrite Pos.mul_1_r, Z.mul_1_r, Z2Pos.id by exact Hp.
      change (Z.pos 10000000) with 10000000. rewrite <- H7. ring. }
    split.
    - rewrite Hq. unfold Qle. cbn.
      assert (0 <= 10 ^ Z.of_nat (7 - nf)) by (apply Z.pow_nonneg; lia). nia.
    - rewrite (toDecimal_exact _ _ Hq). unfold decimalValue, q.
      apply Qred_complete. symmetry. rewrite <- Hq. unfold q.
      symmetry. apply Qred_correct. }
  destruct (split "." s) as [|i [|f [|x t]]] eqn:Hsplit; try discriminate.
  - intros H. apply andb_prop in H as [Hne Hi]. apply negb_true_iff in Hne.
    apply split_one in Hsplit. subst i.
    destruct s as [|c r]; [discriminate|].
    pose proof Hi as Hi'. cbn in Hi'. apply andb_prop in Hi' as [Hc _].
    rewrite (proj1 (parseFloat_digits (String c r) (ex_intro _ c (ex_intro _ r (conj eq_refl Hc))))).
    pose proof (takeDigits_digits (String c r) "" 0 0 Hi eq_refl) as T.
    rewrite append_empty in T. rewrite T.
    assert (En : (0 + String.length (String c r) + 0 =? 0)%nat = false)
      by (apply Nat.eqb_neq; cbn; lia).
    rewrite En. change (takeExponent "") with 0.
    rewrite Z.mul_1_r, Z.add_0_r.
    eexists. split; [reflexivity|].
    apply (Hfinish _ 0%nat); [|lia]. now apply digitsValue_nonneg.
  - intros H. apply andb_prop in H as [H Hf]. apply andb_prop in H as [H Hf7].
    apply andb_prop in H as [H Hf1]. apply andb_prop in H as [Hne Hi].
    apply negb_true_iff in Hne. apply Nat.leb_le in Hf1, Hf7.
    apply split_two in Hsplit. subst s.
    destruct i as [|c r]; [discriminate|].
    pose proof Hi as Hi'. cbn in Hi'. apply andb_prop in Hi' as [Hc _].
    rewrite (proj1 (parseFloat_digits (String c r ++ String "." f)
                      (ex_intro _ c (ex_intro _ (r ++ String "." f) (conj eq_refl Hc))))).
    rewrite (takeDigits_digits (String c r) (String "." f) 0 0 Hi eq_refl).
    pose proof (takeDigits_digits f "" 0 0 Hf eq_refl) as T.
    rewrite append_empty in T. rewrite T.
    assert (En : (0 + String.length (String c r) + (0 + String.length f) =? 0)%nat = false)
      by (apply Nat.eqb_neq; cbn; lia).
    rewrite En. change (takeExponent "") with 0.
    eexists. split; [reflexivity|].
    apply (Hfinish _ (0 + String.length f)%nat); [|cbn; lia].
    assert (0 <= digitsValue (String c r) 0) by now apply digitsValue_nonneg.
    assert (0 <= digitsValue f 0) by now apply digitsValue_nonneg.
    assert (0 <= 10 ^ Z.of_nat (0 + String.length f)) by (apply Z.pow_nonneg; lia).
    nia.
Qed.

(** X25. The send route stores an amount below 10^8 as it was asked
    for, without rounding: a request that passes the schema carries an
    amount with at most 7 decimals, and when it is below 10^8 and is
    stored, the stored decimal holds exactly that number, and the amount
    in the reply reads back as the number that was asked for. (From 16
    significant digits on a JavaScript number no longer holds the
    decimal, and the property is not claimed.) *)
Theorem send_route_stores_the_amount_asked_for
        (env : Env) (keycloakId : string) (body : SendPaymentBody)
        (w w' : World) (reply : Reply) :
  (forall q, parseFloat (bodyAmount body) = Some q -> safeNumber q = true) ->
  TransactionController.sendPayment env keycloakId body w = (Ok reply, w') ->
  w' <> w ->
  exists t q,
    transactions w' = (transactions w ++ [t])%list
    /\ parseFloat (bodyAmount body) = Some q
    /\ (0 < q)%Q
    /\ decimalValue (Transaction.amount t) = q
    /\ parseFloat (dataAmount (replyData reply)) = Some q.
Proof.
  intros _. unfold TransactionController.sendPayment.
  destruct (sendPaymentSchema body) eqn:Hschema; cbn [negb]; [|discriminate].
  unfold bind at 1. rewrite getUserByKeycloakId_spec.
  destruct (user_findByKeycloakId keycloakId w) as [user|]; [|discriminate].
  unfold bind at 1.
  destruct (TransactionService.sendPayment env _ w) as [[t|e] w1] eqn:Hsend;
    [|discriminate].
  intros [= <- <-] Hw. cbn [replyData dataAmount].
  destruct (sendPayment_accepted _ _ _ _ _ Hsend Hw).
  destruct (sendPayment_ok _ _ _ _ _ Hsend) as [|? ? ? ? Hrows]; [contradiction|].
  cbn [sendAmount] in Hamount.
  unfold sendPaymentSchema in Hschema. apply andb_prop in Hschema as [_ Hpattern].
  destruct (amount_is_stored_exactly _ Hpattern) as (q & Hq & _ & Hexact).
  rewrite Hamount in Hq. injection Hq as <-.
  exists t, a. split; [exact Hrows|]. split; [exact Hamount|].
  split; [exact Hpositive|].
  rewrite parseFloat_Decimal_toString, Hstored. split; [exact Hexact|].
  now rewrite Hexact.
Qed.

Lemma send_route_stores_the_amount_asked_for_witness :
  exists t q,
    transactions Sample.requested = (transactions Sample.fresh ++ [t])%list
    /\ parseFloat "10" = Some q
    /\ (0 < q)%Q
    /\ decimalValue (Transaction.amount t) = q
    /\ parseFloat "10" = Some q.
Proof.
  apply (send_route_stores_the_amount_asked_for
           (Sample.env 0) "kc1" (Sample.body "10" (Some "key-1")) Sample.fresh
           Sample.requested
           {| replyCode := 201; replySuccess := true;
              replyData :=
                {| dataTransactionId := "tx_0"; dataStatus := CREATED;
                   dataAmount := "10"; dataRecipientHandle := "bob";
                   dataCreatedAt := 1000;
                   dataMessage := "Payment initiated. Check status for confirmation." |} |}).
  - intros q Hq. vm_compute in Hq. injection Hq as <-. reflexivity.
  - vm_compute. reflexivity.
  - intros X. apply (f_equal transactions) in X. vm_compute in X. discriminate X.
Defined.

(** ** A payment the ledger accepted, then a refresh that fails *)

Lemma hashTaken_update id h data ts n w :
  (forall o, Transaction.id (data o) = Transaction.id o) ->
  transactions w = ts ->
  hashTaken id h
    (setTransactions
       (map (fun o => if String.eqb (Transaction.id o) id then data o else o) ts) n w)
  = hashTaken id h w.
Proof.
  intros Hd <-. unfold hashTaken. cbn [transactions setTransactions].
  induction (transactions w) as [|o r IH]; [reflexivity|].
  cbn [map existsb]. rewrite IH. f_equal.
  destruct (String.eqb (Transaction.id o) id) eqn:E; [|now rewrite E].
  rewrite Hd, E. reflexivity.
Qed.

Lemma transaction_update_ok id data w t :
  (forall o, Transaction.id (data o) = Transaction.id o) ->
  transaction_findById id w = Some t ->
  hashTaken id (Transaction.stellarTxHash (data t)) w = false ->
  exists w',
    transaction_update id data w = (Ok (data t), w')
    /\ transaction_findById id w' = Some (data t)
    /\ (forall h, hashTaken id h w' = hashTaken id h w)
    /\ users w' = users w /\ wallets w' = wallets w
    /\ jobs w' = jobs w /\ payments w' = payments w.
Proof.
  intros Hd Hf Hh. unfold transaction_update. rewrite Hf, Hh.
  eexists. split; [reflexivity|]. split; [|split; [|repeat split]].
  - unfold transaction_findById in *. cbn [transactions setTransactions].
    apply (find_map_update Transaction.id); [exact Hd|exact Hf].
  - intros h. now apply hashTaken_update.
Qed.

Section RefreshFailure.
Context {G : AesGcm}.
Variables (env : Env) (job : Job) (w : World).
Variables (t : Transaction.t) (senderWallet receiverWallet storedWallet : Wallet.t).
Variables (secret h : string) (l : Z) (down : HorizonError).
Hypothesis Hfound : transaction_findById (transactionId job) w = Some t.
Hypothesis Hopen : isTerminal (Transaction.status t) = false.
Hypothesis Hhash : hashTaken (transactionId job) (Transaction.stellarTxHash t) w = false.
Hypothesis Hsender : wallet_findByUserId (Transaction.senderId t) w = Some senderWallet.
Hypothesis Hreceiver : wallet_findByUserId (Transaction.receiverId t) w = Some receiverWallet.
Hypothesis Hsecret : WalletService.getDecryptedSecretKey env senderWallet = Ok secret.
Hypothesis Hsubmit :
  submitTransaction (horizon env) (length (payments w))
                    (paymentFor job t secret receiverWallet) = Submitted h l.
Hypothesis Hh : h <> "".
Hypothesis Hfree : hashTaken (transactionId job) (Some h) w = false.
Hypothesis Hstored : wallet_findById (Wallet.id senderWallet) w = Some storedWallet.
Hypothesis Hdown :
  forall pk, loadAccount (horizon env) (S (length (payments w))) pk = AccountFailed down.
Hypothesis Hnot404 : statusIs (responseStatus down) 404 = false.
Hypothesis Hlast : maxRetries (config env) - 1 <= Transaction.retryCount t + 1.

Lemma syncBalance_down id w2 :
  wallets w2 = wallets w ->
  payments w2 = (payments w ++ [paymentFor job t secret receiverWallet])%list ->
  exists e, WalletService.syncBalance env id w2 = (Throw e, w2)
            /\ (wallet_findById id w <> None ->
                e = newStellarError "Failed to get account balance").
Proof.
  intros Hw Hp. unfold WalletService.syncBalance. unfold bind at 1, get.
  unfold wallet_findById. rewrite Hw.
  destruct (find _ (wallets w)) as [x|].
  - unfold bind at 1. unfold StellarService.getBalance, bind, get, throw.
    rewrite Hp, length_app. cbn [length]. rewrite Nat.add_1_r, Hdown, Hnot404.
    eexists. split; [reflexivity|]. reflexivity.
  - eexists. split; [reflexivity|]. intros X. contradiction.
Qed.

(** X26. A failure of the balance refresh that follows a successful
    ledger payment is handled like any other failure. When the ledger
    accepts the payment but cannot be read afterwards, and this is the
    attempt on which the retry counter reaches the maximum less one, the
    worker overwrites the SUCCESS it has just stored: it returns FAILED
    with the refresh error as the reason, and the row ends FAILED with
    the failure reason set, its retry counter incremented, and the hash
    of the payment the ledger accepted still on it. The gateway was
    asked for the payment once, and the cached balances are as before. *)
Theorem accepted_payment_ends_failed_when_the_refresh_fails :
  exists w' stored,
    Worker.processTransaction env job w
    = (Ok {| resultStatus := FAILED; resultHash := None; resultLedger := None;
             resultReason := Some "Failed to get account balance" |}, w')
    /\ payments w' = (payments w ++ [paymentFor job t secret receiverWallet])%list
    /\ wallets w' = wallets w
    /\ transaction_findById (transactionId job) w' = Some stored
    /\ Transaction.status stored = FAILED
    /\ Transaction.stellarTxHash stored = Some h
    /\ Transaction.retryCount stored = Transaction.retryCount t + 1
    /\ Transaction.failureReason stored
       = Some "Max retries exceeded. Last error: Failed to get account balance".
Proof.
  rewrite (processTransaction_steps env job w t senderWallet receiverWallet secret
             Hfound Hopen Hhash Hsender Hreceiver Hsecret).
  destruct (transaction_update_ok (transactionId job) (TransactionService.statusUpdate env PENDING noMetadata)
              w t (fun o => eq_refl) Hfound Hhash)
    as (wP & HP & HfP & HhP & _ & HwP & _ & HpP).
  change (transaction_update (transactionId job) (TransactionService.statusUpdate env PENDING noMetadata))
    with (TransactionService.updateTransactionStatus env (transactionId job) PENDING noMetadata) in HP.
  rewrite HP. cbn [snd].
  set (tP := TransactionService.statusUpdate env PENDING noMetadata t) in *.
  set (p := paymentFor job t secret receiverWallet) in *.
  unfold tryCatch, afterDecryption. unfold bind at 1.
  assert (Hpay : StellarService.sendPayment env
                   {| fromSecretKey := secret;
                      toPublicKey := Wallet.stellarPublicKey receiverWallet;
                      amount := Decimal_toString (Transaction.amount t);
                      memo := Some (transactionId job) |} wP
                 = (Ok {| hash := h; ledger := l |}, addPayment p wP)).
  { unfold StellarService.sendPayment, bind, get, modify, ret.
    rewrite HpP. pose proof Hsubmit as Hs. unfold p, paymentFor in Hs.
    now rewrite Hs. }
  rewrite Hpay. unfold bind at 1.
  set (md := {| stellarTxHash := Some (hash {| hash := h; ledger := l |});
                stellarLedger := Some (ledger {| hash := h; ledger := l |});
                failureReason := None |}).
  assert (HhashS : Transaction.stellarTxHash (TransactionService.statusUpdate env SUCCESS md tP)
                   = Some h).
  { cbn. destruct h; [contradiction|reflexivity]. }
  destruct (transaction_update_ok (transactionId job) (TransactionService.statusUpdate env SUCCESS md)
              (addPayment p wP) tP (fun o => eq_refl))
    as (w2 & H2 & Hf2 & Hh2 & _ & Hw2 & _ & Hp2).
  { exact HfP. }
  { rewrite HhashS. change (hashTaken (transactionId job) (Some h) (addPayment p wP))
      with (hashTaken (transactionId job) (Some h) wP). now rewrite HhP. }
  change (transaction_update (transactionId job) (TransactionService.statusUpdate env SUCCESS md))
    with (TransactionService.updateTransactionStatus env (transactionId job) SUCCESS md) in H2.
  rewrite H2. unfold bind at 1.
  set (tS := TransactionService.statusUpdate env SUCCESS md tP) in *.
  assert (Hwallets2 : wallets w2 = wallets w) by (rewrite Hw2; cbn; exact HwP).
  assert (Hpayments2 : payments w2 = (payments w ++ [p])%list)
    by (rewrite Hp2; cbn; now rewrite HpP).
  assert (Hsync : Worker.syncBalances env (Wallet.id senderWallet) (Wallet.id receiverWallet) w2
                  = (Throw (newStellarError "Failed to get account balance"), w2)).
  { unfold Worker.syncBalances.
    destruct (syncBalance_down (Wallet.id senderWallet) w2 Hwallets2 Hpayments2)
      as (e1 & -> & He1).
    destruct (syncBalance_down (Wallet.id receiverWallet) w2 Hwallets2 Hpayments2)
      as (e2 & -> & _).
    rewrite He1; [reflexivity|]. rewrite Hstored. discriminate. }
  rewrite Hsync.
  unfold onFailure. unfold bind at 1. unfold TransactionService.incrementRetryCount.
  unfold bind at 1.
  destruct (transaction_update_ok (transactionId job) TransactionService.retryIncrement w2 tS
              (fun o => eq_refl) Hf2)
    as (w3 & H3 & Hf3 & Hh3 & _ & Hw3 & _ & Hp3).
  { change (Transaction.stellarTxHash (TransactionService.retryIncrement tS))
      with (Transaction.stellarTxHash tS). rewrite HhashS.
      rewrite Hh2. change (hashTaken (transactionId job) (Some h) (addPayment p wP))
      with (hashTaken (transactionId job) (Some h) wP). now rewrite HhP. }
  rewrite H3. unfold ret at 1. unfold bind at 1, get. rewrite Hf3.
  assert (Hcond : (maxRetries (config env) - 1
                   <=? Transaction.retryCount (TransactionService.retryIncrement tS)) = true).
  { apply Z.leb_le. cbn. exact Hlast. }
  rewrite Hcond. unfold bind at 1.
  set (mdF := {| stellarTxHash := None; stellarLedger := None;
                 failureReason := Some ("Max retries exceeded. Last error: "
                                        ++ message (newStellarError "Failed to get account balance")) |}).
  destruct (transaction_update_ok (transactionId job) (TransactionService.statusUpdate env FAILED mdF)
              w3 (TransactionService.retryIncrement tS) (fun o => eq_refl) Hf3)
    as (w4 & H4 & Hf4 & _ & _ & Hw4 & _ & Hp4).
  { change (Transaction.stellarTxHash
              (TransactionService.statusUpdate env FAILED mdF
                 (TransactionService.retryIncrement tS)))
      with (Transaction.stellarTxHash tS). rewrite HhashS.
    rewrite Hh3, Hh2. change (hashTaken (transactionId job) (Some h) (addPayment p wP))
      with (hashTaken (transactionId job) (Some h) wP). now rewrite HhP. }
  change (transaction_update (transactionId job) (TransactionService.statusUpdate env FAILED mdF))
    with (TransactionService.updateTransactionStatus env (transactionId job) FAILED mdF) in H4.
  rewrite H4. unfold ret.
  eexists. eexists. split; [reflexivity|].
  split; [congruence|]. split; [congruence|]. split; [exact Hf4|].
  split; [reflexivity|]. split; [exact HhashS|]. split; reflexivity.
Qed.

End RefreshFailure.

Lemma accepted_payment_ends_failed_when_the_refresh_fails_witness :
  exists w' stored,
    Worker.processTransaction (G := xorGcm) Cases.unreadable Sample.job Cases.secondAttempt
    = (Ok {| resultStatus := FAILED; resultHash := None; resultLedger := None;
             resultReason := Some "Failed to get account balance" |}, w')
    /\ payments w'
       = (payments Cases.secondAttempt
          ++ [paymentFor Sample.job (Sample.retried PENDING 1 None None) "SALICE"
                (Sample.wallet (G := xorGcm) "w2" "u2" "GBOB" "SBOB" 0 WALLET_ACTIVE)])%list
    /\ wallets w' = wallets Cases.secondAttempt
    /\ transaction_findById (transactionId Sample.job) w' = Some stored
    /\ Transaction.status stored = FAILED
    /\ Transaction.stellarTxHash stored = Some "hash1"
    /\ Transaction.retryCount stored
       = Transaction.retryCount (Sample.retried PENDING 1 None None) + 1
    /\ Transaction.failureReason stored
       = Some "Max retries exceeded. Last error: Failed to get account balance".
Proof.
  apply (accepted_payment_ends_failed_when_the_refresh_fails
           (G := xorGcm) Cases.unreadable Sample.job Cases.secondAttempt
           (Sample.retried PENDING 1 None None)
           (Sample.wallet (G := xorGcm) "w1" "u1" "GALICE" "SALICE"
              (50 * unitsPerXlm) WALLET_ACTIVE)
           (Sample.wallet (G := xorGcm) "w2" "u2" "GBOB" "SBOB" 0 WALLET_ACTIVE)
           (Sample.wallet (G := xorGcm) "w1" "u1" "GALICE" "SALICE"
              (50 * unitsPerXlm) WALLET_ACTIVE)
           "SALICE" "hash1" 42 Sample.unavailable).
  - reflexivity.
  - reflexivity.
  - reflexivity.
  - reflexivity.
  - reflexivity.
  - vm_compute. reflexivity.
  - reflexivity.
  - discriminate.
  - reflexivity.
  - reflexivity.
  - intros pk. reflexivity.
  - reflexivity.
  - vm_compute. discriminate.
Defined.

(** ** Retry accounting *)

Lemma preserves_bind {A B : Type} (P : World -> Prop) (m : M A) (k : A -> M B) :
  preserves P m -> (forall a, preserves P (k a)) -> preserves P (bind m k).
Proof.
  intros Hm Hk w r w' HP H. unfold bind in H.
  destruct (m w) as [[a|e] w1] eqn:E.
  - exact (Hk a _ _ _ (Hm _ _ _ HP E) H).
  - injection H as _ <-. exact (Hm _ _ _ HP E).
Qed.

Lemma preserves_ret {A : Type} (P : World -> Prop) (a : A) : preserves P (ret a).
Proof. intros w r w' HP [= _ <-]. exact HP. Qed.

Lemma preserves_throw {A : Type} (P : World -> Prop) (e : Exn) : preserves P (@throw A e).
Proof. intros w r w' HP [= _ <-]. exact HP. Qed.

Lemma counted_statusUpdate env id rc st md :
  preserves (counted id rc) (TransactionService.updateTransactionStatus env id st md).
Proof.
  intros w r w' (t & Hf & Hrc & Hh) H.
  unfold TransactionService.updateTransactionStatus, transaction_update in H.
  rewrite Hf in H.
  destruct (hashTaken id (Transaction.stellarTxHash
                           (TransactionService.statusUpdate env st md t)) w) eqn:Hnew.
  - injection H as _ <-. now exists t.
  - injection H as _ <-. exists (TransactionService.statusUpdate env st md t).
    split; [|split; [exact Hrc|]].
    + unfold transaction_findById in *. cbn [transactions setTransactions].
      apply (find_map_update Transaction.id); [reflexivity|exact Hf].
    + rewrite hashTaken_update; [exact Hnew|reflexivity|reflexivity].
Qed.

Lemma counted_same_transactions id rc w w' :
  transactions w' = transactions w -> counted id rc w -> counted id rc w'.
Proof.
  intros E (t & Hf & Hrc & Hh). exists t.
  unfold transaction_findById, hashTaken in *. rewrite E. auto.
Qed.

Lemma counted_settle {G : AesGcm} env id rc :
  preserves (counted id rc) (Worker.settle env id).
Proof.
  intros w r w' HP H. unfold Worker.settle in H. unfold bind at 1, get in H.
  destruct (transaction_findById id w) as [t|].
  2:{ injection H as _ <-. exact HP. }
  destruct (isTerminal (Transaction.status t)).
  { injection H as _ <-. exact HP. }
  destruct (wallet_findByUserId (Transaction.senderId t) w) as [sw|].
  2:{ revert w r w' HP H. apply preserves_bind; [apply counted_statusUpdate|].
      intros _. apply preserves_throw. }
  destruct (wallet_findByUserId (Transaction.receiverId t) w) as [rw|].
  2:{ revert w r w' HP H. apply preserves_bind; [apply counted_statusUpdate|].
      intros _. apply preserves_throw. }
  revert w r w' HP H. apply preserves_bind; [apply counted_statusUpdate|].
  intros _. apply preserves_bind.
  { intros w r w' HP [= _ <-]. exact HP. }
  intros secret. apply preserves_bind.
  { intros w r w' HP H. apply sendPayment_pays in H. subst w'.
    revert HP. now apply counted_same_transactions. }
  intros result. apply preserves_bind; [apply counted_statusUpdate|].
  intros _. apply preserves_bind.
  { intros w r w' HP H. apply syncBalances_transactions in H.
    revert HP. now apply counted_same_transactions. }
  intros _. apply preserves_ret.
Qed.

Lemma settle_reason_none {G : AesGcm} env id w res w' :
  Worker.settle env id w = (Ok res, w') -> resultReason res = None.
Proof.
  unfold Worker.settle, bind, get, ret, throw, liftOutcome. intros Hs.
  destruct (transaction_findById id w); [|discriminate].
  destruct (isTerminal _); [now injection Hs as <- _|].
  run_all; reflexivity.
Qed.

Lemma onFailure_counted env id rc error w :
  counted id rc w ->
  (maxRetries (config env) - 1 <= rc + 1 ->
   exists w' t',
     onFailure env id error w
     = (Ok {| resultStatus := FAILED; resultHash := None; resultLedger := None;
              resultReason := Some (message error) |}, w')
     /\ transaction_findById id w' = Some t'
     /\ Transaction.status t' = FAILED
     /\ Transaction.retryCount t' = rc + 1
     /\ Transaction.failureReason t'
        = Some ("Max retries exceeded. Last error: " ++ message error))
  /\ (rc + 1 < maxRetries (config env) - 1 ->
      exists w' t',
        onFailure env id error w = (Throw error, w')
        /\ transaction_findById id w' = Some t'
        /\ Transaction.retryCount t' = rc + 1).
Proof.
  intros (t & Hf & Hrc & Hh).
  destruct (transaction_update_ok id TransactionService.retryIncrement w t
              (fun o => eq_refl) Hf Hh)
    as (w2 & H2 & Hf2 & Hh2 & _).
  set (md := {| stellarTxHash := None; stellarLedger := None;
                failureReason := Some ("Max retries exceeded. Last error: "
                                       ++ message error) |}).
  assert (Hrun : onFailure env id error w
                 = if maxRetries (config env) - 1 <=? rc + 1
                   then (TransactionService.updateTransactionStatus env id FAILED md ;;;
                         ret {| resultStatus := FAILED; resultHash := None;
                                resultLedger := None;
                                resultReason := Some (message error) |}) w2
                   else (Throw error, w2)).
  { unfold onFailure, TransactionService.incrementRetryCount.
    unfold bind at 1. unfold bind at 1. rewrite H2. unfold ret at 1.
    unfold bind at 1, get. rewrite Hf2. cbv beta iota.
    change (Transaction.retryCount (TransactionService.retryIncrement t))
      with (Transaction.retryCount t + 1). rewrite Hrc.
    destruct (_ <=? _); reflexivity. }
  rewrite Hrun. clear Hrun.
  destruct (maxRetries (config env) - 1 <=? rc + 1) eqn:E.
  - apply Z.leb_le in E. split; [intros _|intros X; lia].
    destruct (transaction_update_ok id (TransactionService.statusUpdate env FAILED md) w2
                (TransactionService.retryIncrement t) (fun o => eq_refl) Hf2)
      as (w3 & H3 & Hf3 & _).
    { change (Transaction.stellarTxHash
                (TransactionService.statusUpdate env FAILED md
                   (TransactionService.retryIncrement t)))
        with (Transaction.stellarTxHash t). now rewrite Hh2. }
    change (transaction_update id (TransactionService.statusUpdate env FAILED md))
      with (TransactionService.updateTransactionStatus env id FAILED md) in H3.
    unfold bind at 1. rewrite H3. unfold ret.
    exists w3, (TransactionService.statusUpdate env FAILED md
                  (TransactionService.retryIncrement t)).
    split; [reflexivity|]. split; [exact Hf3|]. split; [reflexivity|].
    split; [cbn; now rewrite Hrc|reflexivity].
  - apply Z.leb_gt in E. split; [intros X; lia|intros _].
    exists w2, (TransactionService.retryIncrement t).
    split; [reflexivity|]. split; [exact Hf2|]. cbn. now rewrite Hrc.
Qed.

(** X27. The worker counts every failed run once and gives up by the
    count alone. For a stored transaction whose settlement hash no
    other row carries: a run that throws, and so hands the job back to
    the queue, has raised the retry counter by one to a value still
    below the maximum less one; a run that returns FAILED by its own
    decision has raised it by one to a value that has reached the
    maximum less one; every other run that returns leaves the counter as
    it was. So a job is retried exactly while the raised counter is
    below [maxRetries - 1]. *)
Theorem worker_counts_every_failed_run
        (G : AesGcm) (env : Env) (job : Job) (w : World) (t : Transaction.t) :
  transaction_findById (transactionId job) w = Some t ->
  hashTaken (transactionId job) (Transaction.stellarTxHash t) w = false ->
  (forall e w',
     Worker.processTransaction env job w = (Throw e, w') ->
     Transaction.retryCount t + 1 < maxRetries (config env) - 1
     /\ exists t', transaction_findById (transactionId job) w' = Some t'
                   /\ Transaction.retryCount t' = Transaction.retryCount t + 1)
  /\ (forall res w',
        Worker.processTransaction env job w = (Ok res, w') ->
        exists t',
          transaction_findById (transactionId job) w' = Some t'
          /\ ((resultReason res = None
               /\ Transaction.retryCount t' = Transaction.retryCount t)
              \/ (resultStatus res = FAILED
                  /\ Transaction.status t' = FAILED
                  /\ Transaction.retryCount t' = Transaction.retryCount t + 1
                  /\ maxRetries (config env) - 1 <= Transaction.retryCount t + 1))).
Proof.
  intros Hf Hh.
  assert (HP : counted (transactionId job) (Transaction.retryCount t) w)
    by (exists t; auto).
  unfold Worker.processTransaction, tryCatch.
  destruct (Worker.settle env (transactionId job) w) as [[a|x] w1] eqn:Hs;
    pose proof (counted_settle env _ _ _ _ _ HP Hs) as HP1.
  - split; [discriminate|]. intros res w' [= <- <-].
    destruct HP1 as (t1 & Hf1 & Hrc1 & _). exists t1. split; [exact Hf1|].
    left. split; [exact (settle_reason_none _ _ _ _ _ Hs)|exact Hrc1].
  - destruct (onFailure_counted env _ _ x _ HP1) as [Hlast Hmore].
    destruct (Z.le_gt_cases (maxRetries (config env) - 1) (Transaction.retryCount t + 1))
      as [Hle|Hgt].
    + destruct (Hlast Hle) as (w3 & t3 & H3 & Hf3 & Hst & Hrc3 & _).
      split.
      * intros e w' H. exfalso.
        change (onFailure env (transactionId job) x w1 = (Throw e, w')) in H.
        rewrite H3 in H. discriminate.
      * intros res w' H.
        change (onFailure env (transactionId job) x w1 = (Ok res, w')) in H.
        rewrite H3 in H. injection H as <- <-. exists t3. split; [exact Hf3|].
        right. auto.
    + destruct (Hmore Hgt) as (w2 & t2 & H2 & Hf2 & Hrc2).
      split.
      * intros e w' H.
        change (onFailure env (transactionId job) x w1 = (Throw e, w')) in H.
        rewrite H2 in H. injection H as _ <-. split; [exact Hgt|]. now exists t2.
      * intros res w' H. exfalso.
        change (onFailure env (transactionId job) x w1 = (Ok res, w')) in H.
        rewrite H2 in H. discriminate.
Qed.

Lemma worker_counts_every_failed_run_witness :
  let run := Worker.processTransaction (G := xorGcm) (Sample.env 2) Sample.job
               (Sample.stored ACTIVE WALLET_ACTIVE WALLET_ACTIVE CREATED) in
  run = (Throw (newStellarError "Payment failed: Request timed out"), snd run)
  /\ Transaction.retryCount (Sample.tx CREATED) + 1 < maxRetries (config (Sample.env 2)) - 1
  /\ exists t', transaction_findById (transactionId Sample.job) (snd run) = Some t'
                /\ Transaction.retryCount t' = Transaction.retryCount (Sample.tx CREATED) + 1.
Proof.
  cbv zeta.
  assert (H : Worker.processTransaction (G := xorGcm) (Sample.env 2) Sample.job
                (Sample.stored ACTIVE WALLET_ACTIVE WALLET_ACTIVE CREATED)
              = (Throw (newStellarError "Payment failed: Request timed out"),
                 snd (Worker.processTransaction (G := xorGcm) (Sample.env 2) Sample.job
                        (Sample.stored ACTIVE WALLET_ACTIVE WALLET_ACTIVE CREATED))))
    by (vm_compute; reflexivity).
  split; [exact H|].
  exact (proj1 (worker_counts_every_failed_run
                  xorGcm (Sample.env 2) Sample.job
                  (Sample.stored ACTIVE WALLET_ACTIVE WALLET_ACTIVE CREATED)
                  (Sample.tx CREATED) eq_refl eq_refl) _ _ H).
Defined.

(** ** Settlement of an accepted payment *)

Lemma find_map_other {A : Type} (key : A -> string) (id other : string)
      (data : A -> A) (l : list A) :
  (forall x, key (data x) = key x) ->
  id <> other ->
  find (fun x => String.eqb (key x) other)
       (map (fun x => if String.eqb (key x) id then data x else x) l)
  = find (fun x => String.eqb (key x) other) l.
Proof.
  intros Hk Hne. induction l as [|x r IH]; [reflexivity|].
  cbn. destruct (String.eqb (key x) id) eqn:E.
  - rewrite Hk. apply String.eqb_eq in E.
    assert (X : String.eqb (key x) other = false) by (apply String.eqb_neq; congruence).
    rewrite X. exact IH.
  - destruct (String.eqb (key x) other); [reflexivity|exact IH].
Qed.

Lemma syncBalance_ok env id w wallet live b :
  wallet_findById id w = Some wallet ->
  StellarService.getBalance env (Wallet.stellarPublicKey wallet) w = (Ok live, w) ->
  parseFloat live = Some b ->
  WalletService.syncBalance env id w
  = (Ok live,
     setWallets (map (fun o => if String.eqb (Wallet.id o) id
                               then WalletService.setBalance (toDecimal b) o else o)
                     (wallets w)) w).
Proof.
  intros Hw Hg Hb. unfold WalletService.syncBalance. unfold bind at 1, get.
  rewrite Hw. unfold bind at 1. rewrite Hg, Hb.
  unfold bind, wallet_update, ret. now rewrite Hw.
Qed.

Section Settlement.
Context {G : AesGcm}.
Variables (env : Env) (job : Job) (w : World).
Variables (t : Transaction.t) (senderWallet receiverWallet : Wallet.t).
Variables (secret h : string) (l : Z) (senderLive receiverLive : string) (bs br : Q).
Hypothesis Hfound : transaction_findById (transactionId job) w = Some t.
Hypothesis Hopen : isTerminal (Transaction.status t) = false.
Hypothesis Hhash : hashTaken (transactionId job) (Transaction.stellarTxHash t) w = false.
Hypothesis Hsender : wallet_findByUserId (Transaction.senderId t) w = Some senderWallet.
Hypothesis Hreceiver : wallet_findByUserId (Transaction.receiverId t) w = Some receiverWallet.
Hypothesis HsenderId : wallet_findById (Wallet.id senderWallet) w = Some senderWallet.
Hypothesis HreceiverId : wallet_findById (Wallet.id receiverWallet) w = Some receiverWallet.
Hypothesis Hdistinct : Wallet.id senderWallet <> Wallet.id receiverWallet.
Hypothesis Hsecret : WalletService.getDecryptedSecretKey env senderWallet = Ok secret.
Hypothesis Hsubmit :
  submitTransaction (horizon env) (length (payments w))
                    (paymentFor job t secret receiverWallet) = Submitted h l.
Hypothesis Hh : h <> "".
Hypothesis Hfree : hashTaken (transactionId job) (Some h) w = false.
Hypothesis HsenderLive :
  StellarService.getBalance env (Wallet.stellarPublicKey senderWallet)
    (addPayment (paymentFor job t secret receiverWallet) w)
  = (Ok senderLive, addPayment (paymentFor job t secret receiverWallet) w).
Hypothesis HreceiverLive :
  StellarService.getBalance env (Wallet.stellarPublicKey receiverWallet)
    (addPayment (paymentFor job t secret receiverWallet) w)
  = (Ok receiverLive, addPayment (paymentFor job t secret receiverWallet) w).
Hypothesis Hbs : parseFloat senderLive = Some bs.
Hypothesis Hbr : parseFloat receiverLive = Some br.

Lemma getBalance_at pk w2 live :
  payments w2 = (payments w ++ [paymentFor job t secret receiverWallet])%list ->
  StellarService.getBalance env pk (addPayment (paymentFor job t secret receiverWallet) w)
  = (Ok live, addPayment (paymentFor job t secret receiverWallet) w) ->
  StellarService.getBalance env pk w2 = (Ok live, w2).
Proof.
  intros Hp Hg. rewrite getBalance_total.
  rewrite (getBalance_same_payments env pk w2
             (addPayment (paymentFor job t secret receiverWallet) w)) by exact Hp.
  now rewrite Hg.
Qed.

(** X28. An accepted payment is settled. When the worker finds the
    payment open, the sender's secret can be read, the ledger accepts
    the payment and reports both balances afterwards, then the run
    returns SUCCESS with the ledger's hash and ledger number, exactly
    one payment was sent, the row is stored as SUCCESS with that hash,
    the completion time of the run and its retry count and amount
    untouched, and both wallets' cached balances are the ledger's. *)
Theorem accepted_payment_is_settled :
  exists w' stored,
    Worker.processTransaction env job w
    = (Ok {| resultStatus := SUCCESS; resultHash := Some h; resultLedger := Some l;
             resultReason := None |}, w')
    /\ payments w' = (payments w ++ [paymentFor job t secret receiverWallet])%list
    /\ transaction_findById (transactionId job) w' = Some stored
    /\ Transaction.status stored = SUCCESS
    /\ Transaction.stellarTxHash stored = Some h
    /\ Transaction.completedAt stored = Some (now env)
    /\ Transaction.retryCount stored = Transaction.retryCount t
    /\ Transaction.amount stored = Transaction.amount t
    /\ wallet_findById (Wallet.id senderWallet) w'
       = Some (WalletService.setBalance (toDecimal bs) senderWallet)
    /\ wallet_findById (Wallet.id receiverWallet) w'
       = Some (WalletService.setBalance (toDecimal br) receiverWallet).
Proof.
  rewrite (processTransaction_steps env job w t senderWallet receiverWallet secret
             Hfound Hopen Hhash Hsender Hreceiver Hsecret).
  destruct (transaction_update_ok (transactionId job)
              (TransactionService.statusUpdate env PENDING noMetadata)
              w t (fun o => eq_refl) Hfound Hhash)
    as (wP & HP & HfP & HhP & _ & HwP & _ & HpP).
  change (transaction_update (transactionId job)
            (TransactionService.statusUpdate env PENDING noMetadata))
    with (TransactionService.updateTransactionStatus env (transactionId job)
            PENDING noMetadata) in HP.
  rewrite HP. cbn [snd].
  set (tP := TransactionService.statusUpdate env PENDING noMetadata t) in *.
  set (p := paymentFor job t secret receiverWallet) in *.
  unfold tryCatch, afterDecryption. unfold bind at 1.
  assert (Hpay : StellarService.sendPayment env
                   {| fromSecretKey := secret;
                      toPublicKey := Wallet.stellarPublicKey receiverWallet;
                      amount := Decimal_toString (Transaction.amount t);
                      memo := Some (transactionId job) |} wP
                 = (Ok {| hash := h; ledger := l |}, addPayment p wP)).
  { unfold StellarService.sendPayment, bind, get, modify, ret.
    rewrite HpP. pose proof Hsubmit as Hs. unfold p, paymentFor in Hs.
    now rewrite Hs. }
  rewrite Hpay. unfold bind at 1.
  set (md := {| stellarTxHash := Some (hash {| hash := h; ledger := l |});
                stellarLedger := Some (ledger {| hash := h; ledger := l |});
                failureReason := None |}).
  assert (HhashS : Transaction.stellarTxHash
                     (TransactionService.statusUpdate env SUCCESS md tP) = Some h).
  { cbn. destruct h; [contradiction|reflexivity]. }
  destruct (transaction_update_ok (transactionId job)
              (TransactionService.statusUpdate env SUCCESS md)
              (addPayment p wP) tP (fun o => eq_refl))
    as (w2 & H2 & Hf2 & Hh2 & _ & Hw2 & _ & Hp2).
  { exact HfP. }
  { rewrite HhashS. change (hashTaken (transactionId job) (Some h) (addPayment p wP))
      with (hashTaken (transactionId job) (Some h) wP). now rewrite HhP. }
  change (transaction_update (transactionId job)
            (TransactionService.statusUpdate env SUCCESS md))
    with (TransactionService.updateTransactionStatus env (transactionId job) SUCCESS md)
    in H2.
  rewrite H2. unfold bind at 1.
  set (tS := TransactionService.statusUpdate env SUCCESS md tP) in *.
  assert (Hwallets2 : wallets w2 = wallets w) by (rewrite Hw2; cbn; exact HwP).
  assert (Hpayments2 : payments w2 = (payments w ++ [p])%list)
    by (rewrite Hp2; cbn; now rewrite HpP).
  set (w3 := setWallets
               (map (fun o => if String.eqb (Wallet.id o) (Wallet.id senderWallet)
                              then WalletService.setBalance (toDecimal bs) o else o)
                    (wallets w2)) w2).
  assert (Hs1 : WalletService.syncBalance env (Wallet.id senderWallet) w2 = (Ok senderLive, w3)).
  { apply (syncBalance_ok env _ w2 senderWallet senderLive bs);
      [|now apply getBalance_at|exact Hbs].
    unfold wallet_findById. rewrite Hwallets2. exact HsenderId. }
  set (w4 := setWallets
               (map (fun o => if String.eqb (Wallet.id o) (Wallet.id receiverWallet)
                              then WalletService.setBalance (toDecimal br) o else o)
                    (wallets w3)) w3).
  assert (Hs2 : WalletService.syncBalance env (Wallet.id receiverWallet) w3
                = (Ok receiverLive, w4)).
  { apply (syncBalance_ok env _ w3 receiverWallet receiverLive br);
      [|apply getBalance_at; [exact Hpayments2|exact HreceiverLive]|exact Hbr].
    unfold wallet_findById, w3. cbn [wallets setWallets]. rewrite Hwallets2.
    rewrite (find_map_other Wallet.id); [exact HreceiverId|reflexivity|exact Hdistinct]. }
  assert (Hsync : Worker.syncBalances env (Wallet.id senderWallet)
                    (Wallet.id receiverWallet) w2 = (Ok tt, w4)).
  { unfold Worker.syncBalances. now rewrite Hs1, Hs2. }
  rewrite Hsync. unfold bind, ret. cbn [hash ledger].
  exists w4, tS. split; [reflexivity|].
  split; [exact Hpayments2|]. split.
  { exact Hf2. }
  split; [reflexivity|]. split; [exact HhashS|]. split; [reflexivity|].
  split; [reflexivity|]. split; [reflexivity|].
  unfold wallet_findById, w4, w3. cbn [wallets setWallets]. rewrite Hwallets2. split.
  - rewrite (find_map_other Wallet.id);
      [|reflexivity|intros X; apply Hdistinct; now symmetry].
    apply (find_map_update Wallet.id); [reflexivity|exact HsenderId].
  - apply (find_map_update Wallet.id); [reflexivity|].
    rewrite (find_map_other Wallet.id); [exact HreceiverId|reflexivity|exact Hdistinct].
Qed.

End Settlement.

(** The sample payment of 10 from Alice to Bob on a ledger that settles. *)
Lemma accepted_payment_is_settled_witness :
  exists w' stored,
    Worker.processTransaction (G := xorGcm) Cases.settling Sample.job
      (Sample.stored ACTIVE WALLET_ACTIVE WALLET_ACTIVE CREATED)
    = (Ok {| resultStatus := SUCCESS; resultHash := Some "hash1"; resultLedger := Some 42;
             resultReason := None |}, w')
    /\ payments w'
       = (payments (Sample.stored ACTIVE WALLET_ACTIVE WALLET_ACTIVE CREATED)
          ++ [paymentFor Sample.job (Sample.tx CREATED) "SALICE"
                (Sample.wallet (G := xorGcm) "w2" "u2" "GBOB" "SBOB" 0 WALLET_ACTIVE)])%list
    /\ transaction_findById (transactionId Sample.job) w' = Some stored
    /\ Transaction.status stored = SUCCESS
    /\ Transaction.stellarTxHash stored = Some "hash1"
    /\ Transaction.completedAt stored = Some (now Cases.settling)
    /\ Transaction.retryCount stored = Transaction.retryCount (Sample.tx CREATED)
    /\ Transaction.amount stored = Transaction.amount (Sample.tx CREATED)
    /\ wallet_findById "w1" w'
       = Some (WalletService.setBalance (toDecimal (3999999 # 100000))
                 (Sample.wallet (G := xorGcm) "w1" "u1" "GALICE" "SALICE"
                    (50 * unitsPerXlm) WALLET_ACTIVE))
    /\ wallet_findById "w2" w'
       = Some (WalletService.setBalance (toDecimal 10)
                 (Sample.wallet (G := xorGcm) "w2" "u2" "GBOB" "SBOB" 0 WALLET_ACTIVE)).
Proof.
  apply (accepted_payment_is_settled
           (G := xorGcm) Cases.settling Sample.job
           (Sample.stored ACTIVE WALLET_ACTIVE WALLET_ACTIVE CREATED)
           (Sample.tx CREATED)
           (Sample.wallet (G := xorGcm) "w1" "u1" "GALICE" "SALICE"
              (50 * unitsPerXlm) WALLET_ACTIVE)
           (Sample.wallet (G := xorGcm) "w2" "u2" "GBOB" "SBOB" 0 WALLET_ACTIVE)
           "SALICE" "hash1" 42 "39.9999900" "10.0000000").
  - reflexivity.
  - reflexivity.
  - reflexivity.
  - reflexivity.
  - reflexivity.
  - reflexivity.
  - reflexivity.
  - discriminate.
  - vm_compute. reflexivity.
  - reflexivity.
  - discriminate.
  - reflexivity.
  - reflexivity.
  - reflexivity.
  - vm_compute. reflexivity.
  - vm_compute. reflexivity.
Defined.

(** ** Requests and their answers *)

Lemma optionEqb_true_key (a b : option string) :
  optionEqb a b = true -> exists k, a = Some k /\ b = Some k.
Proof.
  destruct a as [x|], b as [y|]; cbn; try discriminate.
  intros H. apply String.eqb_eq in H. subst. now exists y.
Qed.









Lemma requireAdmin_passes (user : option RequestUser) :
  AuthMiddleware.requireAdmin user = Ok tt
  <-> exists u, user = Some u /\ In "ADMIN" (roles u).
Proof.
  unfold AuthMiddleware.requireAdmin, AuthMiddleware.requireRole.
  destruct user as [u|].
  2:{ split; [discriminate|]. intros (u & X & _). discriminate X. }
  cbn [existsb]. rewrite orb_false_r.
  destruct (includes (roles u) "ADMIN") eqn:E; cbn [negb].
  - split; [|reflexivity]. intros _. exists u. split; [reflexivity|].
    now apply includes_In.
  - split; [discriminate|]. intros (u' & [= <-] & Hin).
    apply includes_In in Hin. congruence.
Qed.

